(** * The Monte Carlo simulation driver of OPGEE (opgee/mcs/simulation.py)

    A shallow embedding of [read_distributions], the [Distribution] registry
    and the [Simulation] class, with the properties of the driver stated
    and proved over it.

    Python objects are modelled with explicit state: the class attribute
    [Distribution.instances], the file store, the model objects built by
    [ModelFile] (a heap indexed by object identity) and the [Simulation]
    instance itself are the components of one state record, threaded
    through a state-and-exception monad in which a raised exception keeps
    the side effects made before it.  A trace of events records the order
    of the effects. *)

From Stdlib Require Import ZArith QArith String Ascii DecimalString Lia.
From stdpp Require Import base option list gmap strings.

Local Open Scope string_scope.
Local Open Scope Z_scope.
Local Open Scope list_scope.

(** ** Strings *)

Definition nl : string := String "010"%char EmptyString.
Definition dquote : string := String "034"%char EmptyString.
Definition squote : string := "'".

(** [str.lower()] on the ASCII letters. *)
Definition lower_ascii (c : ascii) : ascii :=
  let n := nat_of_ascii c in
  if (Nat.leb 65 n && Nat.leb n 90)%bool then ascii_of_nat (n + 32) else c.

Fixpoint lower (s : string) : string :=
  match s with
  | EmptyString => EmptyString
  | String c s' => String (lower_ascii c) (lower s')
  end.

(** [s.split(sep)] for a one-character separator: the list of the maximal
    separator-free pieces, never empty. *)
Fixpoint split_on (sep : ascii) (s : string) : list string :=
  match s with
  | EmptyString => [EmptyString]
  | String c s' =>
      if Ascii.eqb c sep then EmptyString :: split_on sep s'
      else match split_on sep s' with
           | [] => [String c EmptyString]
           | tok :: toks => String c tok :: toks
           end
  end.

(** [sep.join(l)] *)
Fixpoint join (sep : string) (l : list string) : string :=
  match l with
  | [] => EmptyString
  | [x] => x
  | x :: l' => x +:+ sep +:+ join sep l'
  end.

(** [str(n)] for a Python int. *)
Definition show_Z (z : Z) : string := NilZero.string_of_int (Z.to_int z).

(** ** Paths and the file store *)

Definition path := list string.

(** [opgee.config.pathjoin(d, x)]: one more component. *)
Definition pathjoin (d : path) (x : string) : path := d ++ [x].

Definition path_str (p : path) : string := join "/" p.

Definition TRIAL_DATA_CSV := "trial_data.csv".
Definition RESULTS_CSV := "results.csv".
Definition FAILURES_CSV := "failures.csv".
Definition MODEL_FILE := "merged_model.xml".
Definition META_DATA_FILE := "metadata.json".

(** ** Exceptions *)

Inductive exn :=
| McsUserError (msg : string)
| McsSystemError (msg : string)
| CommandlineError (msg : string)
| OpgeeException (msg : string)
| OtherError (msg : string).   (* any other subclass of Exception *)

(** [str(e)] *)
Definition exn_msg (e : exn) : string :=
  match e with
  | McsUserError m | McsSystemError m | CommandlineError m
  | OpgeeException m | OtherError m => m
  end.

Inductive result (A : Type) :=
| Ok (a : A)
| Raise (e : exn).
Arguments Ok {A} a.
Arguments Raise {A} e.

Definition result_map {A B} (f : A -> B) (r : result A) : result B :=
  match r with
  | Ok a => Ok (f a)
  | Raise e => Raise e
  end.

(** ** The rows of the distribution table *)

(** A cell of the table after [fillna('')]: a number or a string (the
    string [''] where the cell was empty).  A finite float stands for the
    rational it denotes, so that [==] on numbers is [Qeq_bool]. *)
Inductive cell :=
| CNum (q : Q)
| CStr (s : string).

Definition CEmpty : cell := CStr EmptyString.

(** Python's [==] between two cells. *)
Definition cell_eqb (a b : cell) : bool :=
  match a, b with
  | CNum x, CNum y => Qeq_bool x y
  | CStr x, CStr y => String.eqb x y
  | _, _ => false
  end.

Record Row := mkRow {
  distribution_type : string;
  variable_name : string;
  low_bound : cell;
  high_bound : cell;
  mean : cell;
  SD : cell;
  default_value : cell;
  prob_of_yes : cell;
  row_pathname : cell
}.

(** A frozen random variable is represented by the request that built it:
    the name of the shape and the keyword arguments of [get_frozen_rv]. *)
Record RV := mkRV {
  rv_shape : string;
  rv_kwargs : list (string * cell)
}.

Record Distribution := mkDistribution {
  full_name : string;
  class_name : option string;
  attr_name : string;
  rv : RV
}.

(** ** The model graph *)

Record Attr := mkAttr {
  explicit : bool;
  attr_value : Q
}.

Definition attr_dict_t := gmap string Attr.

(** The GHG row of a field's emissions table, one entry per category. *)
Record GHG := mkGHG {
  ghg_Combustion : Q;
  ghg_Land_use : Q;
  ghg_Venting : Q;
  ghg_Flaring : Q;
  ghg_Fugitives : Q;
  ghg_Other : Q
}.

Record Field := mkField {
  field_enabled : bool;
  field_attr_dict : attr_dict_t;
  field_processes : gmap string attr_dict_t;   (* by process class name *)
  carbon_intensity : Q;
  emissions_GHG : GHG
}.

Record Analysis := mkAnalysis {
  analysis_attr_dict : attr_dict_t;
  analysis_fields : list string              (* names of its fields, in order *)
}.

Record ModelData := mkModelData {
  analysis_dict : gmap string Analysis;
  field_dict : gmap string Field
}.

(** References to objects inside a model object: the identity of the model
    on the heap and the name under which the model holds the object. *)
Record FieldRef := mkFieldRef { f_model : nat; f_name : string }.
Record AnalysisRef := mkAnalysisRef { a_model : nat; a_name : string }.

Inductive Owner :=
| OwField (fname : string)
| OwAnalysis (aname : string)
| OwProcess (fname : string) (cls : string).

Record AttrRef := mkAttrRef { at_model : nat; at_owner : Owner; at_name : string }.

(** ** Tables *)

(** A [pd.DataFrame] of trial data: the name of the index, the column
    names and the rows, each with its index value. *)
Record DataFrame := mkDataFrame {
  df_index_name : option string;
  df_columns : list string;
  df_rows : list (Z * list Q)
}.

Record Metadata := mkMetadata {
  md_analysis_name : option string;
  md_trials : nat;
  md_field_names : option (list string)       (* None => all fields *)
}.

(** What a file holds.  [json.dump]/[json.load] and
    [DataFrame.to_csv]/[pd.read_csv] are taken to round-trip, so the
    metadata file and the trial-data tables are kept as the values
    written; the files whose text the driver fixes are kept as text. *)
Inductive content :=
| Text (s : string)
| Json (m : Metadata)
| Csv (df : DataFrame).

Inductive node :=
| Dir
| File (c : content).

(** ** Events *)

Inductive event :=
| EvRead (p : path)                       (* a file is opened for reading *)
| EvWrite (p : path)                      (* a file is written *)
| EvMkdirs (p : path)
| EvRemoveTree (p : path)
| EvRegister (name : string) (r : RV)     (* [instances[name] = self] *)
| EvLoadModel (id : nat) (xml : string)   (* model object [id] built from [xml] *)
| EvSetValue (a : AttrRef) (v : Q)        (* attribute made explicit and set *)
| EvRun (f : FieldRef) (trial_num : Z)    (* the evaluator is invoked *)
| EvSample (fname : string) (cols : list string).  (* [lhs] is called *)

(** ** The Simulation instance and the state *)

Record Sim := mkSim {
  pathname : path;
  model_file : path;
  model : option nat;
  model_xml_string : option string;
  trial_data_df : option DataFrame;
  trials : nat;
  analysis_name : option string;
  analysis : option AnalysisRef;
  field_names : option (list string);
  metadata : option Metadata
}.

Record St := mkSt {
  fs : gmap path node;
  instances : list (string * Distribution);   (* insertion-ordered dict *)
  heap : list ModelData;
  trace : list event;
  self : Sim
}.

Definition with_fs (f : gmap path node) (st : St) : St :=
  mkSt f (instances st) (heap st) (trace st) (self st).
Definition with_instances (i : list (string * Distribution)) (st : St) : St :=
  mkSt (fs st) i (heap st) (trace st) (self st).
Definition with_heap (h : list ModelData) (st : St) : St :=
  mkSt (fs st) (instances st) h (trace st) (self st).
Definition with_trace (t : list event) (st : St) : St :=
  mkSt (fs st) (instances st) (heap st) t (self st).
Definition with_self (s : Sim) (st : St) : St :=
  mkSt (fs st) (instances st) (heap st) (trace st) s.

Definition set_model (v : option nat) (s : Sim) : Sim :=
  mkSim (pathname s) (model_file s) v (model_xml_string s) (trial_data_df s)
        (trials s) (analysis_name s) (analysis s) (field_names s) (metadata s).
Definition set_model_xml_string (v : option string) (s : Sim) : Sim :=
  mkSim (pathname s) (model_file s) (model s) v (trial_data_df s)
        (trials s) (analysis_name s) (analysis s) (field_names s) (metadata s).
Definition set_trial_data_df (v : option DataFrame) (s : Sim) : Sim :=
  mkSim (pathname s) (model_file s) (model s) (model_xml_string s) v
        (trials s) (analysis_name s) (analysis s) (field_names s) (metadata s).
Definition set_trials (v : nat) (s : Sim) : Sim :=
  mkSim (pathname s) (model_file s) (model s) (model_xml_string s) (trial_data_df s)
        v (analysis_name s) (analysis s) (field_names s) (metadata s).
Definition set_analysis_name (v : option string) (s : Sim) : Sim :=
  mkSim (pathname s) (model_file s) (model s) (model_xml_string s) (trial_data_df s)
        (trials s) v (analysis s) (field_names s) (metadata s).
Definition set_analysis (v : option AnalysisRef) (s : Sim) : Sim :=
  mkSim (pathname s) (model_file s) (model s) (model_xml_string s) (trial_data_df s)
        (trials s) (analysis_name s) v (field_names s) (metadata s).
Definition set_field_names (v : option (list string)) (s : Sim) : Sim :=
  mkSim (pathname s) (model_file s) (model s) (model_xml_string s) (trial_data_df s)
        (trials s) (analysis_name s) (analysis s) v (metadata s).
Definition set_metadata (v : option Metadata) (s : Sim) : Sim :=
  mkSim (pathname s) (model_file s) (model s) (model_xml_string s) (trial_data_df s)
        (trials s) (analysis_name s) (analysis s) (field_names s) v.

(** ** The state-and-exception monad *)

Definition M (A : Type) : Type := St -> result A * St.

Definition ret {A} (a : A) : M A := fun st => (Ok a, st).
Definition raise {A} (e : exn) : M A := fun st => (Raise e, st).
Definition bind {A B} (m : M A) (k : A -> M B) : M B :=
  fun st => match m st with
            | (Ok a, st') => k a st'
            | (Raise e, st') => (Raise e, st')
            end.
(** [try: m  except Exception as e: h e] *)
Definition try_except {A} (m : M A) (h : exn -> M A) : M A :=
  fun st => match m st with
            | (Ok a, st') => (Ok a, st')
            | (Raise e, st') => h e st'
            end.
Definition gets {A} (f : St -> A) : M A := fun st => (Ok (f st), st).
Definition modify (f : St -> St) : M unit := fun st => (Ok tt, f st).
Definition lift {A} (r : result A) : M A := fun st => (r, st).
Definition emit (e : event) : M unit :=
  modify (fun st => with_trace (trace st ++ [e]) st).
Definition modify_self (f : Sim -> Sim) : M unit :=
  modify (fun st => with_self (f (self st)) st).

Declare Scope py_scope.
Delimit Scope py_scope with py.
Notation "x <- c1 ;; c2" := (bind c1 (fun x => c2))
  (at level 100, c1 at next level, right associativity) : py_scope.
Notation "c1 ;; c2" := (bind c1 (fun _ => c2))
  (at level 100, right associativity) : py_scope.
Local Open Scope py_scope.

(** [for x in l: body x] *)
Fixpoint for_each {A} (l : list A) (body : A -> M unit) : M unit :=
  match l with
  | [] => ret tt
  | x :: l' => body x ;; for_each l' body
  end.

(** [[f x for x in l]] *)
Fixpoint map_M {A B} (f : A -> M B) (l : list A) : M (list B) :=
  match l with
  | [] => ret []
  | x :: l' => y <- f x ;; ys <- map_M f l' ;; ret (y :: ys)
  end.

(** Truthiness of an optional string and of an optional list. *)
Definition truthy_str (o : option string) : bool :=
  match o with
  | Some s => negb (String.eqb s EmptyString)
  | None => false
  end.

Definition truthy_list {A} (o : option (list A)) : bool :=
  match o with
  | Some (_ :: _) => true
  | _ => false
  end.

(** ** The file store

    The store is a finite map from paths to nodes.  Creating a directory
    and writing a file are insertions: full disks and permissions are not
    part of the model.  Only the named directory is represented by
    [mkdirs], not the directories above it. *)

Definition isdir (p : path) (st : St) : bool :=
  match fs st !! p with
  | Some Dir => true
  | _ => false
  end.

Definition lexists (p : path) (st : St) : bool :=
  match fs st !! p with
  | Some _ => true
  | None => false
  end.

Definition outside (p : path) (q : path) : bool :=
  bool_decide (¬ p `prefix_of` q).

(** [opgee.utils.removeTree(p)]: [p] and everything below it. *)
Definition removeTree (p : path) : M unit :=
  emit (EvRemoveTree p) ;;
  modify (fun st => with_fs (filter (fun kv => outside p kv.1 = true) (fs st)) st).

(** [opgee.utils.mkdirs(p)] *)
Definition mkdirs (p : path) : M unit :=
  emit (EvMkdirs p) ;;
  modify (fun st => with_fs (match fs st !! p with
                             | Some _ => fs st
                             | None => <[p := Dir]> (fs st)
                             end) st).

Definition write_file (p : path) (c : content) : M unit :=
  emit (EvWrite p) ;;
  modify (fun st => with_fs (<[p := File c]> (fs st)) st).

Definition open_read (p : path) : M content :=
  emit (EvRead p) ;;
  o <- gets (fun st => fs st !! p) ;;
  match o with
  | Some (File c) => ret c
  | Some Dir => raise (OtherError ("Is a directory: " +:+ path_str p))
  | None => raise (OtherError ("No such file or directory: " +:+ path_str p))
  end.

(** ** External collaborators

    The parts of OPGEE outside the driver, taken as parameters:
    [get_frozen_rv] (which requests it refuses), the merging and parsing
    of model files by [ModelFile], the evaluator [Field.run], the sampler
    [lhs], [magnitude] (rounding of a quantity), the text pandas writes
    for a number and [str] of a model object.  The evaluator is given the
    model, the field and the analysis, and leaves the field in a new
    state, with or without raising. *)
Class Externals := {
  frozen_rv_error : string -> list (string * cell) -> option exn;
  merge_xml : list string -> bool -> result string;
  parse_xml : string -> list (option string) -> option (list string) -> result ModelData;
  field_run : ModelData -> string -> Field -> string -> option Analysis -> Z
              -> Field * option exn;
  lhs_sample : list RV -> nat -> option (list (list Q)) -> result (list (list Q));
  magnitude : Q -> Q;
  show_num : Q -> string;
  str_obj : Owner -> string
}.

(** ** split_attr_name *)

(** Modelled from the spec: [opgee.core.split_attr_name] is not among the
    sources.  A qualified name is an attribute name, optionally preceded
    by an owning class and a dot ('ATTR' or 'CLASS.ATTR'); anything else
    raises [OpgeeException]. *)
Definition split_attr_name (attr_name : string) : result (option string * string) :=
  match split_on "." attr_name with
  | [a] => Ok (None, a)
  | [c; a] => Ok (Some c, a)
  | _ => Raise (OpgeeException
                  ("Attribute name '" +:+ attr_name +:+ "' is not of the form 'attr' or 'class.attr'"))
  end.

(** ** The Distribution registry *)

(** [d[k] = v] on an insertion-ordered dict: an existing key keeps its
    place, a new key goes last. *)
Fixpoint dict_set {V} (k : string) (v : V) (d : list (string * V)) : list (string * V) :=
  match d with
  | [] => [(k, v)]
  | (k', v') :: d' =>
      if String.eqb k' k then (k, v) :: d' else (k', v') :: dict_set k v d'
  end.

(** [d.get(k)] *)
Fixpoint dict_get {V} (k : string) (d : list (string * V)) : option V :=
  match d with
  | [] => None
  | (k', v') :: d' => if String.eqb k' k then Some v' else dict_get k d'
  end.

(** [Distribution.__init__] *)
Definition Distribution_init (full_name : string) (rv : RV) : M Distribution :=
  ca <-
     try_except (lift (split_attr_name full_name))
       (fun e => match e with
                 | OpgeeException _ =>
                     raise (McsUserError
                       ("attribute name format is 'ATTR' (same as 'Field.ATTR) or 'CLASS.ATTR'; got '"
                          +:+ full_name +:+ "'"))
                 | _ => raise e
                 end) ;;
  let d := mkDistribution full_name ca.1 ca.2 rv in
  modify (fun st => with_instances (dict_set full_name d (instances st)) st) ;;
  emit (EvRegister full_name rv) ;;
  ret d.

(** [Distribution.distro_by_name] *)
Definition distro_by_name (name : string) (st : St) : option Distribution :=
  dict_get name (instances st).

(** [Distribution.distributions] *)
Definition distributions (st : St) : list Distribution :=
  map snd (instances st).

Section Driver.
Context `{E : Externals}.

(** [get_frozen_rv(shape, **kwargs)] *)
Definition get_frozen_rv (shape : string) (kwargs : list (string * cell)) : result RV :=
  match frozen_rv_error shape kwargs with
  | Some e => Raise e
  | None => Ok (mkRV shape kwargs)
  end.

(** ** read_distributions *)

(** The chain of [if shape == ...] of the loop body: [Ok None] is
    [continue], [Ok (Some rv)] falls through to the registration. *)
Definition shape_rv (row : Row) : result (option RV) :=
  let shape := lower (distribution_type row) in
  let name := variable_name row in
  let low := low_bound row in
  let high := high_bound row in
  let mean := mean row in
  let stdev := SD row in
  let default := default_value row in
  let prob_of_yes := prob_of_yes row in
  let pathname := row_pathname row in
  if String.eqb shape "binary" then
    if cell_eqb prob_of_yes (CNum 0%Q) || cell_eqb prob_of_yes (CNum 1%Q) then Ok None
    else result_map Some (get_frozen_rv "weighted_binary"
           [("prob_of_one", if cell_eqb prob_of_yes CEmpty then CNum (1#2)%Q else prob_of_yes)])
  else if String.eqb shape "uniform" then
    if cell_eqb low high then Ok None
    else result_map Some (get_frozen_rv "uniform" [("min", low); ("max", high)])
  else if String.eqb shape "triangular" then
    if cell_eqb low high then Ok None
    else result_map Some (get_frozen_rv "triangle" [("min", low); ("mode", default); ("max", high)])
  else if String.eqb shape "normal" then
    if cell_eqb stdev (CNum 0%Q) then Ok None
    else if cell_eqb low CEmpty || cell_eqb high CEmpty then
      result_map Some (get_frozen_rv "normal" [("mean", mean); ("stdev", stdev)])
    else
      result_map Some (get_frozen_rv "truncated_normal"
        [("mean", mean); ("stdev", stdev); ("low", low); ("high", high)])
  else if String.eqb shape "lognormal" then
    if cell_eqb stdev (CNum 0%Q) then Ok None
    else if cell_eqb low CEmpty || cell_eqb high CEmpty then
      result_map Some (get_frozen_rv "lognormal" [("logmean", mean); ("logstdev", stdev)])
    else
      result_map Some (get_frozen_rv "truncated_lognormal"
        [("logmean", mean); ("logstdev", stdev); ("low", low); ("high", high)])
  else if String.eqb shape "empirical" then
    result_map Some (get_frozen_rv "empirical" [("pathname", pathname); ("colname", CStr name)])
  else
    Raise (McsSystemError ("Unknown distribution shape: '" +:+ shape +:+ "'")).

(** The two tests that precede the shapes. *)
Definition skipped_early (row : Row) : bool :=
  String.eqb (variable_name row) EmptyString
  || (cell_eqb (low_bound row) CEmpty && cell_eqb (high_bound row) CEmpty
      && cell_eqb (mean row) CEmpty && cell_eqb (prob_of_yes row) CEmpty
      && negb (String.eqb (lower (distribution_type row)) "empirical")).

(** The body of the loop over the rows. *)
Definition read_row (row : Row) : M unit :=
  if String.eqb (variable_name row) EmptyString then ret tt
  else if cell_eqb (low_bound row) CEmpty && cell_eqb (high_bound row) CEmpty
          && cell_eqb (mean row) CEmpty && cell_eqb (prob_of_yes row) CEmpty
          && negb (String.eqb (lower (distribution_type row)) "empirical")
  then ret tt
  else
    o <- lift (shape_rv row) ;;
    match o with
    | None => ret tt
    | Some rv => Distribution_init (variable_name row) rv ;; ret tt
    end.

(** [read_distributions], on the table [pd.read_csv(...).fillna('')]
    returns. *)
Definition read_distributions (df : list Row) : M unit :=
  for_each df read_row.

(** ** Model objects on the heap *)

Definition get_model (id : nat) : M ModelData :=
  o <- gets (fun st => heap st !! id) ;;
  match o with
  | Some m => ret m
  | None => raise (OtherError "no such model object")
  end.

Definition put_model (id : nat) (m : ModelData) : M unit :=
  modify (fun st => with_heap (<[id := m]> (heap st)) st).

Definition new_model (m : ModelData) : M nat :=
  id <- gets (fun st => length (heap st)) ;;
  modify (fun st => with_heap (heap st ++ [m]) st) ;;
  ret id.

(** [obj.attr_dict] of the object an attribute belongs to. *)
Definition owner_attr_dict (m : ModelData) (o : Owner) : option attr_dict_t :=
  match o with
  | OwField f => field_attr_dict <$> field_dict m !! f
  | OwAnalysis a => analysis_attr_dict <$> analysis_dict m !! a
  | OwProcess f c => fd ← field_dict m !! f; field_processes fd !! c
  end.

Definition set_owner_attr_dict (o : Owner) (d : attr_dict_t) (m : ModelData) : ModelData :=
  match o with
  | OwField f =>
      mkModelData (analysis_dict m)
        (alter (fun fd => mkField (field_enabled fd) d (field_processes fd)
                            (carbon_intensity fd) (emissions_GHG fd)) f (field_dict m))
  | OwAnalysis a =>
      mkModelData
        (alter (fun an => mkAnalysis d (analysis_fields an)) a (analysis_dict m))
        (field_dict m)
  | OwProcess f c =>
      mkModelData (analysis_dict m)
        (alter (fun fd => mkField (field_enabled fd) (field_attr_dict fd)
                            (<[c := d]> (field_processes fd))
                            (carbon_intensity fd) (emissions_GHG fd)) f (field_dict m))
  end.

Definition attr_in (m : ModelData) (o : Owner) (a : string) : option Attr :=
  d ← owner_attr_dict m o; d !! a.

(** [attr.explicit = True; attr.set_value(value)] inside a model. *)
Definition set_attr_in (m : ModelData) (o : Owner) (a : string) (v : Q) : ModelData :=
  match owner_attr_dict m o with
  | Some d => set_owner_attr_dict o (<[a := mkAttr true v]> d) m
  | None => m
  end.

Definition read_attr (r : AttrRef) : M Attr :=
  m <- get_model (at_model r) ;;
  match attr_in m (at_owner r) (at_name r) with
  | Some a => ret a
  | None => raise (OtherError "no such attribute object")
  end.

Definition set_explicit_value (r : AttrRef) (v : Q) : M unit :=
  m <- get_model (at_model r) ;;
  emit (EvSetValue r v) ;;
  put_model (at_model r) (set_attr_in m (at_owner r) (at_name r) v).

(** [Model.get_analysis(name, raiseError=False)]; a name that is [None]
    is no key of the dict. *)
Definition Model_get_analysis (id : nat) (m : ModelData) (name : option string)
  : option AnalysisRef :=
  match name with
  | Some n => match analysis_dict m !! n with
              | Some _ => Some (mkAnalysisRef id n)
              | None => None
              end
  | None => None
  end.

(** Modelled from the spec: [Analysis.get_field], [Analysis.fields] and
    [Analysis.field_names] ([opgee/analysis.py] is not among the sources),
    after [Model.get_field]: the field of that name among the fields of
    the analysis, or [OpgeeException]. *)
Definition Analysis_get_field (a : AnalysisRef) (name : string) : M FieldRef :=
  m <- get_model (a_model a) ;;
  match analysis_dict m !! a_name a with
  | None => raise (OtherError "no such analysis object")
  | Some an =>
      if bool_decide (name ∈ analysis_fields an) && bool_decide (is_Some (field_dict m !! name))
      then ret (mkFieldRef (a_model a) name)
      else raise (OpgeeException ("Field named '" +:+ name +:+ "' is not defined in Analysis"))
  end.

Definition Analysis_fields (a : AnalysisRef) : M (list FieldRef) :=
  m <- get_model (a_model a) ;;
  match analysis_dict m !! a_name a with
  | None => raise (OtherError "no such analysis object")
  | Some an =>
      ret (map (mkFieldRef (a_model a))
             (filter (fun n => is_Some (field_dict m !! n)) (analysis_fields an)))
  end.

Definition Analysis_field_names (m : ModelData) (an : Analysis) (enabled_only : bool)
  : list string :=
  filter (fun n => Is_true (match field_dict m !! n with
                            | Some fd => negb enabled_only || field_enabled fd
                            | None => false
                            end)) (analysis_fields an).

Definition show_opt (o : option string) : string :=
  match o with
  | Some s => s
  | None => "None"
  end.

Definition self_analysis : M AnalysisRef :=
  o <- gets (fun st => analysis (self st)) ;;
  match o with
  | Some a => ret a
  | None => raise (OtherError "'NoneType' object has no attribute")
  end.

Definition read_text (p : path) : M string :=
  c <- open_read p ;;
  match c with
  | Text s => ret s
  | _ => raise (OtherError ("not an XML file: " +:+ path_str p))
  end.

(** Modelled from the spec: [ModelFile] ([opgee/model_file.py] is not
    among the sources).  The model is built from the cached XML string
    when one is given, otherwise from the merge of the files read; the
    XML it is built from is saved to [save_to_path] when asked; the
    result is a new model object. *)
Definition ModelFile_source (pathnames : list path) (xml_string : option string)
    (use_default_model : bool) : M string :=
  match xml_string with
  | Some s => ret s
  | None => texts <- map_M read_text pathnames ;;
            lift (merge_xml texts use_default_model)
  end.

Definition ModelFile (pathnames : list path) (xml_string : option string)
    (use_default_model : bool) (analysis_names : list (option string))
    (field_names : option (list string)) (save_to_path : option path) : M nat :=
  xml <- ModelFile_source pathnames xml_string use_default_model ;;
  match save_to_path with
  | Some p => write_file p (Text xml)
  | None => ret tt
  end ;;
  m <- lift (parse_xml xml analysis_names field_names) ;;
  id <- new_model m ;;
  emit (EvLoadModel id xml) ;;
  ret id.

(** ** Simulation *)

Definition model_file_path (sim_dir : path) : path := pathjoin sim_dir MODEL_FILE.

Definition metadata_path : M path :=
  gets (fun st => pathjoin (pathname (self st)) META_DATA_FILE).

(** [Simulation.load_model] *)
Definition load_model (save_to_path : option path) : M unit :=
  s <- gets self ;;
  id <- ModelFile [model_file s] (model_xml_string s) false [analysis_name s]
          (field_names s) save_to_path ;;
  modify_self (set_model (Some id)) ;;
  m <- get_model id ;;
  let a := Model_get_analysis id m (analysis_name s) in
  modify_self (set_analysis a) ;;
  match a with
  | Some _ => ret tt
  | None => raise (CommandlineError
                     ("Analysis '" +:+ show_opt (analysis_name s) +:+ "' was not found in model"))
  end.

(** [Simulation._save_meta_data] *)
Definition _save_meta_data : M unit :=
  s <- gets self ;;
  let md := mkMetadata (analysis_name s) (trials s) (field_names s) in
  modify_self (set_metadata (Some md)) ;;
  p <- metadata_path ;;
  write_file p (Json md).

Definition json_load (p : path) : M Metadata :=
  c <- open_read p ;;
  match c with
  | Json md => ret md
  | _ => raise (OtherError "Expecting value")
  end.

(** [Simulation._load_meta_data] *)
Definition _load_meta_data (field_names : option (list string)) : M unit :=
  metadata_path <- metadata_path ;;
  metadata <- try_except
                (md <- json_load metadata_path ;;
                 modify_self (set_metadata (Some md)) ;;
                 ret md)
                (fun e => raise (McsUserError
                   ("Failed to load simulation '" +:+ path_str metadata_path
                      +:+ "' : " +:+ exn_msg e))) ;;
  (if truthy_list field_names then
     let names := default [] field_names in
     match md_field_names metadata with
     | Some md_names =>
         modify_self (set_field_names
                        (Some (filter (fun name => name ∈ names) md_names)))
     | None => raise (OtherError "'NoneType' object is not iterable")
     end
   else
     modify_self (set_field_names (md_field_names metadata))) ;;
  modify_self (set_analysis_name (md_analysis_name metadata)) ;;
  modify_self (set_trials (md_trials metadata)).

Definition field_dir (field : FieldRef) : M path :=
  gets (fun st => pathjoin (pathname (self st)) (f_name field)).

Definition trial_data_path (field : FieldRef) (mkdir : bool) : M path :=
  d <- field_dir field ;;
  (if mkdir then mkdirs d else ret tt) ;;
  ret (pathjoin d TRIAL_DATA_CSV).

Definition results_path (field : FieldRef) (mkdir : bool) : M path :=
  d <- field_dir field ;;
  (if mkdir then mkdirs d else ret tt) ;;
  ret (pathjoin d RESULTS_CSV).

Definition failures_path (field : FieldRef) : M path :=
  d <- field_dir field ;;
  ret (pathjoin d FAILURES_CSV).

(** [Simulation.chosen_fields] *)
Definition chosen_fields : M (list FieldRef) :=
  a <- self_analysis ;;
  names <- gets (fun st => field_names (self st)) ;;
  if truthy_list names then map_M (Analysis_get_field a) (default [] names)
  else Analysis_fields a.

(** The object a qualified name designates: the field, the analysis, or
    the process of the named class in the field. *)
Definition lookup_obj (class_name : option string) (field : FieldRef) : M (nat * Owner) :=
  match class_name with
  | None => ret (f_model field, OwField (f_name field))
  | Some c =>
      if String.eqb c "Field" then ret (f_model field, OwField (f_name field))
      else if String.eqb c "Analysis" then
        a <- self_analysis ;;
        ret (a_model a, OwAnalysis (a_name a))
      else
        m <- get_model (f_model field) ;;
        match owner_attr_dict m (OwProcess (f_name field) c) with
        | Some _ => ret (f_model field, OwProcess (f_name field) c)
        | None => raise (McsUserError
                           ("A process of class '" +:+ c +:+ "' was not found in "
                              +:+ str_obj (OwField (f_name field))))
        end
  end.

(** [Simulation.lookup] *)
Definition lookup (full_name : string) (field : FieldRef) : M AttrRef :=
  ca <- lift (split_attr_name full_name) ;;
  obj <- lookup_obj ca.1 field ;;
  m <- get_model obj.1 ;;
  match owner_attr_dict m obj.2 with
  | None => raise (OtherError "no such object")
  | Some d =>
      match d !! ca.2 with
      | None => raise (McsUserError
                         ("The attribute '" +:+ ca.2 +:+ "' was not found in '"
                            +:+ str_obj obj.2 +:+ "'"))
      | Some _ => ret (mkAttrRef obj.1 obj.2 ca.2)
      end
  end.

(** The column a distribution gets in the trial table. *)
Definition column_name (dist : Distribution) : string :=
  match class_name dist with
  | Some c => if String.eqb c "Field" then attr_name dist else full_name dist
  | None => full_name dist
  end.

(** The loop of [generate] over the distributions, for one field. *)
Fixpoint select_columns (field : FieldRef) (dists : list Distribution)
    (cols : list string) (rv_list : list RV) : M (list string * list RV) :=
  match dists with
  | [] => ret (cols, rv_list)
  | dist :: rest =>
      target_attr <- lookup (full_name dist) field ;;
      a <- read_attr target_attr ;;
      if explicit a then select_columns field rest cols rv_list
      else select_columns field rest (cols ++ [column_name dist]) (rv_list ++ [rv dist])
  end.

(** The table [lhs] builds from the sampled matrix: one row per trial,
    indexed from 0. *)
Definition lhs_frame (cols : list string) (data : list (list Q)) : DataFrame :=
  mkDataFrame None cols (imap (fun i r => (Z.of_nat i, r)) data).

Definition set_index_name (n : string) (df : DataFrame) : DataFrame :=
  mkDataFrame (Some n) (df_columns df) (df_rows df).

(** [Simulation.save_trial_data] *)
Definition save_trial_data (field : FieldRef) : M unit :=
  filename <- trial_data_path field true ;;
  o <- gets (fun st => trial_data_df (self st)) ;;
  match o with
  | Some df => write_file filename (Csv df)
  | None => raise (OtherError "'NoneType' object has no attribute 'to_csv'")
  end.

(** The body of the loop of [generate] over the chosen fields. *)
Definition generate_field (trials : nat) (corr_mat : option (list (list Q)))
    (field : FieldRef) : M unit :=
  dists <- gets distributions ;;
  sel <- select_columns field dists [] [] ;;
  match sel.1 with
  | [] => raise (McsUserError
                   ("Can't run MCS: all parameters with distributions have explicit values in "
                      +:+ str_obj (OwField (f_name field)) +:+ "."))
  | _ :: _ =>
      emit (EvSample (f_name field) sel.1) ;;
      data <- lift (lhs_sample sel.2 trials corr_mat) ;;
      modify_self (set_trial_data_df (Some (lhs_frame sel.1 data))) ;;
      modify_self (fun s => set_trial_data_df
                              (set_index_name "trial_num" <$> trial_data_df s) s) ;;
      save_trial_data field
  end.

(** [Simulation.generate] *)
Definition generate (corr_mat : option (list (list Q))) : M unit :=
  trials <- gets (fun st => trials (self st)) ;;
  fields <- chosen_fields ;;
  for_each fields (generate_field trials corr_mat).

(** ** Results *)

Record ResultRow := mkResultRow {
  r_trial_num : Z;
  r_CI : Q;
  r_total_GHG : Q;
  r_combustion : Q;
  r_land_use : Q;
  r_VFF : Q;
  r_other : Q
}.

(** [pd.DataFrame.from_records(results, columns=cols)] *)
Record ResultsFrame := mkResultsFrame {
  rf_columns : list string;
  rf_records : list ResultRow
}.

Definition result_cells (r : ResultRow) : list string :=
  [show_Z (r_trial_num r); show_num (r_CI r); show_num (r_total_GHG r);
   show_num (r_combustion r); show_num (r_land_use r); show_num (r_VFF r);
   show_num (r_other r)].

Definition csv_line (cells : list string) : string := join "," cells +:+ nl.

Fixpoint concat_lines (l : list string) : string :=
  match l with
  | [] => EmptyString
  | x :: l' => x +:+ concat_lines l'
  end.

(** [df.to_csv(filename, index=False)]: the header, then one line per
    record, with the columns only. *)
Definition to_csv_no_index (df : ResultsFrame) : string :=
  csv_line (rf_columns df) +:+ concat_lines (map (fun r => csv_line (result_cells r)) (rf_records df)).

Definition failure_line (f : Z * exn) : string :=
  show_Z f.1 +:+ "," +:+ dquote +:+ exn_msg f.2 +:+ dquote +:+ nl.

Definition failures_text (failures : list (Z * exn)) : string :=
  ("trial_num,message" +:+ nl) +:+ concat_lines (map failure_line failures).

(** [Simulation.save_trial_results] *)
Definition save_trial_results (field : FieldRef) (df : ResultsFrame)
    (failures : list (Z * exn)) : M unit :=
  filename <- results_path field true ;;
  write_file filename (Text (to_csv_no_index df)) ;;
  failures_csv <- failures_path field ;;
  write_file failures_csv (Text (failures_text failures)).

(** ** Trial data *)

(** A field given by name or as an object. *)
Inductive field_arg :=
| ByName (name : string)
| ByObj (f : FieldRef).

(** [pd.read_csv(path, index_col='trial_num')] *)
Definition read_csv (p : path) (index_col : string) : M DataFrame :=
  c <- open_read p ;;
  match c with
  | Csv df =>
      if bool_decide (df_index_name df = Some index_col) then ret df
      else raise (OtherError ("Index " +:+ index_col +:+ " invalid"))
  | _ => raise (OtherError "Error tokenizing data")
  end.

(** [Simulation.field_trial_data] *)
Definition field_trial_data (field : field_arg) : M DataFrame :=
  field <- match field with
           | ByName name => a <- self_analysis ;; Analysis_get_field a name
           | ByObj f => ret f
           end ;;
  cached <- gets (fun st => trial_data_df (self st)) ;;
  match cached with
  | Some df => ret df
  | None =>
      path <- trial_data_path field false ;;
      ex <- gets (lexists path) ;;
      if negb ex then
        raise (McsSystemError
                 ("Can't read trial data: '" +:+ path_str path +:+ "' doesn't exist."))
      else
        df <- try_except (read_csv path "trial_num")
                (fun e => raise (McsSystemError
                   ("Can't read trial data from '" +:+ path_str path +:+ "': "
                      +:+ exn_msg e))) ;;
        modify_self (set_trial_data_df (Some df)) ;;
        ret df
  end.

(** [df.loc[trial_num]] as the pairs [s.items()] yields. *)
Definition df_loc (df : DataFrame) (trial_num : Z) : option (list (string * Q)) :=
  match List.find (fun r => Z.eqb r.1 trial_num) (df_rows df) with
  | Some r => Some (zip (df_columns df) r.2)
  | None => None
  end.

(** [Simulation.trial_data] *)
Definition trial_data (field : field_arg) (trial_num : Z) : M (list (string * Q)) :=
  df <- field_trial_data field ;;
  match df_loc df trial_num with
  | None =>
      match field with
      | ByObj f =>
          path <- trial_data_path f false ;;
          raise (McsSystemError
                   ("Trial " +:+ show_Z trial_num +:+ " was not found in '"
                      +:+ path_str path +:+ "'"))
      | ByName _ => raise (OtherError "'str' object has no attribute 'name'")
      end
  | Some s => ret s
  end.

(** [Simulation.set_trial_data] *)
Definition set_trial_data (field : FieldRef) (trial_num : Z) : M unit :=
  data <- trial_data (ByObj field) trial_num ;;
  for_each data (fun nv =>
    attr <- lookup nv.1 field ;;
    set_explicit_value attr nv.2).

(** ** Running trials *)

(** [field.run(analysis, compute_ci=True, trial_num=trial_num)] *)
Definition Field_run (field : FieldRef) (a : AnalysisRef) (trial_num : Z) : M unit :=
  emit (EvRun field trial_num) ;;
  m <- get_model (f_model field) ;;
  ma <- get_model (a_model a) ;;
  match field_dict m !! f_name field with
  | None => raise (OtherError "no such field object")
  | Some fd =>
      let res := field_run m (f_name field) fd (a_name a)
                   (analysis_dict ma !! a_name a) trial_num in
      put_model (f_model field)
        (mkModelData (analysis_dict m) (<[f_name field := res.1]> (field_dict m))) ;;
      match res.2 with
      | Some e => raise e
      | None => ret tt
      end
  end.

(** The tuple appended to [results] after a completed trial. *)
Definition result_tuple (trial_num : Z) (fd : Field) : ResultRow :=
  let ci := carbon_intensity fd in
  let ghg := emissions_GHG fd in
  let total_ghg := (ghg_Combustion ghg + ghg_Land_use ghg + ghg_Venting ghg
                    + ghg_Flaring ghg + ghg_Fugitives ghg + ghg_Other ghg)%Q in
  let vff := (ghg_Venting ghg + ghg_Flaring ghg + ghg_Fugitives ghg)%Q in
  mkResultRow trial_num (magnitude ci) (magnitude total_ghg)
    (magnitude (ghg_Combustion ghg)) (magnitude (ghg_Land_use ghg))
    (magnitude vff) (magnitude (ghg_Other ghg)).

Definition get_field_data (field : FieldRef) : M Field :=
  m <- get_model (f_model field) ;;
  match field_dict m !! f_name field with
  | Some fd => ret fd
  | None => raise (OtherError "no such field object")
  end.

(** The variables of the loop of [run_field]. *)
Record LoopState := mkLoopState {
  ls_field : FieldRef;
  ls_completed : nat;
  ls_results : list ResultRow;
  ls_failures : list (Z * exn)
}.

Definition record_failure (ls : LoopState) (field : FieldRef) (trial_num : Z) (e : exn)
  : LoopState :=
  mkLoopState field (ls_completed ls) (ls_results ls) (ls_failures ls ++ [(trial_num, e)]).

(** The body of the loop of [run_field].  The [try] block is cut where
    [field] is rebound, so that the handler finds the binding of [field]
    current when the exception was raised; both parts have the handler of
    the source. *)
Definition run_trial (ls : LoopState) (trial_num : Z) : M LoopState :=
  r <- try_except
         (load_model None ;;
          a <- self_analysis ;;
          field <- Analysis_get_field a (f_name (ls_field ls)) ;;
          ret (inl field))
         (fun e => ret (inr e)) ;;
  match r with
  | inr e => ret (record_failure ls (ls_field ls) trial_num e)
  | inl field =>
      r' <- try_except
              (set_trial_data field trial_num ;;
               a <- self_analysis ;;
               Field_run field a trial_num ;;
               ret None)
              (fun e => ret (Some e)) ;;
      match r' with
      | Some e => ret (record_failure ls field trial_num e)
      | None =>
          fd <- get_field_data field ;;
          ret (mkLoopState field (S (ls_completed ls))
                 (ls_results ls ++ [result_tuple trial_num fd]) (ls_failures ls))
      end
  end.

Fixpoint run_trials (trial_nums : list Z) (ls : LoopState) : M LoopState :=
  match trial_nums with
  | [] => ret ls
  | trial_num :: rest => ls' <- run_trial ls trial_num ;; run_trials rest ls'
  end.

Definition result_columns : list string :=
  ["trial_num"; "CI"; "total_GHG"; "combustion"; "land_use"; "VFF"; "other"].

(** [range(self.trials)] when no trial numbers are given. *)
Definition trial_range (trial_nums : option (list Z)) : M (list Z) :=
  match trial_nums with
  | None => gets (fun st => map Z.of_nat (seq 0 (trials (self st))))
  | Some l => ret l
  end.

(** [Simulation.run_field] *)
Definition run_field (field : FieldRef) (trial_nums : option (list Z)) : M nat :=
  trial_nums <- trial_range trial_nums ;;
  ls <- run_trials trial_nums (mkLoopState field 0 [] []) ;;
  let df := mkResultsFrame result_columns (ls_results ls) in
  save_trial_results (ls_field ls) df (ls_failures ls) ;;
  ret (ls_completed ls).

(** [Simulation.run] *)
Definition run (trial_nums : option (list Z)) (field_names : option (list string)) : M unit :=
  ana <- self_analysis ;;
  fields <- (if truthy_list field_names
             then map_M (Analysis_get_field ana) (default [] field_names)
             else chosen_fields) ;;
  for_each fields (fun field =>
    fd <- get_field_data field ;;
    if field_enabled fd then run_field field trial_nums ;; ret tt
    else ret tt).

(** ** Creating and opening a simulation *)

(** [open(model_file).read()] inside its [try]. *)
Definition cache_model_file (model_file : path) : M unit :=
  try_except
    (s <- read_text model_file ;;
     modify_self (set_model_xml_string (Some s)))
    (fun e => raise (McsSystemError
       ("Failed to read model file '" +:+ path_str model_file
          +:+ "' to XML string: " +:+ exn_msg e))).

(** [Simulation.__init__] *)
Definition Simulation_init (sim_dir : path) (analysis_name : option string)
    (trials : nat) (field_names : option (list string))
    (save_to_path : option path) (meta_data_only : bool) : M unit :=
  isd <- gets (isdir sim_dir) ;;
  if negb isd then
    raise (McsUserError ("Simulation directory '" +:+ path_str sim_dir +:+ "' does not exist."))
  else
    let model_file := model_file_path sim_dir in
    modify_self (fun _ => mkSim sim_dir model_file None None None trials
                            analysis_name None field_names None) ;;
    (if negb (truthy_str analysis_name) then _load_meta_data field_names else ret tt) ;;
    if negb (truthy_str analysis_name) && meta_data_only then ret tt
    else
      cache_model_file model_file ;;
      (if truthy_str analysis_name then _save_meta_data else ret tt) ;;
      if truthy_str analysis_name && meta_data_only then ret tt
      else
        load_model save_to_path ;;
        if (0 <? trials)%nat then generate None else ret tt.

(** [Simulation.new] *)
Definition new (sim_dir : path) (model_files : list path) (analysis_name : string)
    (trials : nat) (field_names : option (list string)) (overwrite : bool)
    (use_default_model : bool) : M unit :=
  ex <- gets (lexists sim_dir) ;;
  (if ex then
     if negb overwrite then
       raise (McsUserError
                ("Directory '" +:+ path_str sim_dir +:+ "' already exists. Use "
                   +:+ "Simulation.new(sim_dir, overwrite=True) to replace it."))
     else removeTree sim_dir
   else ret tt) ;;
  mkdirs sim_dir ;;
  let merged_model_file := model_file_path sim_dir in
  id <- ModelFile model_files None use_default_model [] None (Some merged_model_file) ;;
  m <- get_model id ;;
  match Model_get_analysis id m (Some analysis_name) with
  | None => raise (McsUserError ("Analysis '" +:+ analysis_name +:+ "' was not found in model"))
  | Some a =>
      let field_names :=
        if truthy_list field_names then field_names
        else Some (match analysis_dict m !! a_name a with
                   | Some an => Analysis_field_names m an true
                   | None => []
                   end) in
      Simulation_init sim_dir (Some analysis_name) trials field_names None false
  end.

End Driver.

(** * Definitions used to state the properties *)

(** ** Sequences of registrations

    The two ways a distribution gets registered: by constructing a
    [Distribution] in code, and by reading a table.  A caller may go on
    after an exception, so the state a failed registration leaves is
    passed to the next one. *)
Inductive reg_op :=
| Programmatic (name : string) (r : RV)
| FromCsv (rows : list Row).

Section Registrations.
Context `{E : Externals}.

Definition run_op (op : reg_op) : M unit :=
  match op with
  | Programmatic name r => Distribution_init name r ;; ret tt
  | FromCsv rows => read_distributions rows
  end.

Fixpoint run_ops (ops : list reg_op) (st : St) : St :=
  match ops with
  | [] => st
  | op :: ops' => run_ops ops' (run_op op st).2
  end.

End Registrations.

(** The random variable most recently registered under a name, read off
    the trace. *)
Fixpoint last_registered (n : string) (tr : list event) : option RV :=
  match tr with
  | [] => None
  | e :: tr' =>
      match last_registered n tr' with
      | Some r => Some r
      | None =>
          match e with
          | EvRegister n' r => if String.eqb n' n then Some r else None
          | _ => None
          end
      end
  end.

(** The registry holds one entry per name, each under its own name, and
    the entry of a name is the last one registered under it. *)
Definition registry_agrees (st : St) : Prop :=
  NoDup (map fst (instances st))
  /\ (forall n d, distro_by_name n st = Some d -> full_name d = n)
  /\ (forall n, rv <$> distro_by_name n st = last_registered n (trace st)).

(** ** Relations kept by a computation

    [preserves R m]: whatever the state, and whether [m] returns or
    raises, the state [m] leaves is related by [R] to the state it
    started from. *)
Definition preserves {A} (R : relation St) (m : M A) : Prop :=
  forall st, R st (m st).2.

(** The test of the loop of [generate]: does the attribute the
    distribution targets on the field hold an explicit value? *)
Section Targets.
Context `{E : Externals}.

Definition target_explicit (dist : Distribution) (field : FieldRef) : M bool :=
  target_attr <- lookup (full_name dist) field ;;
  a <- read_attr target_attr ;;
  ret (explicit a).

(** The error of [generate] when no column is left for a field. *)
Definition no_columns_error (field : FieldRef) : exn :=
  McsUserError
    ("Can't run MCS: all parameters with distributions have explicit values in "
       +:+ str_obj (OwField (f_name field)) +:+ ".").

(** The distributions [generate] samples for a field: those whose target
    is found and holds no explicit value. *)
Definition is_free (field : FieldRef) (st : St) (dist : Distribution) : bool :=
  match (target_explicit dist field st).1 with
  | Ok false => true
  | _ => false
  end.

End Targets.

Fixpoint has_char (c : ascii) (s : string) : bool :=
  match s with
  | EmptyString => false
  | String c' s' => Ascii.eqb c' c || has_char c s'
  end.

(** The state [generate] leaves after it has sampled and saved the table
    of one field. *)
Definition generated_table (cols : list string) (data : list (list Q)) : DataFrame :=
  set_index_name "trial_num" (lhs_frame cols data).

Definition generated_state (field : FieldRef) (cols : list string)
    (data : list (list Q)) (st : St) : St :=
  let d := pathjoin (pathname (self st)) (f_name field) in
  let p := pathjoin d TRIAL_DATA_CSV in
  mkSt (<[p := File (Csv (generated_table cols data))]>
          (match fs st !! d with
           | Some _ => fs st
           | None => <[d := Dir]> (fs st)
           end))
       (instances st) (heap st)
       (trace st ++ [EvSample (f_name field) cols; EvMkdirs d; EvWrite p])
       (set_trial_data_df (Some (generated_table cols data)) (self st)).

(** What one trial adds to the variables of the loop: a failure with
    its trial number, or a result row with its trial number and one more
    completed trial. *)
Definition trial_accounted (ls : LoopState) (t : Z) (ls' : LoopState) : Prop :=
  (exists e,
      ls_completed ls' = ls_completed ls
      /\ ls_results ls' = ls_results ls
      /\ ls_failures ls' = ls_failures ls ++ [(t, e)])
  \/ (exists row,
        r_trial_num row = t
        /\ ls_completed ls' = S (ls_completed ls)
        /\ ls_results ls' = ls_results ls ++ [row]
        /\ ls_failures ls' = ls_failures ls).

(** The entries of the registry are as the constructor makes them. *)
Definition distribution_wf (d : Distribution) : Prop :=
  split_attr_name (full_name d) = Ok (class_name d, attr_name d).

Definition registry_wf (st : St) : Prop :=
  Forall distribution_wf (distributions st).

(** The parts of the state the trials only read: the file store, the
    registry and what the instance knows of the simulation. *)
Definition stable : relation St := fun st st' =>
  fs st' = fs st
  /\ instances st' = instances st
  /\ pathname (self st') = pathname (self st)
  /\ model_file (self st') = model_file (self st)
  /\ model_xml_string (self st') = model_xml_string (self st)
  /\ analysis_name (self st') = analysis_name (self st)
  /\ field_names (self st') = field_names (self st)
  /\ trials (self st') = trials (self st).

(** The trial numbers a call of [run_field] is asked to run. *)
Definition requested_trials (trial_nums : option (list Z)) (st : St) : list Z :=
  match trial_nums with
  | None => map Z.of_nat (seq 0 (trials (self st)))
  | Some l => l
  end.

(** The paths of the two files [run_field] writes for a field. *)
Definition results_file (st : St) (field : FieldRef) : path :=
  pathjoin (pathjoin (pathname (self st)) (f_name field)) RESULTS_CSV.

Definition failures_file (st : St) (field : FieldRef) : path :=
  pathjoin (pathjoin (pathname (self st)) (f_name field)) FAILURES_CSV.

(** ** Trials in a fresh model

    The state [load_model] leaves when it has built model object [id]
    from [xml] with content [m]. *)
Definition loaded_state (id : nat) (xml : string) (m : ModelData)
    (a : option AnalysisRef) (st : St) : St :=
  mkSt (fs st) (instances st) (heap st ++ [m])
       (trace st ++ [EvLoadModel id xml])
       (set_analysis a (set_model (Some id) (self st))).

(** The events of a trial after its model is loaded: reads of files,
    attributes set in the model of the field, the evaluator invoked on
    the field for the trial. *)
Definition event_on (field : FieldRef) (t : Z) (e : event) : Prop :=
  match e with
  | EvRead _ => True
  | EvSetValue a _ => at_model a = f_model field
  | EvRun f t' => f = field /\ t' = t
  | _ => False
  end.

(** When the analysis of the instance is in the model of the field, the
    computation works on that model only: the other model objects are as
    before, no object is created, the analysis and the cached template
    stay, and the events are events on the field. *)
Definition in_fresh_model (field : FieldRef) (t : Z) : relation St := fun st st' =>
  (exists an, analysis (self st) = Some (mkAnalysisRef (f_model field) an)) ->
  analysis (self st') = analysis (self st)
  /\ model_xml_string (self st') = model_xml_string (self st)
  /\ length (heap st') = length (heap st)
  /\ (forall i, i <> f_model field -> heap st' !! i = heap st !! i)
  /\ exists evs, trace st' = trace st ++ evs /\ Forall (event_on field t) evs.

(** The events of a loop over trial numbers in which every trial works
    in a model of its own: for each trial number in turn, either nothing
    (the template did not parse), or the loading of a new model object
    from the template followed by events on the field in that object.
    [id] is the identity the next model object gets, [id'] the one after
    the loop. *)
Fixpoint isolated_trials (xml name : string) (id : nat) (ts : list Z)
    (evs : list event) (id' : nat) : Prop :=
  match ts with
  | [] => evs = [] /\ id' = id
  | t :: ts' =>
      isolated_trials xml name id ts' evs id'
      \/ exists body rest,
           evs = EvLoadModel id xml :: body ++ rest
           /\ Forall (event_on (mkFieldRef id name) t) body
           /\ isolated_trials xml name (S id) ts' rest id'
  end.

(** ** Creating a simulation directory

    Every change of the file store is logged: a path whose node has
    changed was written or created by an event of the computation, which
    removes no tree. *)
Definition writes_logged : relation St := fun st st' =>
  exists evs,
    trace st' = trace st ++ evs
    /\ Forall (fun e => forall q, e <> EvRemoveTree q) evs
    /\ forall p : path,
        fs st' !! p = fs st !! p \/ EvWrite p ∈ evs \/ EvMkdirs p ∈ evs.

(** The nodes of the simulation directory itself (the directory and the
    files directly in it) stay as they are. *)
Definition keeps_shallow : relation St := fun st st' =>
  pathname (self st') = pathname (self st)
  /\ forall (p : path) nd,
       fs st !! p = Some nd ->
       (length p <= S (length (pathname (self st))))%nat ->
       fs st' !! p = Some nd.

(** The state after the directory was purged and made again. *)
Definition purged_state (sim_dir : path) (st : St) : St :=
  mkSt (<[sim_dir := Dir]> (filter (fun kv => outside sim_dir kv.1 = true) (fs st)))
       (instances st) (heap st)
       (trace st ++ [EvRemoveTree sim_dir; EvMkdirs sim_dir])
       (self st).

(** The state after [ModelFile] has saved the XML and built the model. *)
Definition template_saved_state (p : path) (xml : string) (m : ModelData) (st : St) : St :=
  mkSt (<[p := File (Text xml)]> (fs st)) (instances st) (heap st ++ [m])
       (trace st ++ [EvWrite p; EvLoadModel (length (heap st)) xml])
       (self st).

(** The state of the constructor after it has cached the template and
    saved the metadata. *)
Definition created_state (sim_dir : path) (xml : string) (md : Metadata) (st : St) : St :=
  mkSt (<[pathjoin sim_dir META_DATA_FILE := File (Json md)]> (fs st))
       (instances st) (heap st)
       (trace st ++ [EvRead (model_file_path sim_dir);
                     EvWrite (pathjoin sim_dir META_DATA_FILE)])
       (mkSim sim_dir (model_file_path sim_dir) None (Some xml) None (md_trials md)
              (md_analysis_name md) None (md_field_names md) (Some md)).

(** ** Trials as functions of their inputs *)

Inductive trial_result :=
| Completed (row : ResultRow)
| Failed (e : exn).

Section Outcomes.
Context `{E : Externals}.

(** The two [try] blocks of the body of the loop of [run_field]: the
    model is loaded and the field found in it; the trial data are set
    and the field is evaluated. *)
Definition trial_load (fname : string) : M (FieldRef + exn) :=
  try_except
    (load_model None ;;
     a <- self_analysis ;;
     field <- Analysis_get_field a fname ;;
     ret (inl field))
    (fun e => ret (inr e)).

Definition trial_eval (field : FieldRef) (trial_num : Z) : M (option exn) :=
  try_except
    (set_trial_data field trial_num ;;
     a <- self_analysis ;;
     Field_run field a trial_num ;;
     ret None)
    (fun e => ret (Some e)).

(** The body of the loop without the variables of the loop: the field
    as rebound by the trial, if it was, and what the trial came to. *)
Definition attempt_trial (fname : string) (trial_num : Z)
  : M (option FieldRef * trial_result) :=
  r <- trial_load fname ;;
  match r with
  | inr e => ret (None, Failed e)
  | inl field =>
      r' <- trial_eval field trial_num ;;
      match r' with
      | Some e => ret (Some field, Failed e)
      | None =>
          fd <- get_field_data field ;;
          ret (Some field, Completed (result_tuple trial_num fd))
      end
  end.

(** What the loop does with the result of a trial. *)
Definition account (ls : LoopState) (trial_num : Z) (r : option FieldRef * trial_result)
  : LoopState :=
  let field := default (ls_field ls) r.1 in
  match r.2 with
  | Failed e => record_failure ls field trial_num e
  | Completed row =>
      mkLoopState field (S (ls_completed ls)) (ls_results ls ++ [row]) (ls_failures ls)
  end.

(** The result of a trial run from a given state. *)
Definition trial_outcome (fname : string) (st : St) (trial_num : Z) : trial_result :=
  match (attempt_trial fname trial_num st).1 with
  | Ok r => r.2
  | Raise e => Failed e
  end.

(** The two inputs a trial reads through the instance: the table of
    trial data (cached or read from the file of the field) and the
    template (cached or read from the model file). *)
Definition table_source (fname : string) (st : St) : result DataFrame :=
  (field_trial_data (ByObj (mkFieldRef 0 fname)) st).1.

Definition template_source (st : St) : result string :=
  (ModelFile_source [model_file (self st)] (model_xml_string (self st)) false st).1.

(** Two states give a trial of the field the same inputs. *)
Definition same_inputs (fname : string) : relation St := fun s1 s2 =>
  template_source s1 = template_source s2
  /\ analysis_name (self s1) = analysis_name (self s2)
  /\ field_names (self s1) = field_names (self s2)
  /\ pathname (self s1) = pathname (self s2)
  /\ table_source fname s1 = table_source fname s2.

(** A computation keeps the inputs of the trials of the field. *)
Definition inputs_kept (fname : string) : relation St := fun st st' =>
  stable st st' /\ table_source fname st' = table_source fname st.

(** A computation keeps the model objects and the analysis of the
    instance. *)
Definition models_kept : relation St := fun st st' =>
  heap st' = heap st /\ analysis (self st') = analysis (self st).

(** Two runs of a trial of the field, each on a model object of its
    own: the objects have the same content, the analysis of each
    instance is in its object under the same name, and the table of
    trial data is the same. *)
Definition twin (id1 id2 : nat) (fname : string) (s1 s2 : St) : Prop :=
  pathname (self s1) = pathname (self s2)
  /\ table_source fname s1 = table_source fname s2
  /\ (exists an, analysis (self s1) = Some (mkAnalysisRef id1 an)
                 /\ analysis (self s2) = Some (mkAnalysisRef id2 an))
  /\ (exists m, heap s1 !! id1 = Some m /\ heap s2 !! id2 = Some m).

(** References of the two runs to the same analysis, object and
    attribute. *)
Definition twin_analysis (id1 id2 : nat) (a1 a2 : AnalysisRef) : Prop :=
  a_model a1 = id1 /\ a_model a2 = id2 /\ a_name a1 = a_name a2.

Definition twin_obj (id1 id2 : nat) (o1 o2 : nat * Owner) : Prop :=
  o1.1 = id1 /\ o2.1 = id2 /\ o1.2 = o2.2.

Definition twin_attr (id1 id2 : nat) (r1 r2 : AttrRef) : Prop :=
  at_model r1 = id1 /\ at_model r2 = id2
  /\ at_owner r1 = at_owner r2 /\ at_name r1 = at_name r2.

End Outcomes.

(** The results of two computations correspond: both raise the same
    exception, or both return, values related by [RA]. *)
Definition outcome_rel {A B} (RA : A -> B -> Prop) (r1 : result A) (r2 : result B) : Prop :=
  match r1, r2 with
  | Ok a1, Ok a2 => RA a1 a2
  | Raise e1, Raise e2 => e1 = e2
  | _, _ => False
  end.

(** Run from states related by [R], two computations give corresponding
    results and leave states related by [R]. *)
Definition corresponds {A B} (R : St -> St -> Prop) (RA : A -> B -> Prop)
    (m1 : M A) (m2 : M B) : Prop :=
  forall s1 s2,
    R s1 s2 -> outcome_rel RA (m1 s1).1 (m2 s2).1 /\ R (m1 s1).2 (m2 s2).2.

(** Two states with the same file store, path of the simulation and
    cache of trial data. *)
Definition same_store (s1 s2 : St) : Prop :=
  fs s1 = fs s2
  /\ pathname (self s1) = pathname (self s2)
  /\ trial_data_df (self s1) = trial_data_df (self s2).

Definition same_fs (s1 s2 : St) : Prop := fs s1 = fs s2.

(** A computation changes the trace only. *)
Definition trace_only : relation St := fun st st' =>
  fs st' = fs st /\ instances st' = instances st /\ heap st' = heap st
  /\ self st' = self st.

(** The rows and the failures a loop over trial numbers collects, from
    the results of the trials. *)
Definition completed_rows (outcome : Z -> trial_result) (trial_nums : list Z)
  : list ResultRow :=
  omap (fun t => match outcome t with
                 | Completed row => Some row
                 | Failed _ => None
                 end) trial_nums.

Definition failed_trials (outcome : Z -> trial_result) (trial_nums : list Z)
  : list (Z * exn) :=
  omap (fun t => match outcome t with
                 | Completed _ => None
                 | Failed e => Some (t, e)
                 end) trial_nums.

(** ** The skip rules as the specification words them *)

Definition spec_skip (row : Row) : bool :=
  let shape := lower (distribution_type row) in
  (String.eqb shape "binary"
     && (cell_eqb (prob_of_yes row) (CNum 0%Q) || cell_eqb (prob_of_yes row) (CNum 1%Q)))
  || (String.eqb shape "uniform" && cell_eqb (low_bound row) (high_bound row))
  || (String.eqb shape "triangular" && cell_eqb (low_bound row) (high_bound row))
  || ((String.eqb shape "normal" || String.eqb shape "lognormal")
        && cell_eqb (SD row) (CNum 0%Q)).

Definition known_shape (row : Row) : bool :=
  existsb (String.eqb (lower (distribution_type row)))
    ["binary"; "uniform"; "triangular"; "normal"; "lognormal"; "empirical"].

(** ** A small instance

    One analysis with two fields; field [f1] leaves attribute [A] to the
    distributions and pins [B], field [f2] pins both.  The evaluator
    raises on trial 3 and otherwise reports the value of [A] as carbon
    intensity and as combustion emissions. *)

Definition demo_ghg : GHG := mkGHG 0 0 0 0 0 0.

Definition demo_model : ModelData :=
  mkModelData
    {[ "ana" := mkAnalysis ∅ ["f1"; "f2"] ]}
    (<["f1" := mkField true (<["A" := mkAttr false 0]> {[ "B" := mkAttr true 0 ]})
                 ∅ 0 demo_ghg]>
       {[ "f2" := mkField true (<["A" := mkAttr true 0]> {[ "B" := mkAttr true 0 ]})
                    ∅ 0 demo_ghg ]}).

Definition demo_xml : string := "<Model/>".

#[local] Instance demo_ext : Externals := {|
  frozen_rv_error := fun _ _ => None;
  merge_xml := fun texts _ => match texts with
                              | [t] => Ok t
                              | _ => Raise (OtherError "cannot merge")
                              end;
  parse_xml := fun xml _ _ => if String.eqb xml demo_xml then Ok demo_model
                              else Raise (OtherError "XML syntax error");
  field_run := fun _ _ fd _ _ t =>
                 let a := match field_attr_dict fd !! "A" with
                          | Some at_A => attr_value at_A
                          | None => 0%Q
                          end in
                 (mkField (field_enabled fd) (field_attr_dict fd) (field_processes fd)
                    a (mkGHG a 0 0 0 0 0),
                  if Z.eqb t 3 then Some (OtherError "did not converge") else None);
  lhs_sample := fun rvs n _ => Ok (replicate n (map (fun _ => 0%Q) rvs));
  magnitude := fun q => q;
  show_num := fun q => show_Z (Qnum q);
  str_obj := fun o => match o with
                      | OwField n => n
                      | OwAnalysis n => n
                      | OwProcess _ c => c
                      end
|}.

Definition blank_sim : Sim :=
  mkSim [] [] None None None 0 None None None None.

Definition empty_st : St := mkSt ∅ [] [] [] blank_sim.

Definition demo_dir : path := ["sims"; "demo"].

Definition demo_metadata : Metadata := mkMetadata (Some "ana") 5 (Some ["f1"; "f2"]).

(** A simulation directory holding its metadata only. *)
Definition reload_st : St :=
  mkSt (<[demo_dir := Dir]>
          {[ pathjoin demo_dir META_DATA_FILE := File (Json demo_metadata) ]})
       [] [] [] blank_sim.

(** The same directory with the template saved in it. *)
Definition saved_st : St :=
  mkSt (<[model_file_path demo_dir := File (Text demo_xml)]> (fs reload_st))
       [] [] [] blank_sim.

(** A simulation whose model is loaded, with two registered
    distributions. *)
Definition demo_registry : list (string * Distribution) :=
  [("A", mkDistribution "A" None "A"
           (mkRV "uniform" [("min", CNum 0%Q); ("max", CNum 1%Q)]));
   ("Field.B", mkDistribution "Field.B" (Some "Field") "B"
                 (mkRV "weighted_binary" [("prob_of_one", CNum (1#2)%Q)]))].

Definition loaded_sim : Sim :=
  mkSim demo_dir (model_file_path demo_dir) (Some 0%nat) (Some demo_xml) None 5
        (Some "ana") (Some (mkAnalysisRef 0 "ana")) (Some ["f1"; "f2"]) None.

Definition loaded_st : St :=
  mkSt {[ demo_dir := Dir ]} demo_registry [demo_model] [] loaded_sim.

Definition demo_f1 : FieldRef := mkFieldRef 0 "f1".
Definition demo_f2 : FieldRef := mkFieldRef 0 "f2".

Definition demo_table : DataFrame :=
  mkDataFrame (Some "trial_num") ["A"]
    [(0, [1%Q]); (1, [2%Q]); (2, [3%Q]); (3, [4%Q]); (4, [5%Q])].

(** The same simulation, after the table of [f1] was cached. *)
Definition cached_st : St :=
  with_self (set_trial_data_df (Some demo_table) loaded_sim) loaded_st.

(** A store in which the simulation directory exists, with an old file
    in it, and the model file is elsewhere. *)
Definition source_model : path := ["models"; "opgee.xml"].

Definition existing_st : St :=
  mkSt (<[source_model := File (Text demo_xml)]>
          (<[demo_dir := Dir]>
             {[ pathjoin demo_dir "old.txt" := File (Text "old") ]}))
       demo_registry [] [] blank_sim.

Definition demo_rv : RV := mkRV "uniform" [("min", CNum 0%Q); ("max", CNum (10#1)%Q)].

Definition uniform_row (name : string) (low high : Q) : Row :=
  mkRow "Uniform" name (CNum low) (CNum high) CEmpty CEmpty CEmpty CEmpty CEmpty.

Definition binary_row (name : string) (p : cell) : Row :=
  mkRow "binary" name CEmpty CEmpty CEmpty CEmpty CEmpty p CEmpty.

(** A row of a known shape, not degenerate, whose name has three parts. *)
Definition three_part_row : Row := uniform_row "Field.A.B" 0 (10#1).

Definition demo_ops : list reg_op :=
  [Programmatic "A" (mkRV "normal" [("mean", CNum 1%Q); ("stdev", CNum 1%Q)]);
   FromCsv [uniform_row "B" 0 1; uniform_row "A" 0 (10#1); uniform_row "C" 1 1];
   Programmatic "B" (mkRV "empirical" [])].

(** * More of the driver *)

(** ** What a row registers

    The registration a row of the table asks for, as a function of the
    row alone: nothing, a distribution under the name of the row, or an
    error. *)
Section Rows.
Context `{E : Externals}.

Definition row_registration (row : Row) : result (option Distribution) :=
  if skipped_early row then Ok None
  else match shape_rv row with
       | Raise e => Raise e
       | Ok None => Ok None
       | Ok (Some r) =>
           match split_attr_name (variable_name row) with
           | Ok ca => Ok (Some (mkDistribution (variable_name row) ca.1 ca.2 r))
           | Raise (OpgeeException _) =>
               Raise (McsUserError
                        ("attribute name format is 'ATTR' (same as 'Field.ATTR) or 'CLASS.ATTR'; got '"
                           +:+ variable_name row +:+ "'"))
           | Raise e => Raise e
           end
       end.

(** The distributions the rows of a table register, in the order of the
    rows, up to the first error. *)
Fixpoint registrations (rows : list Row) : list Distribution :=
  match rows with
  | [] => []
  | row :: rows' =>
      match row_registration row with
      | Ok None => registrations rows'
      | Ok (Some d) => d :: registrations rows'
      | Raise _ => []
      end
  end.

End Rows.

(** A registry after the distributions [ds] were registered, in order. *)
Definition register_all (ds : list Distribution) (reg : list (string * Distribution))
  : list (string * Distribution) :=
  fold_left (fun reg d => dict_set (full_name d) d reg) ds reg.

(** The names of the registry, in the order [distributions] lists them. *)
Definition registry_names (st : St) : list string := map fst (instances st).

(** The last of [ds] registered under the name [k]. *)
Fixpoint last_named (k : string) (ds : list Distribution) : option Distribution :=
  match ds with
  | [] => None
  | d :: ds' =>
      match last_named k ds' with
      | Some x => Some x
      | None => if String.eqb (full_name d) k then Some d else None
      end
  end.

(** The state a registration leaves. *)
Definition registered (d : Distribution) (st : St) : St :=
  with_trace (trace st ++ [EvRegister (full_name d) (rv d)])
    (with_instances (dict_set (full_name d) d (instances st)) st).

(** ** Qualified names *)

(** The object [lookup] takes an attribute from, for the class part of
    a qualified name. *)
Definition owner_of_class (class_name : option string) (field : FieldRef)
    (a : option AnalysisRef) : option (nat * Owner) :=
  match class_name with
  | None => Some (f_model field, OwField (f_name field))
  | Some c =>
      if String.eqb c "Field" then Some (f_model field, OwField (f_name field))
      else if String.eqb c "Analysis" then
        match a with
        | Some a => Some (a_model a, OwAnalysis (a_name a))
        | None => None
        end
      else Some (f_model field, OwProcess (f_name field) c)
  end.

(** ** Attributes in the state *)

(** The attribute a reference designates, if the model object and the
    attribute exist. *)
Definition attr_at (r : AttrRef) (st : St) : option Attr :=
  m ← heap st !! at_model r; attr_in m (at_owner r) (at_name r).

(** Two contents of a model object have the same objects and the same
    attribute names: what [lookup] finds in one it finds in the other. *)
Definition same_shape (m m' : ModelData) : Prop :=
  forall o,
    match owner_attr_dict m o, owner_attr_dict m' o with
    | Some d, Some d' => forall a, is_Some (d !! a) <-> is_Some (d' !! a)
    | None, None => True
    | _, _ => False
    end.

(** Two states in which [lookup] resolves the same names. *)
Definition same_names (st st' : St) : Prop :=
  analysis (self st') = analysis (self st)
  /\ forall id,
       match heap st !! id, heap st' !! id with
       | Some m, Some m' => same_shape m m'
       | None, None => True
       | _, _ => False
       end.

(** The loop of [set_trial_data] over the values of a trial. *)
Section SetValues.
Context `{E : Externals}.

Definition set_values (field : FieldRef) (data : list (string * Q)) : M unit :=
  for_each data (fun nv =>
    attr <- lookup nv.1 field ;;
    set_explicit_value attr nv.2).

End SetValues.

(** ** What a run writes

    The file store changes in the results of fields only: a path whose
    node has changed is the results file or the failures file of a
    field whose name satisfies [P], or the directory of such a field,
    created because it was missing.  The registry is as it was. *)
Definition writes_results_of (P : string -> Prop) : relation St := fun st st' =>
  pathname (self st') = pathname (self st)
  /\ instances st' = instances st
  /\ forall p : path,
       fs st' !! p = fs st !! p
       \/ (exists fname,
             P fname /\ p = pathjoin (pathname (self st)) fname
             /\ fs st !! p = None /\ fs st' !! p = Some Dir)
       \/ (exists fname,
             P fname
             /\ (p = pathjoin (pathjoin (pathname (self st)) fname) RESULTS_CSV
                 \/ p = pathjoin (pathjoin (pathname (self st)) fname) FAILURES_CSV)).

(** [field.is_enabled()] for the field of that name in a model. *)
Definition enabled_in (m : ModelData) (n : string) : bool :=
  match field_dict m !! n with
  | Some fd => field_enabled fd
  | None => false
  end.

(** ** Opening a simulation *)

Section Opening.
Context `{E : Externals}.

(** [Simulation.read_metadata]: the metadata of the simulation in
    [sim_dir], through an instance made for the purpose, which takes the
    place of the instance of the state. *)
Definition read_metadata (sim_dir : path) : M (option Metadata) :=
  Simulation_init sim_dir None 0 None None true ;;
  gets (fun st => metadata (self st)).

End Opening.

(** The instance [read_metadata] leaves when it has read [md]. *)
Definition metadata_sim (sim_dir : path) (md : Metadata) : Sim :=
  mkSim sim_dir (model_file_path sim_dir) None None None (md_trials md)
        (md_analysis_name md) None (md_field_names md) (Some md).

(** A computation reads files and loads models, and does nothing else
    to the store and to the registry. *)
Definition is_read (e : event) : Prop :=
  match e with
  | EvRead _ | EvLoadModel _ _ => True
  | _ => False
  end.

Definition reads_only : relation St := fun st st' =>
  fs st' = fs st
  /\ instances st' = instances st
  /\ exists evs, trace st' = trace st ++ evs /\ Forall is_read evs.

(** A computation run for the simulation in [sim_dir] changes nothing
    of the store outside [sim_dir]. *)
Definition writes_inside (sim_dir : path) : relation St := fun st st' =>
  pathname (self st) = sim_dir ->
  pathname (self st') = sim_dir
  /\ forall p : path, ¬ sim_dir `prefix_of` p -> fs st' !! p = fs st !! p.

(** The store outside [sim_dir] is as it was. *)
Definition frame_outside (sim_dir : path) : relation St := fun st st' =>
  forall p : path, ¬ sim_dir `prefix_of` p -> fs st' !! p = fs st !! p.

(** The store and the path of the simulation are as they were. *)
Definition keeps_store : relation St := fun st st' =>
  fs st' = fs st /\ pathname (self st') = pathname (self st).

(** ** More small instances *)

(** A row of a shape [read_distributions] does not know. *)
Definition weibull_row (name : string) : Row :=
  mkRow "weibull" name (CNum 0%Q) (CNum 1%Q) CEmpty CEmpty CEmpty CEmpty CEmpty.

(** The loaded simulation with the table of [f1] on file and nothing
    cached. *)
Definition filed_st : St :=
  with_fs (<[pathjoin (pathjoin demo_dir "f1") TRIAL_DATA_CSV := File (Csv demo_table)]>
             (fs loaded_st)) loaded_st.

(** A model in which [f2] is disabled, and the cached simulation with
    that model loaded. *)
Definition mixed_model : ModelData :=
  mkModelData
    {[ "ana" := mkAnalysis ∅ ["f1"; "f2"] ]}
    (<["f1" := mkField true (<["A" := mkAttr false 0]> {[ "B" := mkAttr true 0 ]})
                 ∅ 0 demo_ghg]>
       {[ "f2" := mkField false (<["A" := mkAttr true 0]> {[ "B" := mkAttr true 0 ]})
                    ∅ 0 demo_ghg ]}).

Definition mixed_st : St :=
  mkSt {[ demo_dir := Dir ]} demo_registry [mixed_model] []
       (set_trial_data_df (Some demo_table) loaded_sim).

(** ** What generate writes

    The file store changes in the trial data of fields only: a path
    whose node has changed is the [trial_data.csv] of a field, or the
    directory of a field, created because it was missing.  The registry
    and the model objects are as they were. *)
Definition writes_trial_data : relation St := fun st st' =>
  pathname (self st') = pathname (self st)
  /\ instances st' = instances st
  /\ heap st' = heap st
  /\ forall p : path,
       fs st' !! p = fs st !! p
       \/ (exists fname,
             p = pathjoin (pathname (self st)) fname
             /\ fs st !! p = None /\ fs st' !! p = Some Dir)
       \/ (exists fname,
             p = pathjoin (pathjoin (pathname (self st)) fname) TRIAL_DATA_CSV).

(** ** Reopening with a number of trials

    The field names [_load_meta_data] leaves, and the instance the
    constructor has when the metadata [md] is loaded. *)
Definition loaded_field_names (names : option (list string)) (md : Metadata)
    : option (list string) :=
  if truthy_list names then
    match md_field_names md with
    | Some md_names => Some (filter (fun name => name ∈ default [] names) md_names)
    | None => None
    end
  else md_field_names md.

Definition reopened_sim (sim_dir : path) (names : option (list string)) (md : Metadata)
    : Sim :=
  mkSim sim_dir (model_file_path sim_dir) None None None (md_trials md)
        (md_analysis_name md) None (loaded_field_names names md) (Some md).

(** The number of trials of the instance is as it was. *)
Definition keeps_trials : relation St := fun st st' =>
  trials (self st') = trials (self st).

(** The saved simulation directory, with the two distributions
    registered. *)
Definition registered_st : St :=
  mkSt (fs saved_st) demo_registry [] [] blank_sim.

(** * Properties *)

Local Open Scope py_scope.

Create HintDb py discriminated.
#[local] Hint Unfold bind ret raise try_except gets modify lift emit modify_self : py.

Ltac unfold_py := autounfold with py in *; simpl in *.

Section Proofs.
Context `{E : Externals}.

(** ** The registry as a dict *)

Lemma dict_get_set_eq {V} (k : string) (v : V) d :
  dict_get k (dict_set k v d) = Some v.
Proof.
  induction d as [|[k' v'] d IH]; simpl.
  - now rewrite String.eqb_refl.
  - destruct (String.eqb k' k) eqn:Hk; simpl.
    + now rewrite String.eqb_refl.
    + now rewrite Hk.
Qed.

Lemma dict_get_set_ne {V} (k k' : string) (v : V) d :
  k <> k' -> dict_get k' (dict_set k v d) = dict_get k' d.
Proof.
  intros Hne.
  induction d as [|[k0 v0] d IH]; simpl.
  - destruct (String.eqb k k') eqn:Hk; [|reflexivity].
    apply String.eqb_eq in Hk. contradiction.
  - destruct (String.eqb k0 k) eqn:Hk; simpl.
    + apply String.eqb_eq in Hk. subst k0.
      destruct (String.eqb k k') eqn:Hk'; [|reflexivity].
      apply String.eqb_eq in Hk'. contradiction.
    + now rewrite IH.
Qed.

Lemma dict_set_keys_in {V} (k : string) (v : V) d :
  forall x, x ∈ map fst (dict_set k v d) <-> x = k \/ x ∈ map fst d.
Proof.
  induction d as [|[k0 v0] d IH]; simpl; intros x.
  - rewrite list_elem_of_singleton. split; [auto|].
    intros [H|H]; [assumption | inversion H].
  - destruct (String.eqb k0 k) eqn:Hk; simpl.
    + apply String.eqb_eq in Hk. subst k0.
      rewrite !elem_of_cons. tauto.
    + rewrite !elem_of_cons, IH. tauto.
Qed.

Lemma dict_set_NoDup {V} (k : string) (v : V) d :
  NoDup (map fst d) -> NoDup (map fst (dict_set k v d)).
Proof.
  induction d as [|[k0 v0] d IH]; simpl; intros Hnd.
  - apply NoDup_singleton.
  - apply NoDup_cons in Hnd as [Hnotin Hnd].
    destruct (String.eqb k0 k) eqn:Hk; simpl.
    + apply String.eqb_eq in Hk. subst k0.
      apply NoDup_cons. split; assumption.
    + apply NoDup_cons. split; [|auto].
      rewrite dict_set_keys_in. intros [Heq|Hin]; [|contradiction].
      subst k0. now rewrite String.eqb_refl in Hk.
Qed.

Lemma last_registered_snoc n tr e :
  last_registered n (tr ++ [e])
  = match e with
    | EvRegister n' r => if String.eqb n' n then Some r else last_registered n tr
    | _ => last_registered n tr
    end.
Proof.
  induction tr as [|e0 tr IH]; simpl.
  - destruct e; reflexivity.
  - rewrite IH. destruct e; try reflexivity.
    destruct (String.eqb name n); reflexivity.
Qed.

(** What the constructor does: it raises on a malformed name and leaves
    the state alone, or it sets the entry of the name and logs it. *)
Lemma Distribution_init_cases (n : string) (r : RV) (st : St) :
  (exists msg, split_attr_name n = Raise (OpgeeException msg)
     /\ exists msg', Distribution_init n r st = (Raise (McsUserError msg'), st))
  \/ (exists ca, split_attr_name n = Ok ca
       /\ Distribution_init n r st
          = (Ok (mkDistribution n ca.1 ca.2 r),
             with_trace (trace st ++ [EvRegister n r])
               (with_instances (dict_set n (mkDistribution n ca.1 ca.2 r) (instances st)) st))).
Proof.
  unfold Distribution_init, split_attr_name.
  destruct (split_on "." n) as [|a [|b [|c l]]]; unfold_py; eauto 10.
Qed.

Lemma registry_agrees_register n ca r st :
  registry_agrees st ->
  registry_agrees
    (with_trace (trace st ++ [EvRegister n r])
       (with_instances (dict_set n (mkDistribution n ca.1 ca.2 r) (instances st)) st)).
Proof.
  intros (Hnd & Hname & Hlast).
  unfold registry_agrees, distro_by_name in *; simpl.
  split; [now apply dict_set_NoDup|]. split.
  - intros n' d. destruct (decide (n = n')) as [->|Hne].
    + rewrite dict_get_set_eq. now intros [= <-].
    + rewrite dict_get_set_ne by assumption. apply Hname.
  - intros n'. rewrite last_registered_snoc.
    destruct (String.eqb n n') eqn:Hn.
    + apply String.eqb_eq in Hn. subst n'. now rewrite dict_get_set_eq.
    + apply String.eqb_neq in Hn. rewrite dict_get_set_ne by assumption. apply Hlast.
Qed.

Lemma registry_agrees_Distribution_init n r st :
  registry_agrees st -> registry_agrees (Distribution_init n r st).2.
Proof.
  intros Hst.
  destruct (Distribution_init_cases n r st) as [(msg & _ & msg' & ->)|(ca & _ & ->)]; simpl.
  - assumption.
  - now apply registry_agrees_register.
Qed.

(** A row leaves the state alone or registers one distribution under
    its name. *)
Lemma read_row_cases (row : Row) (st : St) :
  (read_row row st).2 = st
  \/ exists r, shape_rv row = Ok (Some r)
       /\ skipped_early row = false
       /\ read_row row st
          = ((Distribution_init (variable_name row) r ;; ret tt) st).
Proof.
  unfold read_row, skipped_early.
  destruct (String.eqb (variable_name row) EmptyString); simpl; [now left|].
  match goal with |- context [if ?c then _ else _] => destruct c end; simpl; [now left|].
  unfold bind at 1, lift.
  destruct (shape_rv row) as [[r|]|e]; simpl; [|now left|now left].
  right. exists r. repeat split; reflexivity.
Qed.

Lemma registry_agrees_read_row row st :
  registry_agrees st -> registry_agrees (read_row row st).2.
Proof.
  intros Hst.
  destruct (read_row_cases row st) as [->|(r & _ & _ & ->)]; [assumption|].
  unfold bind.
  pose proof (registry_agrees_Distribution_init (variable_name row) r st Hst) as H.
  destruct (Distribution_init (variable_name row) r st) as [[d|e] st']; exact H.
Qed.

Lemma registry_agrees_read_distributions rows st :
  registry_agrees st -> registry_agrees (read_distributions rows st).2.
Proof.
  unfold read_distributions.
  revert st. induction rows as [|row rows IH]; intros st Hst; simpl; [assumption|].
  unfold bind.
  pose proof (registry_agrees_read_row row st Hst) as H.
  destruct (read_row row st) as [[[]|e] st']; simpl in *; [|assumption].
  now apply IH.
Qed.

Lemma registry_agrees_run_op op st :
  registry_agrees st -> registry_agrees (run_op op st).2.
Proof.
  intros Hst. destruct op as [n r|rows]; simpl.
  - unfold bind.
    pose proof (registry_agrees_Distribution_init n r st Hst) as H.
    destruct (Distribution_init n r st) as [[d|e] st']; exact H.
  - now apply registry_agrees_read_distributions.
Qed.


(** ** The rows of the table *)

Lemma existsb_shape (s : string) :
  existsb (String.eqb s)
    ["binary"; "uniform"; "triangular"; "normal"; "lognormal"; "empirical"]
  = (String.eqb s "binary" || String.eqb s "uniform" || String.eqb s "triangular"
     || String.eqb s "normal" || String.eqb s "lognormal" || String.eqb s "empirical").
Proof. simpl. now rewrite orb_false_r, !orb_assoc. Qed.

Ltac shape_case s c H :=
  destruct (String.eqb s c) eqn:H;
  [apply String.eqb_eq in H; rewrite ?H in *; simpl in * |].

Ltac all_shape_cases s :=
  let H1 := fresh "Hbin" in let H2 := fresh "Huni" in let H3 := fresh "Htri" in
  let H4 := fresh "Hnor" in let H5 := fresh "Hlog" in let H6 := fresh "Hemp" in
  shape_case s "binary" H1;
  [| shape_case s "uniform" H2;
     [| shape_case s "triangular" H3;
        [| shape_case s "normal" H4;
           [| shape_case s "lognormal" H5;
              [| shape_case s "empirical" H6 ]]]]].

(** A degenerate row builds nothing. *)
Lemma shape_rv_skip row :
  spec_skip row = true -> shape_rv row = Ok None.
Proof.
  unfold spec_skip, shape_rv.
  generalize (lower (distribution_type row)) as s. intros s.
  all_shape_cases s; simpl; intros Hs;
    rewrite ?orb_false_r, ?andb_false_r in Hs; try discriminate; now rewrite Hs.
Qed.

(** A row of a known shape that is not degenerate asks [get_frozen_rv]
    for a random variable. *)
Lemma shape_rv_known row :
  spec_skip row = false -> known_shape row = true ->
  exists shape kwargs, shape_rv row = result_map Some (get_frozen_rv shape kwargs).
Proof.
  unfold spec_skip, shape_rv, known_shape. rewrite existsb_shape.
  generalize (lower (distribution_type row)) as s. intros s.
  all_shape_cases s; simpl; intros Hs Hk;
    rewrite ?orb_false_r, ?andb_false_r in Hs; try discriminate; rewrite ?Hs;
    try (destruct (cell_eqb (low_bound row) CEmpty || cell_eqb (high_bound row) CEmpty));
    eauto.
Qed.

Lemma shape_rv_unknown row :
  known_shape row = false ->
  shape_rv row
  = Raise (McsSystemError
             ("Unknown distribution shape: '" +:+ lower (distribution_type row) +:+ "'")).
Proof.
  unfold shape_rv, known_shape. rewrite existsb_shape.
  generalize (lower (distribution_type row)) as s. intros s.
  all_shape_cases s; simpl; intros Hk; try discriminate. reflexivity.
Qed.

Lemma read_row_early row st :
  skipped_early row = true -> read_row row st = (Ok tt, st).
Proof.
  unfold skipped_early, read_row. intros H.
  destruct (String.eqb (variable_name row) EmptyString); [reflexivity|].
  simpl in H. now rewrite H.
Qed.

Lemma read_row_late row st :
  skipped_early row = false ->
  read_row row st
  = match shape_rv row with
    | Ok None => (Ok tt, st)
    | Ok (Some r) => (Distribution_init (variable_name row) r ;; ret tt) st
    | Raise e => (Raise e, st)
    end.
Proof.
  unfold skipped_early, read_row. intros H.
  apply orb_false_iff in H as [-> H]. rewrite H.
  unfold bind at 1, lift. now destruct (shape_rv row) as [[r|]|e].
Qed.

(** The registrations a table adds to the trace come from rows of the
    table that were not skipped. *)
Lemma read_distributions_trace rows st :
  exists evs,
    trace (read_distributions rows st).2 = trace st ++ evs
    /\ Forall (fun ev => exists row r,
                  row ∈ rows /\ skipped_early row = false /\ spec_skip row = false
                  /\ shape_rv row = Ok (Some r)
                  /\ ev = EvRegister (variable_name row) r) evs.
Proof.
  unfold read_distributions.
  revert st. induction rows as [|row rows IH]; intros st; simpl.
  - exists []. now rewrite app_nil_r.
  - unfold bind at 1.
    assert (Hrow : exists evs, trace (read_row row st).2 = trace st ++ evs
              /\ Forall (fun ev => exists r, skipped_early row = false /\ spec_skip row = false
                            /\ shape_rv row = Ok (Some r)
                            /\ ev = EvRegister (variable_name row) r) evs).
    { destruct (read_row_cases row st) as [->|(r & Hr & Hearly & ->)].
      - exists []. now rewrite app_nil_r.
      - assert (Hskip : spec_skip row = false).
        { destruct (spec_skip row) eqn:Hs; [|reflexivity].
          apply shape_rv_skip in Hs. congruence. }
        unfold bind.
        destruct (Distribution_init_cases (variable_name row) r st)
          as [(msg & _ & msg' & ->)|(ca & _ & ->)]; simpl.
        + exists []. now rewrite app_nil_r.
        + eexists. split; [reflexivity|]. repeat constructor. eauto. }
    destruct Hrow as (evs1 & Htr1 & Hall1).
    destruct (read_row row st) as [[[]|e] st1]; simpl in *.
    + destruct (IH st1) as (evs2 & Htr2 & Hall2).
      exists (evs1 ++ evs2). split.
      * now rewrite Htr2, Htr1, app_assoc.
      * apply Forall_app. split.
        -- eapply Forall_impl; [exact Hall1|]. intros ev (r & ? & ? & ? & ?).
           exists row, r. rewrite elem_of_cons. auto.
        -- eapply Forall_impl; [exact Hall2|]. intros ev (row' & r & ? & ?).
           exists row', r. rewrite elem_of_cons. auto.
    + exists evs1. split; [assumption|].
      eapply Forall_impl; [exact Hall1|]. intros ev (r & ? & ? & ? & ?).
      exists row, r. rewrite elem_of_cons. auto.
Qed.

(** C3, as the code has it.  A row skipped early or degenerate (uniform
    or triangular with equal bounds, normal or lognormal with a zero
    deviation, binary with probability 0 or 1) leaves the registry as it
    was; every other row of a known shape asks for a random variable and,
    when the random variable is built and the name of the row has the
    form ATTR or CLASS.ATTR, is registered under its name, while an error
    of either step is raised and nothing is registered; a row of an
    unknown shape raises [McsSystemError]; and all a table registers
    comes from such rows. *)
Theorem read_distributions_skip_rules :
  (forall row st,
      skipped_early row = true \/ spec_skip row = true ->
      read_row row st = (Ok tt, st))
  /\ (forall row st,
        skipped_early row = false -> spec_skip row = false -> known_shape row = true ->
        (exists shape kwargs, shape_rv row = result_map Some (get_frozen_rv shape kwargs))
        /\ (forall r ca,
               shape_rv row = Ok (Some r) ->
               split_attr_name (variable_name row) = Ok ca ->
               exists st',
                 read_row row st = (Ok tt, st')
                 /\ distro_by_name (variable_name row) st'
                    = Some (mkDistribution (variable_name row) ca.1 ca.2 r))
        /\ (forall e, shape_rv row = Raise e -> read_row row st = (Raise e, st))
        /\ (forall r msg,
               shape_rv row = Ok (Some r) ->
               split_attr_name (variable_name row) = Raise (OpgeeException msg) ->
               exists msg', read_row row st = (Raise (McsUserError msg'), st)))
  /\ (forall row st,
        skipped_early row = false -> known_shape row = false ->
        exists msg, read_row row st = (Raise (McsSystemError msg), st))
  /\ (forall rows st,
        exists evs,
          trace (read_distributions rows st).2 = trace st ++ evs
          /\ Forall (fun ev => exists row r,
                        row ∈ rows /\ skipped_early row = false /\ spec_skip row = false
                        /\ shape_rv row = Ok (Some r)
                        /\ ev = EvRegister (variable_name row) r) evs).
Proof.
  split; [|split; [|split]].
  - intros row st [Hearly|Hskip].
    + now apply read_row_early.
    + destruct (skipped_early row) eqn:Hearly; [now apply read_row_early|].
      rewrite read_row_late by assumption. now rewrite shape_rv_skip.
  - intros row st Hearly Hskip Hknown.
    split; [now apply shape_rv_known|]. split; [|split].
    + intros r ca Hr Hca. rewrite read_row_late, Hr by assumption.
      unfold bind.
      destruct (Distribution_init_cases (variable_name row) r st)
        as [(msg & Hbad & _)|(ca' & Hca' & ->)]; [congruence|].
      assert (ca' = ca) as -> by congruence.
      eexists. split; [reflexivity|].
      unfold distro_by_name; simpl. apply dict_get_set_eq.
    + intros e He. now rewrite read_row_late, He.
    + intros r msg Hr Hbad. rewrite read_row_late, Hr by assumption.
      unfold bind.
      destruct (Distribution_init_cases (variable_name row) r st)
        as [(msg0 & _ & msg' & ->)|(ca' & Hca' & _)]; [eauto|congruence].
  - intros row st Hearly Hknown.
    rewrite read_row_late, shape_rv_unknown by assumption. eauto.
  - apply read_distributions_trace.
Qed.

(** C10.  A [sim_dir] that is not an existing directory makes the
    constructor raise [McsUserError] at once: the state after the call is
    the state before it, so no file has been read (the trace is the same),
    nothing has been written and no attribute of the instance is set. *)
Theorem init_requires_directory :
  forall sim_dir analysis_name trials field_names save_to_path meta_data_only st,
    isdir sim_dir st = false ->
    Simulation_init sim_dir analysis_name trials field_names save_to_path meta_data_only st
    = (Raise (McsUserError
                ("Simulation directory '" +:+ path_str sim_dir +:+ "' does not exist.")),
       st).
Proof.
  intros * Hdir.
  unfold Simulation_init, bind, gets.
  now rewrite Hdir.
Qed.

(** ** Computations that keep a relation between the states *)

Section Preserves.
Context (R : relation St) `{!PreOrder R}.

Lemma preserves_ret {A} (a : A) : preserves R (ret a).
Proof. intros st. reflexivity. Qed.

Lemma preserves_raise {A} e : preserves R (@raise A e).
Proof. intros st. reflexivity. Qed.

Lemma preserves_gets {A} (f : St -> A) : preserves R (gets f).
Proof. intros st. reflexivity. Qed.

Lemma preserves_lift {A} (r : result A) : preserves R (lift r).
Proof. intros st. reflexivity. Qed.

Lemma preserves_bind {A B} (m : M A) (k : A -> M B) :
  preserves R m -> (forall a, preserves R (k a)) -> preserves R (bind m k).
Proof.
  intros Hm Hk st. unfold bind.
  specialize (Hm st). destruct (m st) as [[a|e] st1]; simpl in *; [|assumption].
  etransitivity; [exact Hm | apply Hk].
Qed.

Lemma preserves_try {A} (m : M A) (h : exn -> M A) :
  preserves R m -> (forall e, preserves R (h e)) -> preserves R (try_except m h).
Proof.
  intros Hm Hh st. unfold try_except.
  specialize (Hm st). destruct (m st) as [[a|e] st1]; simpl in *; [assumption|].
  etransitivity; [exact Hm | apply Hh].
Qed.

Lemma preserves_for_each {A} (l : list A) (body : A -> M unit) :
  (forall x, preserves R (body x)) -> preserves R (for_each l body).
Proof.
  intros Hb. induction l as [|x l IH]; simpl.
  - apply preserves_ret.
  - apply preserves_bind; auto.
Qed.

Lemma preserves_map_M {A B} (f : A -> M B) (l : list A) :
  (forall x, preserves R (f x)) -> preserves R (map_M f l).
Proof.
  intros Hf. induction l as [|x l IH]; simpl.
  - apply preserves_ret.
  - apply preserves_bind; [auto|]. intros y.
    apply preserves_bind; [auto|]. intros ys. apply preserves_ret.
Qed.

Lemma preserves_modify (f : St -> St) :
  (forall st, R st (f st)) -> preserves R (modify f).
Proof. intros Hf st. apply Hf. Qed.

End Preserves.

(** One step of a proof that a computation keeps a relation: a rule of
    the monad, or a case analysis on what the computation branches on. *)
Ltac preserves_step :=
  match goal with
  | |- preserves _ (bind _ _) => apply preserves_bind; [typeclasses eauto | | intros ?]
  | |- preserves _ (try_except _ _) => apply preserves_try; [typeclasses eauto | | intros ?]
  | |- preserves _ (ret _) => apply preserves_ret; typeclasses eauto
  | |- preserves _ (raise _) => apply preserves_raise; typeclasses eauto
  | |- preserves _ (gets _) => apply preserves_gets; typeclasses eauto
  | |- preserves _ (lift _) => apply preserves_lift; typeclasses eauto
  | |- preserves _ (for_each _ _) => apply preserves_for_each; [typeclasses eauto | intros ?]
  | |- preserves _ (map_M _ _) => apply preserves_map_M; [typeclasses eauto | intros ?]
  | |- preserves _ (modify _) => apply preserves_modify; intros ?
  | |- preserves _ (emit _) => apply preserves_modify; intros ?
  | |- preserves _ (modify_self _) => apply preserves_modify; intros ?
  | |- preserves _ _ => progress (cbv beta iota)
  | |- preserves _ (match ?x with _ => _ end) => destruct x
  | |- preserves _ (let _ := _ in _) => cbv zeta
  end.

Create HintDb pres discriminated.

Ltac preserves_tac := repeat (preserves_step || (solve [eauto with pres])).

(** ** Computations that only read *)

Lemma read_only_run {A} (m : M A) st : preserves eq m -> m st = ((m st).1, st).
Proof. intros H. rewrite (H st) at 3. now destruct (m st). Qed.

Lemma get_model_ro id : preserves eq (get_model id).
Proof. unfold get_model. preserves_tac. Qed.
#[local] Hint Resolve get_model_ro : pres.

Lemma self_analysis_ro : preserves eq self_analysis.
Proof. unfold self_analysis. preserves_tac. Qed.
#[local] Hint Resolve self_analysis_ro : pres.

Lemma Analysis_get_field_ro a name : preserves eq (Analysis_get_field a name).
Proof. unfold Analysis_get_field. preserves_tac. Qed.
#[local] Hint Resolve Analysis_get_field_ro : pres.

Lemma Analysis_fields_ro a : preserves eq (Analysis_fields a).
Proof. unfold Analysis_fields. preserves_tac. Qed.
#[local] Hint Resolve Analysis_fields_ro : pres.

Lemma chosen_fields_ro : preserves eq chosen_fields.
Proof. unfold chosen_fields. preserves_tac. Qed.
#[local] Hint Resolve chosen_fields_ro : pres.

Lemma lookup_obj_ro c field : preserves eq (lookup_obj c field).
Proof. unfold lookup_obj. preserves_tac. Qed.
#[local] Hint Resolve lookup_obj_ro : pres.

Lemma lookup_ro n field : preserves eq (lookup n field).
Proof. unfold lookup. preserves_tac. Qed.
#[local] Hint Resolve lookup_ro : pres.

Lemma read_attr_ro r : preserves eq (read_attr r).
Proof. unfold read_attr. preserves_tac. Qed.
#[local] Hint Resolve read_attr_ro : pres.

Lemma select_columns_ro field dists cols rvs :
  preserves eq (select_columns field dists cols rvs).
Proof.
  revert cols rvs. induction dists as [|d dists IH]; intros cols rvs; simpl.
  - preserves_tac.
  - preserves_tac.
Qed.
#[local] Hint Resolve select_columns_ro : pres.

Lemma field_dir_ro field : preserves eq (field_dir field).
Proof. unfold field_dir. preserves_tac. Qed.
#[local] Hint Resolve field_dir_ro : pres.

Lemma get_field_data_ro field : preserves eq (get_field_data field).
Proof. unfold get_field_data. preserves_tac. Qed.
#[local] Hint Resolve get_field_data_ro : pres.

(** ** Metadata *)

(** C5, as the code has it.  Reloading metadata with a requested list of
    field names raises no error for a requested name the metadata does
    not have: the instance gets the names of the metadata that were
    requested, in the order of the metadata, and the others are dropped. *)
Theorem load_meta_data_drops_unknown_names :
  forall st requested md names,
    fs st !! pathjoin (pathname (self st)) META_DATA_FILE = Some (File (Json md)) ->
    md_field_names md = Some names ->
    requested <> [] ->
    exists st',
      _load_meta_data (Some requested) st = (Ok tt, st')
      /\ field_names (self st') = Some (filter (fun name => name ∈ requested) names)
      /\ analysis_name (self st') = md_analysis_name md
      /\ trials (self st') = md_trials md
      /\ metadata (self st') = Some md.
Proof.
  intros st requested md names Hfile Hnames Hreq.
  unfold _load_meta_data, metadata_path, json_load, open_read.
  unfold_py. rewrite Hfile. simpl. rewrite Hnames.
  destruct requested as [|name requested]; [contradiction|]. simpl.
  eexists. split; [reflexivity|]. simpl. auto.
Qed.

(** ** The trial-data cache *)

Lemma field_trial_data_cached fB st df :
  trial_data_df (self st) = Some df ->
  field_trial_data (ByObj fB) st = (Ok df, st).
Proof. intros H. unfold field_trial_data. unfold_py. now rewrite H. Qed.

Lemma trial_data_path_no_mkdir field st :
  trial_data_path field false st
  = (Ok (pathjoin (pathjoin (pathname (self st)) (f_name field)) TRIAL_DATA_CSV), st).
Proof. reflexivity. Qed.

(** ** generate, one field *)

Lemma generate_field_cases trials corr field st :
  generate_field trials corr field st
  = match (select_columns field (distributions st) [] [] st).1 with
    | Raise e => (Raise e, st)
    | Ok ([], _) => (Raise (no_columns_error field), st)
    | Ok (c :: cols, rvs) =>
        match lhs_sample rvs trials corr with
        | Raise e =>
            (Raise e, with_trace (trace st ++ [EvSample (f_name field) (c :: cols)]) st)
        | Ok data => (Ok tt, generated_state field (c :: cols) data st)
        end
    end.
Proof.
  unfold generate_field.
  unfold bind at 1, gets at 1. unfold bind at 1.
  rewrite (read_only_run (select_columns field (distributions st) [] []))
    by apply select_columns_ro.
  destruct (select_columns field (distributions st) [] [] st).1 as [[[|c cols] rvs]|e];
    simpl; try reflexivity.
  unfold bind, emit, modify, lift, modify_self, save_trial_data, trial_data_path,
    field_dir, mkdirs, write_file, gets, emit, modify, bind. simpl.
  destruct (lhs_sample rvs trials corr); simpl; [|reflexivity].
  unfold generated_state, with_fs, with_trace, generated_table; simpl.
  now rewrite <- !app_assoc.
Qed.

(** ** Qualified names *)

Lemma split_on_no_sep sep s :
  Forall (fun tok => has_char sep tok = false) (split_on sep s).
Proof.
  induction s as [|c s IH]; simpl.
  - repeat constructor.
  - destruct (Ascii.eqb c sep) eqn:Hc.
    + constructor; [reflexivity | assumption].
    + destruct (split_on sep s) as [|tok toks].
      * repeat constructor. simpl. now rewrite Hc.
      * inversion_clear IH as [|? ? Htok Htoks].
        constructor; [|assumption]. simpl. now rewrite Hc.
Qed.

Lemma split_on_whole sep s :
  has_char sep s = false -> split_on sep s = [s].
Proof.
  induction s as [|c s IH]; simpl; [reflexivity|].
  intros H. apply orb_false_iff in H as [Hc Hs].
  now rewrite Hc, (IH Hs).
Qed.

(** The attribute part of a qualified name is itself a bare name. *)
Lemma split_attr_name_attr n c a :
  split_attr_name n = Ok (c, a) -> split_attr_name a = Ok (None, a).
Proof.
  unfold split_attr_name.
  pose proof (split_on_no_sep "." n) as Hall.
  destruct (split_on "." n) as [|x [|y [|z l]]]; intros [= <- <-].
  - inversion_clear Hall as [|? ? Hx _]. now rewrite (split_on_whole _ _ Hx).
  - inversion_clear Hall as [|? ? _ Hall']. inversion_clear Hall' as [|? ? Hy _].
    now rewrite (split_on_whole _ _ Hy).
Qed.

(** [lookup] treats a bare name as a name of class Field. *)
Lemma lookup_same_parts n n' c c' a field st :
  split_attr_name n = Ok (c, a) ->
  split_attr_name n' = Ok (c', a) ->
  (c = c' \/ (c = Some "Field" /\ c' = None)) ->
  lookup n field st = lookup n' field st.
Proof.
  intros Hn Hn' Hc. unfold lookup. unfold bind at 1 3, lift.
  rewrite Hn, Hn'. simpl.
  destruct Hc as [->|[-> ->]]; reflexivity.
Qed.

(** The column of a distribution designates the attribute the
    distribution targets. *)
Lemma lookup_column_name d field st :
  distribution_wf d ->
  lookup (column_name d) field st = lookup (full_name d) field st.
Proof.
  unfold distribution_wf, column_name. intros Hwf.
  destruct (class_name d) as [c|] eqn:Hc; [|reflexivity].
  destruct (String.eqb c "Field") eqn:Hf; [|reflexivity].
  apply String.eqb_eq in Hf. subst c.
  symmetry. eapply lookup_same_parts; eauto using split_attr_name_attr.
Qed.

Lemma target_explicit_lookup d d' field st :
  lookup (full_name d) field st = lookup (full_name d') field st ->
  target_explicit d field st = target_explicit d' field st.
Proof. intros H. unfold target_explicit, bind. now rewrite H. Qed.

(** ** The columns of a field *)

Lemma select_columns_step field d rest cols rvs st :
  (select_columns field (d :: rest) cols rvs st).1
  = match (target_explicit d field st).1 with
    | Raise e => Raise e
    | Ok true => (select_columns field rest cols rvs st).1
    | Ok false =>
        (select_columns field rest (cols ++ [column_name d]) (rvs ++ [rv d]) st).1
    end.
Proof.
  simpl. unfold target_explicit, bind.
  rewrite (read_only_run (lookup (full_name d) field)) by apply lookup_ro.
  destruct (lookup (full_name d) field st).1 as [r|e]; simpl; [|reflexivity].
  rewrite (read_only_run (read_attr r)) by apply read_attr_ro.
  destruct (read_attr r st).1 as [a|e]; simpl; [|reflexivity].
  now destruct (explicit a).
Qed.

(** What the loop returns: the columns and random variables of the free
    distributions, in the order of the registry. *)
Lemma select_columns_spec field dists st :
  forall cols rvs cols' rvs',
    (select_columns field dists cols rvs st).1 = Ok (cols', rvs') ->
    cols' = cols ++ map column_name (List.filter (is_free field st) dists)
    /\ rvs' = rvs ++ map rv (List.filter (is_free field st) dists).
Proof.
  induction dists as [|d dists IH]; intros cols rvs cols' rvs'.
  - simpl. intros [= <- <-]. now rewrite !app_nil_r.
  - rewrite select_columns_step. simpl List.filter.
    assert (Hfree : is_free field st d
                    = match (target_explicit d field st).1 with
                      | Ok false => true
                      | _ => false
                      end) by reflexivity.
    rewrite Hfree. clear Hfree.
    destruct (target_explicit d field st).1 as [[|]|e]; try discriminate.
    + apply IH.
    + intros H. apply IH in H as [-> ->]. simpl. now rewrite <- !app_assoc.
Qed.

Lemma select_columns_all_explicit field dists st :
  Forall (fun d => (target_explicit d field st).1 = Ok true) dists ->
  forall cols rvs, (select_columns field dists cols rvs st).1 = Ok (cols, rvs).
Proof.
  induction 1 as [|d dists Hd _ IH]; intros cols rvs; [reflexivity|].
  rewrite select_columns_step, Hd. apply IH.
Qed.

(** No column of the table designates an attribute with an explicit
    value. *)
Lemma explicit_column_absent field st cols rvs d :
  registry_wf st ->
  (select_columns field (distributions st) [] [] st).1 = Ok (cols, rvs) ->
  d ∈ distributions st ->
  (target_explicit d field st).1 = Ok true ->
  column_name d ∉ cols.
Proof.
  intros Hwf Hsel Hd Hexp Hin.
  apply select_columns_spec in Hsel as [-> _]. simpl in Hin.
  apply list_elem_of_fmap in Hin as (d' & Hcol & Hd').
  apply list_elem_of_In, filter_In in Hd' as [Hd' Hfree].
  apply list_elem_of_In in Hd'.
  unfold registry_wf in Hwf. rewrite Forall_forall in Hwf.
  assert (Hlk : lookup (full_name d) field st = lookup (full_name d') field st).
  { rewrite <- (lookup_column_name d), <- (lookup_column_name d') by auto.
    now rewrite Hcol. }
  apply target_explicit_lookup in Hlk.
  unfold is_free in Hfree. rewrite <- Hlk, Hexp in Hfree. discriminate.
Qed.

Lemma for_each_raises {A} (body : A -> M unit) pre x post st st1 st2 e :
  for_each pre body st = (Ok tt, st1) ->
  body x st1 = (Raise e, st2) ->
  for_each (pre ++ x :: post) body st = (Raise e, st2).
Proof.
  revert st. induction pre as [|y pre IH]; intros st; simpl.
  - intros [= <-] Hx. unfold bind. now rewrite Hx.
  - unfold bind. destruct (body y st) as [[[]|e'] st']; [|discriminate].
    intros Hpre Hx. now apply IH.
Qed.

(** C4.  For a field, [generate] leaves out of the trial-data table the
    column of every registered distribution whose target attribute on
    the field holds an explicit value; when no column is left (all
    targets explicit, or no distribution at all) it raises
    [McsUserError] before it samples: the state is the one before, so
    [lhs] was not called and no table was written. *)
Theorem explicit_overrides_distribution :
  forall n corr field st,
    registry_wf st ->
    (forall st',
        generate_field n corr field st = (Ok tt, st') ->
        exists df,
          trial_data_df (self st') = Some df
          /\ fs st' !! pathjoin (pathjoin (pathname (self st)) (f_name field)) TRIAL_DATA_CSV
             = Some (File (Csv df))
          /\ forall d, d ∈ distributions st ->
                       (target_explicit d field st).1 = Ok true ->
                       column_name d ∉ df_columns df)
    /\ (forall rvs,
          (select_columns field (distributions st) [] [] st).1 = Ok ([], rvs) ->
          generate_field n corr field st = (Raise (no_columns_error field), st))
    /\ (Forall (fun d => (target_explicit d field st).1 = Ok true) (distributions st) ->
        generate_field n corr field st = (Raise (no_columns_error field), st))
    /\ (forall st0 pre post,
          (chosen_fields st0).1 = Ok (pre ++ field :: post) ->
          n = trials (self st0) ->
          for_each pre (generate_field n corr) st0 = (Ok tt, st) ->
          Forall (fun d => (target_explicit d field st).1 = Ok true) (distributions st) ->
          generate corr st0 = (Raise (no_columns_error field), st)).
Proof.
  intros n corr field st Hwf.
  assert (Hnone : forall rvs,
             (select_columns field (distributions st) [] [] st).1 = Ok ([], rvs) ->
             generate_field n corr field st = (Raise (no_columns_error field), st)).
  { intros rvs Hsel. now rewrite generate_field_cases, Hsel. }
  assert (Hall : Forall (fun d => (target_explicit d field st).1 = Ok true)
                   (distributions st) ->
                 generate_field n corr field st = (Raise (no_columns_error field), st)).
  { intros H. apply (Hnone []). now apply select_columns_all_explicit. }
  split; [|split; [exact Hnone|split; [exact Hall|]]].
  - intros st'. rewrite generate_field_cases.
    destruct (select_columns field (distributions st) [] [] st).1
      as [[[|c cols] rvs]|e] eqn:Hsel; try discriminate.
    destruct (lhs_sample rvs n corr) as [data|e]; [|discriminate].
    intros [= <-]. exists (generated_table (c :: cols) data).
    split; [reflexivity|]. split.
    + simpl. apply lookup_insert_eq.
    + intros d Hd Hexp. simpl. eapply explicit_column_absent; eauto.
  - intros st0 pre post Hfields -> Hpre Hexp.
    unfold generate. unfold bind at 1, gets at 1. unfold bind at 1.
    rewrite (read_only_run chosen_fields) by apply chosen_fields_ro.
    rewrite Hfields.
    eapply for_each_raises; eauto.
Qed.

(** ** The cache of trial data *)

Lemma trial_data_cached fB t st df :
  trial_data_df (self st) = Some df ->
  trial_data (ByObj fB) t st
  = (match df_loc df t with
     | Some s => Ok s
     | None =>
         Raise (McsSystemError
                  ("Trial " +:+ show_Z t +:+ " was not found in '"
                     +:+ path_str (pathjoin (pathjoin (pathname (self st)) (f_name fB))
                                     TRIAL_DATA_CSV)
                     +:+ "'"))
     end, st).
Proof.
  intros H. unfold trial_data. unfold bind at 1.
  rewrite (field_trial_data_cached fB st df H).
  now destruct (df_loc df t).
Qed.

Lemma field_trial_data_by_name_cached name fB st df :
  trial_data_df (self st) = Some df ->
  ((a <- self_analysis ;; Analysis_get_field a name) st).1 = Ok fB ->
  field_trial_data (ByName name) st = (Ok df, st).
Proof.
  intros H Hres. unfold field_trial_data. unfold bind at 1.
  rewrite (read_only_run (a <- self_analysis ;; Analysis_get_field a name))
    by preserves_tac.
  rewrite Hres. unfold_py. now rewrite H.
Qed.

(** C9.  The cache of trial data is not keyed by field.  Once
    [trial_data_df] holds a table, [field_trial_data] returns that table
    for any field, and [trial_data] returns its row for the trial (or
    raises when the table has no such row), and neither touches the
    state: no file is read.  [generate] leaves the table of the field it
    has just sampled in the cache, where every other field finds it. *)
Theorem trial_data_cache_not_keyed_by_field :
  (forall st df,
      trial_data_df (self st) = Some df ->
      (forall fB, field_trial_data (ByObj fB) st = (Ok df, st))
      /\ (forall fB t s, df_loc df t = Some s -> trial_data (ByObj fB) t st = (Ok s, st))
      /\ (forall fB t, df_loc df t = None ->
            exists msg, trial_data (ByObj fB) t st = (Raise (McsSystemError msg), st))
      /\ (forall name fB,
            ((a <- self_analysis ;; Analysis_get_field a name) st).1 = Ok fB ->
            field_trial_data (ByName name) st = (Ok df, st)
            /\ forall t s, df_loc df t = Some s ->
                           trial_data (ByName name) t st = (Ok s, st)))
  /\ (forall n corr fA st st',
        generate_field n corr fA st = (Ok tt, st') ->
        exists df,
          trial_data_df (self st') = Some df
          /\ fs st' !! pathjoin (pathjoin (pathname (self st)) (f_name fA)) TRIAL_DATA_CSV
             = Some (File (Csv df))
          /\ forall fB, field_trial_data (ByObj fB) st' = (Ok df, st')).
Proof.
  split.
  - intros st df Hdf. split; [|split; [|split]].
    + intros fB. now apply field_trial_data_cached.
    + intros fB t s Hs. now rewrite (trial_data_cached fB t st df Hdf), Hs.
    + intros fB t Hnone. rewrite (trial_data_cached fB t st df Hdf), Hnone. eauto.
    + intros name fB Hres.
      pose proof (field_trial_data_by_name_cached name fB st df Hdf Hres) as Hft.
      split; [exact Hft|].
      intros t s Hs. unfold trial_data. unfold bind at 1. now rewrite Hft, Hs.
  - intros n corr fA st st'. rewrite generate_field_cases.
    destruct (select_columns fA (distributions st) [] [] st).1
      as [[[|c cols] rvs]|e]; try discriminate.
    destruct (lhs_sample rvs n corr) as [data|e]; [|discriminate].
    intros [= <-]. exists (generated_table (c :: cols) data).
    split; [reflexivity|]. split; [apply lookup_insert_eq|].
    intros fB. now apply field_trial_data_cached.
Qed.

(** ** Running one trial *)

Lemma bind_ok_inv {A B} (m : M A) (k : A -> M B) st b st2 :
  bind m k st = (Ok b, st2) ->
  exists a st1, m st = (Ok a, st1) /\ k a st1 = (Ok b, st2).
Proof.
  unfold bind. destruct (m st) as [[a|e] st1]; [eauto | discriminate].
Qed.

Lemma Analysis_get_field_ok a name st field st' :
  Analysis_get_field a name st = (Ok field, st') ->
  field = mkFieldRef (a_model a) name
  /\ st' = st
  /\ exists m, heap st !! a_model a = Some m /\ is_Some (field_dict m !! name).
Proof.
  unfold Analysis_get_field, get_model. unfold_py.
  destruct (heap st !! a_model a) as [m|]; simpl; [|discriminate].
  destruct (analysis_dict m !! a_name a) as [an|]; [|discriminate].
  destruct (bool_decide (name ∈ analysis_fields an)); simpl; [|discriminate].
  destruct (bool_decide (is_Some (field_dict m !! name))) eqn:Hf; simpl; [|discriminate].
  intros [= <- <-]. apply bool_decide_eq_true in Hf. eauto.
Qed.

(** After the evaluator has returned, the field holds its results. *)
Lemma Field_run_ok field a t st st' :
  Field_run field a t st = (Ok tt, st') ->
  exists fd, get_field_data field st' = (Ok fd, st').
Proof.
  unfold Field_run, get_field_data, get_model, put_model. unfold_py.
  destruct (heap st !! f_model field) as [m|] eqn:Hm; simpl; [|discriminate].
  destruct (heap st !! a_model a) as [ma|]; simpl; [|discriminate].
  destruct (field_dict m !! f_name field) as [fd|]; [|discriminate].
  simpl.
  destruct (field_run m (f_name field) fd (a_name a) (analysis_dict ma !! a_name a) t)
    as [fd' [e|]]; simpl; [discriminate|].
  intros [= <-]. simpl.
  rewrite list_lookup_insert_eq by (eapply lookup_lt_Some; eassumption).
  simpl. rewrite lookup_insert_eq. eauto.
Qed.

(** The body of the loop never raises: it records a failure or a
    result, and keeps the name of the field. *)
Lemma run_trial_ok ls t st :
  exists ls' st',
    run_trial ls t st = (Ok ls', st')
    /\ f_name (ls_field ls') = f_name (ls_field ls)
    /\ trial_accounted ls t ls'.
Proof.
  unfold run_trial. unfold bind at 1, try_except at 1.
  match goal with |- context [let (_, _) := ?p st in _] => destruct (p st) as [[r|e] st1] eqn:H1 end.
  - apply bind_ok_inv in H1 as ([] & sa & _ & H1).
    apply bind_ok_inv in H1 as (a & sb & _ & H1).
    apply bind_ok_inv in H1 as (field & sc & Hfield & H1).
    injection H1 as <- <-.
    apply Analysis_get_field_ok in Hfield as (-> & _ & _).
    unfold bind at 1, try_except at 1.
    match goal with
    | |- context [let (_, _) := ?p sc in _] => destruct (p sc) as [[o|e] st2] eqn:H2
    end.
    + apply bind_ok_inv in H2 as ([] & sd & _ & H2).
      apply bind_ok_inv in H2 as (a' & se & _ & H2).
      apply bind_ok_inv in H2 as ([] & sf & Hrun & H2).
      injection H2 as <- <-.
      apply Field_run_ok in Hrun as (fd & Hfd).
      unfold bind. rewrite Hfd. simpl.
      eexists _, _. split; [reflexivity|]. split; [reflexivity|].
      right. exists (result_tuple t fd). simpl. auto.
    + unfold ret at 1. simpl.
      eexists _, _. split; [reflexivity|]. split; [reflexivity|].
      left. exists e. simpl. auto.
  - unfold ret at 1. simpl.
    eexists _, _. split; [reflexivity|]. split; [reflexivity|].
    left. exists e. simpl. auto.
Qed.

(** ** The loop over the trial numbers *)

Lemma run_trials_accounts trial_nums :
  forall ls st,
  exists ls' st' rows fails,
    run_trials trial_nums ls st = (Ok ls', st')
    /\ f_name (ls_field ls') = f_name (ls_field ls)
    /\ ls_results ls' = ls_results ls ++ rows
    /\ ls_failures ls' = ls_failures ls ++ fails
    /\ ls_completed ls' = (ls_completed ls + length rows)%nat
    /\ Permutation trial_nums (map r_trial_num rows ++ map fst fails).
Proof.
  induction trial_nums as [|t trial_nums IH]; intros ls st; simpl.
  - exists ls, st, [], []. rewrite !app_nil_r. repeat split; auto.
  - destruct (run_trial_ok ls t st) as (ls1 & st1 & Hrun & Hname1 & Hacc).
    destruct (IH ls1 st1) as (ls' & st' & rows & fails & Hrest & Hname & Hres & Hfail & Hcnt & Hperm).
    unfold bind. rewrite Hrun, Hrest.
    destruct Hacc as [(e & Hc1 & Hr1 & Hf1)|(row & Ht & Hc1 & Hr1 & Hf1)].
    + exists ls', st', rows, ((t, e) :: fails).
      split; [reflexivity|]. split; [congruence|].
      split; [congruence|].
      split; [rewrite Hfail, Hf1, <- app_assoc; reflexivity|].
      split; [congruence|].
      simpl. rewrite <- Permutation_middle. now constructor.
    + exists ls', st', (row :: rows), fails.
      split; [reflexivity|]. split; [congruence|].
      split; [rewrite Hres, Hr1, <- app_assoc; reflexivity|].
      split; [congruence|].
      split; [rewrite Hcnt, Hc1; simpl; lia|].
      simpl. rewrite Ht. now constructor.
Qed.

(** ** Saving the results *)

Lemma results_failures_paths_differ (d : path) :
  pathjoin d FAILURES_CSV <> pathjoin d RESULTS_CSV.
Proof. unfold pathjoin. intros H. apply app_inv_head in H. discriminate. Qed.

Lemma save_trial_results_ok field df failures st :
  exists st',
    save_trial_results field df failures st = (Ok tt, st')
    /\ fs st' !! pathjoin (pathjoin (pathname (self st)) (f_name field)) RESULTS_CSV
       = Some (File (Text (to_csv_no_index df)))
    /\ fs st' !! pathjoin (pathjoin (pathname (self st)) (f_name field)) FAILURES_CSV
       = Some (File (Text (failures_text failures))).
Proof.
  unfold save_trial_results, results_path, failures_path, field_dir, mkdirs, write_file.
  unfold_py. eexists. split; [reflexivity|]. simpl. split.
  - rewrite lookup_insert_ne by apply results_failures_paths_differ.
    apply lookup_insert_eq.
  - apply lookup_insert_eq.
Qed.

(** ** What the trials leave alone *)

#[local] Instance stable_preorder : PreOrder stable.
Proof.
  split.
  - intros st. unfold stable. auto 10.
  - intros s1 s2 s3 H12 H23. unfold stable in *.
    destruct H12 as (? & ? & ? & ? & ? & ? & ? & ?).
    destruct H23 as (? & ? & ? & ? & ? & ? & ? & ?).
    repeat split; congruence.
Qed.

Ltac stable_tac :=
  preserves_tac; try solve [unfold stable; simpl; auto 10].

Lemma get_model_stable id : preserves stable (get_model id).
Proof. unfold get_model. stable_tac. Qed.
#[local] Hint Resolve get_model_stable : pres.

Lemma put_model_stable id m : preserves stable (put_model id m).
Proof. unfold put_model. stable_tac. Qed.
#[local] Hint Resolve put_model_stable : pres.

Lemma new_model_stable m : preserves stable (new_model m).
Proof. unfold new_model. stable_tac. Qed.
#[local] Hint Resolve new_model_stable : pres.

Lemma open_read_stable p : preserves stable (open_read p).
Proof. unfold open_read. stable_tac. Qed.
#[local] Hint Resolve open_read_stable : pres.

Lemma read_text_stable p : preserves stable (read_text p).
Proof. unfold read_text. stable_tac. Qed.
#[local] Hint Resolve read_text_stable : pres.

Lemma ModelFile_stable pathnames xml use_default names fnames :
  preserves stable (ModelFile pathnames xml use_default names fnames None).
Proof. unfold ModelFile, ModelFile_source. stable_tac. Qed.
#[local] Hint Resolve ModelFile_stable : pres.

Lemma load_model_stable : preserves stable (load_model None).
Proof. unfold load_model. stable_tac. Qed.
#[local] Hint Resolve load_model_stable : pres.

Lemma self_analysis_stable : preserves stable self_analysis.
Proof. unfold self_analysis. stable_tac. Qed.
#[local] Hint Resolve self_analysis_stable : pres.

Lemma Analysis_get_field_stable a name : preserves stable (Analysis_get_field a name).
Proof. unfold Analysis_get_field. stable_tac. Qed.
#[local] Hint Resolve Analysis_get_field_stable : pres.

Lemma read_csv_stable p c : preserves stable (read_csv p c).
Proof. unfold read_csv. stable_tac. Qed.
#[local] Hint Resolve read_csv_stable : pres.

Lemma field_trial_data_stable field : preserves stable (field_trial_data field).
Proof. unfold field_trial_data, trial_data_path, field_dir. stable_tac. Qed.
#[local] Hint Resolve field_trial_data_stable : pres.

Lemma trial_data_stable field t : preserves stable (trial_data field t).
Proof. unfold trial_data, trial_data_path, field_dir. stable_tac. Qed.
#[local] Hint Resolve trial_data_stable : pres.

Lemma lookup_obj_stable c field : preserves stable (lookup_obj c field).
Proof. unfold lookup_obj. stable_tac. Qed.
#[local] Hint Resolve lookup_obj_stable : pres.

Lemma lookup_stable n field : preserves stable (lookup n field).
Proof. unfold lookup. stable_tac. Qed.
#[local] Hint Resolve lookup_stable : pres.

Lemma set_explicit_value_stable r v : preserves stable (set_explicit_value r v).
Proof. unfold set_explicit_value. stable_tac. Qed.
#[local] Hint Resolve set_explicit_value_stable : pres.

Lemma set_trial_data_stable field t : preserves stable (set_trial_data field t).
Proof. unfold set_trial_data. stable_tac. Qed.
#[local] Hint Resolve set_trial_data_stable : pres.

Lemma Field_run_stable field a t : preserves stable (Field_run field a t).
Proof. unfold Field_run. stable_tac. Qed.
#[local] Hint Resolve Field_run_stable : pres.

Lemma get_field_data_stable field : preserves stable (get_field_data field).
Proof. unfold get_field_data. stable_tac. Qed.
#[local] Hint Resolve get_field_data_stable : pres.

Lemma run_trial_stable ls t : preserves stable (run_trial ls t).
Proof. unfold run_trial. stable_tac. Qed.
#[local] Hint Resolve run_trial_stable : pres.

Lemma run_trials_stable trial_nums ls : preserves stable (run_trials trial_nums ls).
Proof.
  revert ls. induction trial_nums as [|t trial_nums IH]; intros ls; simpl; stable_tac.
Qed.

(** ** run_field *)

(** [run_field] returns the count of the loop and writes the two lists
    of the loop, rendered, to the files of the field. *)
Lemma run_field_spec field trial_nums st :
  exists ls st1 st',
    run_trials (requested_trials trial_nums st) (mkLoopState field 0 [] []) st = (Ok ls, st1)
    /\ run_field field trial_nums st = (Ok (ls_completed ls), st')
    /\ ls_completed ls = length (ls_results ls)
    /\ Permutation (requested_trials trial_nums st)
         (map r_trial_num (ls_results ls) ++ map fst (ls_failures ls))
    /\ fs st' !! results_file st field
       = Some (File (Text (to_csv_no_index (mkResultsFrame result_columns (ls_results ls)))))
    /\ fs st' !! failures_file st field
       = Some (File (Text (failures_text (ls_failures ls)))).
Proof.
  destruct (run_trials_accounts (requested_trials trial_nums st) (mkLoopState field 0 [] []) st)
    as (ls & st1 & rows & fails & Hloop & Hname & Hres & Hfail & Hcnt & Hperm).
  simpl in Hname, Hres, Hfail, Hcnt.
  pose proof (run_trials_stable (requested_trials trial_nums st) (mkLoopState field 0 [] []) st)
    as Hst.
  rewrite Hloop in Hst. simpl in Hst. destruct Hst as (_ & _ & Hpath & _).
  destruct (save_trial_results_ok (ls_field ls)
              (mkResultsFrame result_columns (ls_results ls)) (ls_failures ls) st1)
    as (st' & Hsave & Hrfile & Hffile).
  exists ls, st1, st'. split; [exact Hloop|]. split.
  - unfold run_field. unfold bind at 1.
    assert (Hrange : trial_range trial_nums st = (Ok (requested_trials trial_nums st), st))
      by (destruct trial_nums; reflexivity).
    rewrite Hrange. unfold bind at 1. rewrite Hloop.
    unfold bind. now rewrite Hsave.
  - split; [rewrite Hcnt, Hres; reflexivity|].
    split; [rewrite Hres, Hfail; exact Hperm|].
    unfold results_file, failures_file. rewrite <- Hpath, <- Hname. auto.
Qed.



(** ** Trial isolation *)

(** With a cached template, [load_model] reads no file: it parses the
    template, and on success makes a new model object the model of the
    instance. *)
Lemma load_model_cached xml st :
  model_xml_string (self st) = Some xml ->
  load_model None st
  = match parse_xml xml [analysis_name (self st)] (field_names (self st)) with
    | Raise e => (Raise e, st)
    | Ok m =>
        let id := length (heap st) in
        match Model_get_analysis id m (analysis_name (self st)) with
        | Some a => (Ok tt, loaded_state id xml m (Some a) st)
        | None =>
            (Raise (CommandlineError
                      ("Analysis '" +:+ show_opt (analysis_name (self st))
                         +:+ "' was not found in model")),
             loaded_state id xml m None st)
        end
    end.
Proof.
  intros Hxml. unfold load_model, ModelFile, ModelFile_source, new_model, get_model.
  unfold_py. rewrite Hxml. simpl.
  destruct (parse_xml xml [analysis_name (self st)] (field_names (self st))) as [m|e];
    simpl; [|reflexivity].
  rewrite lookup_app_r by reflexivity. rewrite Nat.sub_diag. simpl.
  destruct (Model_get_analysis (length (heap st)) m (analysis_name (self st)));
    reflexivity.
Qed.

Lemma Model_get_analysis_model id m name a :
  Model_get_analysis id m name = Some a -> a_model a = id.
Proof.
  unfold Model_get_analysis. destruct name as [n|]; [|discriminate].
  destruct (analysis_dict m !! n); [|discriminate]. now intros [= <-].
Qed.

#[local] Instance in_fresh_model_preorder field t : PreOrder (in_fresh_model field t).
Proof.
  split.
  - intros st _. repeat split; auto. exists []. now rewrite app_nil_r.
  - intros s1 s2 s3 H12 H23 Ha.
    destruct (H12 Ha) as (Ha12 & Hx12 & Hl12 & Hh12 & evs1 & Ht12 & He1).
    assert (Ha2 : exists an, analysis (self s2) = Some (mkAnalysisRef (f_model field) an))
      by (rewrite Ha12; exact Ha).
    destruct (H23 Ha2) as (Ha23 & Hx23 & Hl23 & Hh23 & evs2 & Ht23 & He2).
    split; [congruence|]. split; [congruence|]. split; [congruence|].
    split; [intros i Hi; rewrite Hh23, Hh12 by assumption; reflexivity|].
    exists (evs1 ++ evs2). split.
    + now rewrite Ht23, Ht12, app_assoc.
    + apply Forall_app. auto.
Qed.

(** A step that changes neither the heap, nor the analysis, nor the
    template, and adds no event. *)
Lemma in_fresh_model_quiet field t st st' :
  heap st' = heap st -> trace st' = trace st ->
  analysis (self st') = analysis (self st) ->
  model_xml_string (self st') = model_xml_string (self st) ->
  in_fresh_model field t st st'.
Proof.
  intros Hh Ht Ha Hx _. rewrite Hh, Ht.
  repeat split; auto. exists []. now rewrite app_nil_r.
Qed.

Lemma in_fresh_model_event field t st e :
  event_on field t e ->
  in_fresh_model field t st (with_trace (trace st ++ [e]) st).
Proof.
  intros He _. simpl. repeat split; auto.
  exists [e]. split; [reflexivity|]. now repeat constructor.
Qed.

Ltac fresh_tac :=
  preserves_tac;
  try solve [apply in_fresh_model_quiet; reflexivity
            | apply in_fresh_model_event; simpl; auto].

Lemma get_model_fresh field t id : preserves (in_fresh_model field t) (get_model id).
Proof. unfold get_model. fresh_tac. Qed.
#[local] Hint Resolve get_model_fresh : pres.

Lemma self_analysis_fresh field t : preserves (in_fresh_model field t) self_analysis.
Proof. unfold self_analysis. fresh_tac. Qed.
#[local] Hint Resolve self_analysis_fresh : pres.

Lemma open_read_fresh field t p : preserves (in_fresh_model field t) (open_read p).
Proof. unfold open_read. fresh_tac. Qed.
#[local] Hint Resolve open_read_fresh : pres.

Lemma read_csv_fresh field t p c : preserves (in_fresh_model field t) (read_csv p c).
Proof. unfold read_csv. fresh_tac. Qed.
#[local] Hint Resolve read_csv_fresh : pres.

Lemma field_trial_data_fresh field t f :
  preserves (in_fresh_model field t) (field_trial_data (ByObj f)).
Proof. unfold field_trial_data, trial_data_path, field_dir. fresh_tac. Qed.
#[local] Hint Resolve field_trial_data_fresh : pres.

Lemma trial_data_fresh field t f t' :
  preserves (in_fresh_model field t) (trial_data (ByObj f) t').
Proof. unfold trial_data, trial_data_path, field_dir. fresh_tac. Qed.
#[local] Hint Resolve trial_data_fresh : pres.

Lemma lookup_obj_model c field st obj :
  (lookup_obj c field st).1 = Ok obj ->
  obj.1 = f_model field
  \/ exists a, analysis (self st) = Some a /\ obj.1 = a_model a.
Proof.
  unfold lookup_obj.
  destruct c as [c|]; [|intros [= <-]; now left].
  destruct (String.eqb c "Field"); [intros [= <-]; now left|].
  destruct (String.eqb c "Analysis").
  - unfold self_analysis. unfold_py.
    destruct (analysis (self st)) as [a|]; simpl; [|discriminate].
    intros [= <-]. right. eauto.
  - unfold get_model. autounfold with py. cbv beta iota.
    destruct (heap st !! f_model field) as [m|]; cbv beta iota; [|discriminate].
    destruct (owner_attr_dict m (OwProcess (f_name field) c)); [|discriminate].
    intros [= <-]. now left.
Qed.

(** The attribute [lookup] finds is in the model of the field or in the
    model of the analysis of the instance. *)
Lemma lookup_model n field st r :
  (lookup n field st).1 = Ok r ->
  at_model r = f_model field
  \/ exists a, analysis (self st) = Some a /\ at_model r = a_model a.
Proof.
  unfold lookup. unfold bind at 1, lift.
  destruct (split_attr_name n) as [ca|e]; simpl; [|discriminate].
  unfold bind at 1.
  rewrite (read_only_run (lookup_obj ca.1 field)) by apply lookup_obj_ro.
  destruct (lookup_obj ca.1 field st).1 as [obj|e] eqn:Hobj; simpl; [|discriminate].
  apply lookup_obj_model in Hobj.
  unfold get_model. autounfold with py. cbv beta iota.
  destruct (heap st !! obj.1) as [m|]; cbv beta iota; [|discriminate].
  destruct (owner_attr_dict m obj.2) as [d|]; [|discriminate].
  destruct (d !! ca.2); [|discriminate].
  intros [= <-]. exact Hobj.
Qed.

Lemma set_explicit_value_fresh field t r v :
  at_model r = f_model field ->
  preserves (in_fresh_model field t) (set_explicit_value r v).
Proof.
  intros Hr st Ha. unfold set_explicit_value, get_model, put_model. unfold_py.
  destruct (heap st !! at_model r) as [m|]; simpl.
  - repeat split; auto.
    + apply length_insert.
    + intros i Hi. apply list_lookup_insert_ne. congruence.
    + exists [EvSetValue r v]. split; [reflexivity|]. now repeat constructor.
  - repeat split; auto. exists []. now rewrite app_nil_r.
Qed.

(** Setting one attribute of the row. *)
Lemma set_attribute_fresh field t (nv : string * Q) :
  preserves (in_fresh_model field t)
    (attr <- lookup nv.1 field ;; set_explicit_value attr nv.2).
Proof.
  intros st Ha. unfold bind.
  rewrite (read_only_run (lookup nv.1 field)) by apply lookup_ro.
  destruct (lookup nv.1 field st).1 as [r|e] eqn:Hr; simpl.
  - apply lookup_model in Hr.
    assert (Hmodel : at_model r = f_model field).
    { destruct Hr as [Hr|(a & Hsa & Hr)]; [exact Hr|].
      destruct Ha as (an & Han). rewrite Han in Hsa. injection Hsa as <-. exact Hr. }
    now apply set_explicit_value_fresh.
  - now apply (@PreOrder_Reflexive _ _ (in_fresh_model_preorder field t)).
Qed.

Lemma set_trial_data_fresh field t :
  preserves (in_fresh_model field t) (set_trial_data field t).
Proof.
  unfold set_trial_data.
  apply preserves_bind; [typeclasses eauto | apply trial_data_fresh |].
  intros data. apply preserves_for_each; [typeclasses eauto|].
  intros nv. apply set_attribute_fresh.
Qed.

Lemma Field_run_fresh field a t :
  preserves (in_fresh_model field t) (Field_run field a t).
Proof.
  intros st Ha. unfold Field_run, get_model, put_model. unfold_py.
  assert (Hev : Forall (event_on field t) [EvRun field t]) by now repeat constructor.
  destruct (heap st !! f_model field) as [m|]; simpl; [|repeat split; eauto].
  destruct (heap st !! a_model a) as [ma|]; simpl; [|repeat split; eauto].
  destruct (field_dict m !! f_name field) as [fd|]; simpl; [|repeat split; eauto].
  destruct (field_run m (f_name field) fd (a_name a) (analysis_dict ma !! a_name a) t)
    as [fd' [e|]]; simpl.
  - repeat split; eauto using length_insert.
    intros i Hi. now apply list_lookup_insert_ne.
  - repeat split; eauto using length_insert.
    intros i Hi. now apply list_lookup_insert_ne.
Qed.

(** The part of a trial that follows the loading of the model. *)
Lemma trial_body_fresh field t :
  preserves (in_fresh_model field t)
    (set_trial_data field t ;;
     a <- self_analysis ;;
     Field_run field a t ;;
     ret (@None exn)).
Proof.
  apply preserves_bind; [typeclasses eauto | apply set_trial_data_fresh |]. intros _.
  apply preserves_bind; [typeclasses eauto | apply self_analysis_fresh |]. intros a.
  apply preserves_bind; [typeclasses eauto | apply Field_run_fresh |]. intros _.
  apply preserves_ret. typeclasses eauto.
Qed.

(** The first part of a trial, with a cached template: the model is
    built, then the analysis and the field are found in it. *)
Lemma trial_load_cases ls xml st :
  model_xml_string (self st) = Some xml ->
  (load_model None ;;
   a <- self_analysis ;;
   field <- Analysis_get_field a (f_name (ls_field ls)) ;;
   ret (inl field : FieldRef + exn)) st
  = match parse_xml xml [analysis_name (self st)] (field_names (self st)) with
    | Raise e => (Raise e, st)
    | Ok m =>
        let id := length (heap st) in
        match Model_get_analysis id m (analysis_name (self st)) with
        | None =>
            (Raise (CommandlineError
                      ("Analysis '" +:+ show_opt (analysis_name (self st))
                         +:+ "' was not found in model")),
             loaded_state id xml m None st)
        | Some a =>
            let st1 := loaded_state id xml m (Some a) st in
            match (Analysis_get_field a (f_name (ls_field ls)) st1).1 with
            | Ok _ => (Ok (inl (mkFieldRef id (f_name (ls_field ls)))), st1)
            | Raise e => (Raise e, st1)
            end
        end
    end.
Proof.
  intros Hxml. unfold bind at 1. rewrite (load_model_cached xml st Hxml).
  destruct (parse_xml xml [analysis_name (self st)] (field_names (self st))) as [m|e];
    [|reflexivity].
  cbv zeta.
  destruct (Model_get_analysis (length (heap st)) m (analysis_name (self st)))
    as [a|] eqn:Ha; [|reflexivity].
  unfold bind at 1. unfold self_analysis at 1. unfold bind at 1, gets at 1. simpl.
  unfold ret at 1. unfold bind at 1.
  rewrite (read_only_run (Analysis_get_field a (f_name (ls_field ls))))
    by apply Analysis_get_field_ro.
  destruct (Analysis_get_field a (f_name (ls_field ls)) _) as [[field|e] s] eqn:Hf;
    simpl; [|reflexivity].
  apply Analysis_get_field_ok in Hf as (-> & _ & _).
  now rewrite (Model_get_analysis_model _ _ _ _ Ha).
Qed.

(** One trial, with the template cached in [model_xml_string]: nothing
    is done before [load_model] has built a new model object from the
    template; the field is found again in that object; every attribute
    set and the evaluation of the trial are on that object, which did
    not exist before the trial, and the model objects that existed are
    as they were.  When the template does not parse the trial ends
    there, and when the analysis or the field is not found in the new
    object nothing is set or evaluated. *)
Lemma run_trial_isolated :
  forall ls t st xml,
    model_xml_string (self st) = Some xml ->
    let id := length (heap st) in
    let field := mkFieldRef id (f_name (ls_field ls)) in
    exists ls' st' evs,
      run_trial ls t st = (Ok ls', st')
      /\ trace st' = trace st ++ evs
      /\ model_xml_string (self st') = Some xml
      /\ (forall i, (i < id)%nat -> heap st' !! i = heap st !! i)
      /\ ((exists e,
              parse_xml xml [analysis_name (self st)] (field_names (self st)) = Raise e
              /\ evs = [] /\ heap st' = heap st /\ ls_field ls' = ls_field ls)
          \/ (exists m body,
                parse_xml xml [analysis_name (self st)] (field_names (self st)) = Ok m
                /\ evs = EvLoadModel id xml :: body
                /\ length (heap st') = S id
                /\ Forall (event_on field t) body
                /\ (ls_field ls' = field
                    \/ (ls_field ls' = ls_field ls /\ body = [])))).
Proof.
  intros ls t st xml Hxml id field.
  unfold run_trial. unfold bind at 1, try_except at 1.
  rewrite (trial_load_cases ls xml st Hxml).
  destruct (parse_xml xml [analysis_name (self st)] (field_names (self st))) as [m|e].
  - cbv zeta. fold id.
    destruct (Model_get_analysis id m (analysis_name (self st))) as [a|] eqn:Ha.
    + destruct (Analysis_get_field a (f_name (ls_field ls))
                  (loaded_state id xml m (Some a) st)).1 as [f|e] eqn:Hf.
      * fold field. unfold ret at 1. cbv beta iota.
        set (st1 := loaded_state id xml m (Some a) st).
        assert (Hpre : exists an, analysis (self st1)
                                  = Some (mkAnalysisRef (f_model field) an)).
        { exists (a_name a). simpl.
          rewrite <- (Model_get_analysis_model _ _ _ _ Ha). now destruct a. }
        pose proof (trial_body_fresh field t st1 Hpre)
          as (_ & Hx2 & Hlen2 & Hheap2 & evs2 & Htr2 & Hev2).
        unfold bind at 1, try_except at 1.
        match goal with
        | |- context [let (_, _) := ?p st1 in _] =>
            change p with (set_trial_data field t ;;
                           a0 <- self_analysis ;; Field_run field a0 t ;; ret (@None exn))
        end.
        destruct ((set_trial_data field t ;;
                   a0 <- self_analysis ;; Field_run field a0 t ;; ret (@None exn)) st1)
          as [[o|e] st2] eqn:H2; simpl in Hx2, Hlen2, Hheap2, Htr2.
        -- apply bind_ok_inv in H2 as ([] & sd & _ & H2).
           apply bind_ok_inv in H2 as (a' & se & _ & H2).
           apply bind_ok_inv in H2 as ([] & sf & Hrun & H2).
           injection H2 as <- <-.
           apply Field_run_ok in Hrun as (fd & Hfd).
           unfold bind. rewrite Hfd. simpl.
           eexists _, sf, (EvLoadModel id xml :: evs2).
           split; [reflexivity|].
           split; [rewrite Htr2, <- app_assoc; reflexivity|].
           split; [rewrite Hx2; exact Hxml|].
           split.
           { intros i Hi. rewrite Hheap2 by (simpl; lia).
             apply lookup_app_l. exact Hi. }
           right. exists m, evs2. split; [reflexivity|]. split; [reflexivity|].
           split; [rewrite Hlen2, length_app; simpl; lia|].
           split; [exact Hev2|]. left. reflexivity.
        -- unfold ret at 1. cbv beta iota.
           eexists _, st2, (EvLoadModel id xml :: evs2).
           split; [reflexivity|].
           split; [rewrite Htr2, <- app_assoc; reflexivity|].
           split; [rewrite Hx2; exact Hxml|].
           split.
           { intros i Hi. rewrite Hheap2 by (simpl; lia).
             apply lookup_app_l. exact Hi. }
           right. exists m, evs2. split; [reflexivity|]. split; [reflexivity|].
           split; [rewrite Hlen2, length_app; simpl; lia|].
           split; [exact Hev2|]. left. reflexivity.
      * unfold ret at 1. cbv beta iota.
        eexists _, _, [EvLoadModel id xml].
        split; [reflexivity|]. split; [reflexivity|].
        split; [exact Hxml|].
        split; [intros i Hi; simpl; now apply lookup_app_l|].
        right. exists m, []. split; [reflexivity|]. split; [reflexivity|].
        split; [simpl; rewrite length_app; simpl; lia|].
        split; [constructor|]. right. split; reflexivity.
    + unfold ret at 1. cbv beta iota.
      eexists _, _, [EvLoadModel id xml].
      split; [reflexivity|]. split; [reflexivity|].
      split; [exact Hxml|].
      split; [intros i Hi; simpl; now apply lookup_app_l|].
      right. exists m, []. split; [reflexivity|]. split; [reflexivity|].
      split; [simpl; rewrite length_app; simpl; lia|].
      split; [constructor|]. right. split; reflexivity.
  - unfold ret at 1. cbv beta iota.
    eexists _, st, [].
    split; [reflexivity|]. split; [now rewrite app_nil_r|].
    split; [exact Hxml|]. split; [reflexivity|].
    left. exists e. auto.
Qed.

Lemma run_trials_isolated trial_nums :
  forall ls st xml,
    model_xml_string (self st) = Some xml ->
    exists ls' st' evs,
      run_trials trial_nums ls st = (Ok ls', st')
      /\ trace st' = trace st ++ evs
      /\ isolated_trials xml (f_name (ls_field ls)) (length (heap st)) trial_nums evs
           (length (heap st'))
      /\ (forall i, (i < length (heap st))%nat -> heap st' !! i = heap st !! i).
Proof.
  induction trial_nums as [|t trial_nums IH]; intros ls st xml Hxml; simpl.
  - exists ls, st, []. rewrite app_nil_r. auto.
  - destruct (run_trial_isolated ls t st xml Hxml)
      as (ls1 & st1 & evs1 & Hrun & Htr1 & Hxml1 & Hold1 & Hcases).
    destruct (run_trial_ok ls t st) as (ls1' & st1' & Hrun' & Hname & _).
    rewrite Hrun in Hrun'. injection Hrun' as <- <-.
    destruct (IH ls1 st1 xml Hxml1) as (ls' & st' & evs & Hloop & Htr & Hiso & Hold).
    rewrite Hname in Hiso.
    unfold bind. rewrite Hrun, Hloop.
    destruct Hcases as [(e & _ & -> & Hheap & _)|(m & body & _ & -> & Hlen & Hbody & _)].
    + exists ls', st', evs. split; [reflexivity|].
      rewrite app_nil_r in Htr1. rewrite Hheap in Hiso, Hold.
      split; [now rewrite Htr, Htr1|]. split; [now left|]. exact Hold.
    + exists ls', st', (EvLoadModel (length (heap st)) xml :: body ++ evs).
      split; [reflexivity|].
      split; [rewrite Htr, Htr1, <- app_assoc; reflexivity|].
      rewrite Hlen in Hiso, Hold.
      split; [right; exists body, evs; auto|].
      intros i Hi. rewrite Hold by lia. now apply Hold1.
Qed.


(** ** Creating a simulation directory *)

#[local] Instance writes_logged_preorder : PreOrder writes_logged.
Proof.
  split.
  - intros st. exists []. rewrite app_nil_r. repeat split; auto.
  - intros s1 s2 s3 (evs1 & Ht1 & Hn1 & Hf1) (evs2 & Ht2 & Hn2 & Hf2).
    exists (evs1 ++ evs2). split; [now rewrite Ht2, Ht1, app_assoc|].
    split; [apply Forall_app; auto|].
    intros p. rewrite !elem_of_app.
    destruct (Hf2 p) as [->|[?|?]]; [|tauto|tauto].
    destruct (Hf1 p) as [->|[?|?]]; tauto.
Qed.

Lemma writes_logged_quiet st st' evs :
  fs st' = fs st -> trace st' = trace st ++ evs ->
  Forall (fun e => forall q, e <> EvRemoveTree q) evs ->
  writes_logged st st'.
Proof. intros Hfs Ht Hev. exists evs. rewrite Hfs. auto. Qed.

Ltac logged_modify :=
  first [ eapply (writes_logged_quiet _ _ []);
          [reflexivity | simpl; now rewrite app_nil_r | constructor]
        | eapply (writes_logged_quiet _ _ [_]);
          [reflexivity | reflexivity | repeat constructor; discriminate] ].

Ltac logged_tac := preserves_tac; try solve [logged_modify].

Lemma write_file_logged p c : preserves writes_logged (write_file p c).
Proof.
  intros st. unfold write_file. unfold_py.
  exists [EvWrite p]. split; [reflexivity|].
  split; [repeat constructor; discriminate|].
  intros q. destruct (decide (p = q)) as [->|Hne].
  - right. left. apply list_elem_of_singleton. reflexivity.
  - left. now apply lookup_insert_ne.
Qed.
#[local] Hint Resolve write_file_logged : pres.

Lemma mkdirs_logged p : preserves writes_logged (mkdirs p).
Proof.
  intros st. unfold mkdirs. unfold_py.
  exists [EvMkdirs p]. split; [reflexivity|].
  split; [repeat constructor; discriminate|].
  intros q. destruct (fs st !! p) eqn:Hp; [now left|].
  destruct (decide (p = q)) as [->|Hne].
  - right. right. apply list_elem_of_singleton. reflexivity.
  - left. now apply lookup_insert_ne.
Qed.
#[local] Hint Resolve mkdirs_logged : pres.

Lemma get_model_logged id : preserves writes_logged (get_model id).
Proof. unfold get_model. logged_tac. Qed.
#[local] Hint Resolve get_model_logged : pres.

Lemma new_model_logged m : preserves writes_logged (new_model m).
Proof. unfold new_model. logged_tac. Qed.
#[local] Hint Resolve new_model_logged : pres.

Lemma open_read_logged p : preserves writes_logged (open_read p).
Proof. unfold open_read. logged_tac. Qed.
#[local] Hint Resolve open_read_logged : pres.

Lemma read_text_logged p : preserves writes_logged (read_text p).
Proof. unfold read_text. logged_tac. Qed.
#[local] Hint Resolve read_text_logged : pres.

Lemma ModelFile_logged pathnames xml use_default names fnames save :
  preserves writes_logged (ModelFile pathnames xml use_default names fnames save).
Proof. unfold ModelFile, ModelFile_source. logged_tac. Qed.
#[local] Hint Resolve ModelFile_logged : pres.

Lemma load_model_logged save : preserves writes_logged (load_model save).
Proof. unfold load_model. logged_tac. Qed.
#[local] Hint Resolve load_model_logged : pres.

Lemma read_only_logged {A} (m : M A) : preserves eq m -> preserves writes_logged m.
Proof.
  intros H st. specialize (H st).
  destruct (m st) as [r st']. simpl in *. subst st'. reflexivity.
Qed.

Lemma save_trial_data_logged field : preserves writes_logged (save_trial_data field).
Proof. unfold save_trial_data, trial_data_path, field_dir. logged_tac. Qed.
#[local] Hint Resolve save_trial_data_logged : pres.

Lemma generate_field_logged n corr field :
  preserves writes_logged (generate_field n corr field).
Proof.
  unfold generate_field.
  apply preserves_bind; [typeclasses eauto | logged_tac |]. intros dists.
  apply preserves_bind;
    [typeclasses eauto | apply read_only_logged, select_columns_ro |]. intros sel.
  logged_tac.
Qed.
#[local] Hint Resolve generate_field_logged : pres.

Lemma generate_logged corr : preserves writes_logged (generate corr).
Proof.
  unfold generate.
  apply preserves_bind; [typeclasses eauto | logged_tac |]. intros n.
  apply preserves_bind;
    [typeclasses eauto | apply read_only_logged, chosen_fields_ro |]. intros fields.
  logged_tac.
Qed.
#[local] Hint Resolve generate_logged : pres.

#[local] Instance keeps_shallow_preorder : PreOrder keeps_shallow.
Proof.
  split.
  - intros st. split; auto.
  - intros s1 s2 s3 (Hp1 & Hf1) (Hp2 & Hf2). split; [congruence|].
    intros p node Hp Hlen. apply Hf2; [now apply Hf1|]. now rewrite Hp1.
Qed.

Lemma stable_keeps_shallow st st' : stable st st' -> keeps_shallow st st'.
Proof.
  intros (Hfs & _ & Hpath & _). split; [exact Hpath|].
  intros p node Hp _. now rewrite Hfs.
Qed.

Lemma pathjoin_length (d : path) x : length (pathjoin d x) = S (length d).
Proof. unfold pathjoin. rewrite length_app. simpl. lia. Qed.

Lemma generate_field_keeps_shallow n corr field :
  preserves keeps_shallow (generate_field n corr field).
Proof.
  intros st. rewrite generate_field_cases.
  destruct (select_columns field (distributions st) [] [] st).1 as [[[|c cols] rvs]|e];
    simpl; try reflexivity.
  destruct (lhs_sample rvs n corr) as [data|e]; simpl.
  - split; [reflexivity|]. intros p node Hp Hlen.
    unfold generated_state. cbn [fs].
    rewrite lookup_insert_ne.
    + destruct (fs st !! pathjoin (pathname (self st)) (f_name field)) eqn:Hd;
        [exact Hp|].
      rewrite lookup_insert_ne; [exact Hp|]. intros Heq. subst p.
      enough (Hno : Some node = None) by discriminate Hno.
      etransitivity; [symmetry; exact Hp | exact Hd].
    + intros Heq. subst p. rewrite !pathjoin_length in Hlen. lia.
  - split; [reflexivity|]. auto.
Qed.

Lemma generate_keeps_shallow corr : preserves keeps_shallow (generate corr).
Proof.
  unfold generate.
  apply preserves_bind; [typeclasses eauto | apply preserves_gets; typeclasses eauto |].
  intros n.
  apply preserves_bind; [typeclasses eauto | |].
  - intros st. rewrite <- (chosen_fields_ro st). reflexivity.
  - intros fields. apply preserves_for_each; [typeclasses eauto|].
    intros field. apply generate_field_keeps_shallow.
Qed.

(** The end of the constructor: the model is loaded and the trial data
    are generated. *)
Lemma init_tail_keeps_shallow n :
  preserves keeps_shallow
    (load_model None ;; if (0 <? n)%nat then generate None else ret tt).
Proof.
  apply preserves_bind; [typeclasses eauto | |].
  - intros st. apply stable_keeps_shallow, load_model_stable.
  - intros _. destruct (0 <? n)%nat;
      [apply generate_keeps_shallow | apply preserves_ret; typeclasses eauto].
Qed.

Lemma init_tail_logged n :
  preserves writes_logged
    (load_model None ;; if (0 <? n)%nat then generate None else ret tt).
Proof. logged_tac. Qed.

Lemma map_M_read_text_stable pathnames : preserves stable (map_M read_text pathnames).
Proof. stable_tac. Qed.

Lemma map_M_read_text_logged pathnames :
  preserves writes_logged (map_M read_text pathnames).
Proof. logged_tac. Qed.

(** ** new *)

Lemma outside_self (p : path) : outside p p = false.
Proof. unfold outside. apply bool_decide_eq_false. intros H. now apply H. Qed.

Lemma purged_lookup sim_dir st (p : path) :
  sim_dir `prefix_of` p ->
  fs (purged_state sim_dir st) !! p = if decide (sim_dir = p) then Some Dir else None.
Proof.
  intros Hpre. simpl. destruct (decide (sim_dir = p)) as [->|Hne].
  - apply lookup_insert_eq.
  - rewrite lookup_insert_ne by assumption.
    apply map_lookup_filter_None. right. intros node _. simpl.
    unfold outside. rewrite bool_decide_eq_true. tauto.
Qed.

(** With an existing path and [overwrite], [new] purges the directory,
    makes it again and goes on from there. *)
Lemma new_purges sim_dir model_files aname n fnames use_default st :
  lexists sim_dir st = true ->
  new sim_dir model_files aname n fnames true use_default st
  = (id <- ModelFile model_files None use_default [] None (Some (model_file_path sim_dir)) ;;
     m <- get_model id ;;
     match Model_get_analysis id m (Some aname) with
     | None => raise (McsUserError ("Analysis '" +:+ aname +:+ "' was not found in model"))
     | Some a =>
         let field_names :=
           if truthy_list fnames then fnames
           else Some (match analysis_dict m !! a_name a with
                      | Some an => Analysis_field_names m an true
                      | None => []
                      end) in
         Simulation_init sim_dir (Some aname) n field_names None false
     end) (purged_state sim_dir st).
Proof.
  intros Hex. unfold new. unfold bind at 1, gets at 1. rewrite Hex.
  unfold bind at 1. simpl negb. cbv iota.
  unfold removeTree, mkdirs. unfold bind at 1 2 3 4, emit, modify. simpl.
  assert (Hnone : filter (fun kv : path * node => outside sim_dir kv.1 = true) (fs st)
                    !! sim_dir = None).
  { apply map_lookup_filter_None. right. intros node _. simpl.
    now rewrite outside_self. }
  rewrite Hnone. unfold purged_state.
  now rewrite <- app_assoc.
Qed.

Lemma ModelFile_saves pathnames use_default names fnames p texts xml m s s_r :
  map_M read_text pathnames s = (Ok texts, s_r) ->
  merge_xml texts use_default = Ok xml ->
  parse_xml xml names fnames = Ok m ->
  ModelFile pathnames None use_default names fnames (Some p) s
  = (Ok (length (heap s_r)), template_saved_state p xml m s_r).
Proof.
  intros Hread Hmerge Hparse. unfold ModelFile, ModelFile_source.
  unfold bind at 1. unfold bind at 1. rewrite Hread.
  unfold lift at 1. rewrite Hmerge.
  unfold write_file, new_model. unfold_py. rewrite Hparse. simpl.
  unfold template_saved_state. now rewrite <- app_assoc.
Qed.

Lemma Simulation_init_creates sim_dir aname n names xml s :
  isdir sim_dir s = true ->
  fs s !! model_file_path sim_dir = Some (File (Text xml)) ->
  aname <> EmptyString ->
  Simulation_init sim_dir (Some aname) n names None false s
  = (load_model None ;; if (0 <? n)%nat then generate None else ret tt)
      (created_state sim_dir xml (mkMetadata (Some aname) n names) s).
Proof.
  intros Hdir Hfile Hname. unfold Simulation_init.
  unfold bind at 1, gets at 1. rewrite Hdir. simpl negb. cbv iota.
  assert (Htruthy : truthy_str (Some aname) = true).
  { simpl. apply negb_true_iff, String.eqb_neq. exact Hname. }
  rewrite Htruthy. simpl negb. simpl andb. cbv iota.
  unfold bind at 1. unfold modify_self at 1, modify at 1.
  unfold bind at 1. unfold ret at 1.
  unfold bind at 1.
  unfold cache_model_file, read_text, open_read, _save_meta_data, metadata_path, write_file.
  unfold try_except, bind at 1 2 3 4 5 6 7 8 9, emit, gets, modify_self, modify, ret. simpl.
  rewrite Hfile. simpl.
  unfold bind at 1. simpl.
  unfold created_state. simpl. rewrite <- app_assoc. reflexivity.
Qed.

Lemma isdir_lookup p st : fs st !! p = Some Dir -> isdir p st = true.
Proof. unfold isdir. now intros ->. Qed.

Lemma new_refuses sim_dir model_files aname n fnames use_default st :
  lexists sim_dir st = true ->
  new sim_dir model_files aname n fnames false use_default st
  = (Raise (McsUserError
              ("Directory '" +:+ path_str sim_dir +:+ "' already exists. Use "
                 +:+ "Simulation.new(sim_dir, overwrite=True) to replace it.")),
     st).
Proof.
  intros Hex. unfold new. unfold bind at 1, gets at 1. now rewrite Hex.
Qed.

(** C6.  On a path that exists, [new] without [overwrite] raises
    [McsUserError] and leaves the state as it was.  With [overwrite],
    when the model files are read and merged, the merged model holds the
    analysis and the analysis has a name, [new] purges the directory and
    makes it again, and whether or not it raises afterwards, the
    directory then holds the merged model template and the metadata, and
    nothing in it is older than the call: every node below it was
    written or created after the purge. *)
Theorem new_replaces_directory :
  forall sim_dir model_files aname n fnames use_default st,
    lexists sim_dir st = true ->
    new sim_dir model_files aname n fnames false use_default st
    = (Raise (McsUserError
                ("Directory '" +:+ path_str sim_dir +:+ "' already exists. Use "
                   +:+ "Simulation.new(sim_dir, overwrite=True) to replace it.")),
       st)
    /\ forall texts xml m an,
        (map_M read_text model_files (purged_state sim_dir st)).1 = Ok texts ->
        merge_xml texts use_default = Ok xml ->
        parse_xml xml [] None = Ok m ->
        analysis_dict m !! aname = Some an ->
        aname <> EmptyString ->
        let st' := (new sim_dir model_files aname n fnames true use_default st).2 in
        let names := if truthy_list fnames then fnames
                     else Some (Analysis_field_names m an true) in
        isdir sim_dir st' = true
        /\ fs st' !! model_file_path sim_dir = Some (File (Text xml))
        /\ fs st' !! pathjoin sim_dir META_DATA_FILE
           = Some (File (Json (mkMetadata (Some aname) n names)))
        /\ exists evs,
            trace st' = trace st ++ EvRemoveTree sim_dir :: EvMkdirs sim_dir :: evs
            /\ forall (p : path) nd,
                sim_dir `prefix_of` p -> fs st' !! p = Some nd ->
                p = sim_dir \/ EvWrite p ∈ evs \/ EvMkdirs p ∈ evs.
Proof.
  intros sim_dir model_files aname n fnames use_default st Hex.
  split; [now apply new_refuses|].
  intros texts xml m an Hread Hmerge Hparse Han Hname st' names.
  set (s0 := purged_state sim_dir st) in *.
  destruct (map_M read_text model_files s0) as [r s_r] eqn:Hrun.
  simpl in Hread. subst r.
  pose proof (map_M_read_text_stable model_files s0) as Hst.
  pose proof (map_M_read_text_logged model_files s0) as Hlog.
  rewrite Hrun in Hst, Hlog. simpl in Hst, Hlog.
  destruct Hst as (Hfs_r & _).
  destruct Hlog as (evs_r & Htr_r & _ & _).
  set (tpl := model_file_path sim_dir).
  set (meta := pathjoin sim_dir META_DATA_FILE).
  set (s_m := template_saved_state tpl xml m s_r).
  set (md := mkMetadata (Some aname) n names).
  set (s_c := created_state sim_dir xml md s_m).
  set (tail := (load_model None ;; if (0 <? n)%nat then generate None else ret tt)).
  assert (Htpl_ne : tpl <> sim_dir).
  { intros H. apply (f_equal length) in H. unfold tpl, model_file_path in H.
    rewrite pathjoin_length in H. lia. }
  assert (Hmeta_ne : meta <> sim_dir).
  { intros H. apply (f_equal length) in H. unfold meta in H.
    rewrite pathjoin_length in H. lia. }
  assert (Hmeta_tpl : meta <> tpl).
  { unfold meta, tpl, model_file_path, pathjoin. intros H.
    apply app_inv_head in H. discriminate. }
  assert (Hst' : st' = (tail s_c).2).
  { assert (Hget : get_model (length (heap s_r)) s_m = (Ok m, s_m)).
    { unfold get_model. unfold_py.
      rewrite lookup_app_r by reflexivity. now rewrite Nat.sub_diag. }
    assert (Hinit : Simulation_init sim_dir (Some aname) n names None false s_m
                    = tail s_c).
    { apply Simulation_init_creates; [| |exact Hname].
      - unfold isdir, s_m. simpl. rewrite lookup_insert_ne by exact Htpl_ne.
        rewrite Hfs_r. unfold s0. simpl. now rewrite lookup_insert_eq.
      - unfold s_m. simpl. apply lookup_insert_eq. }
    pose proof (ModelFile_saves model_files use_default [] None tpl texts xml m s0 s_r
                  Hrun Hmerge Hparse) as Hmf.
    subst st' tail s_c md s_m tpl meta s0.
    rewrite (new_purges _ _ _ _ _ _ _ Hex).
    unfold bind at 1. rewrite Hmf.
    unfold bind at 1. rewrite Hget.
    unfold Model_get_analysis. rewrite Han. cbv beta iota zeta. cbn [a_name].
    rewrite Han. fold names. rewrite Hinit. reflexivity. }
  pose proof (init_tail_keeps_shallow n s_c) as (_ & Hkeep).
  pose proof (init_tail_logged n s_c) as (evs_t & Htr_t & _ & Hlog_t).
  fold tail in Hkeep, Hlog_t, Htr_t. rewrite <- Hst' in Hkeep, Hlog_t, Htr_t.
  assert (Hdir_c : fs s_c !! sim_dir = Some Dir).
  { unfold s_c, s_m. simpl. rewrite lookup_insert_ne by exact Hmeta_ne.
    rewrite lookup_insert_ne by exact Htpl_ne.
    rewrite Hfs_r. unfold s0. simpl. apply lookup_insert_eq. }
  assert (Htpl_c : fs s_c !! tpl = Some (File (Text xml))).
  { unfold s_c, s_m. simpl. rewrite lookup_insert_ne by exact Hmeta_tpl.
    apply lookup_insert_eq. }
  assert (Hmeta_c : fs s_c !! meta = Some (File (Json md))).
  { unfold s_c. simpl. apply lookup_insert_eq. }
  split; [apply isdir_lookup, Hkeep; [exact Hdir_c | simpl; lia]|].
  split; [apply Hkeep; [exact Htpl_c | unfold tpl, model_file_path;
                                       rewrite pathjoin_length; simpl; lia]|].
  split; [apply Hkeep; [exact Hmeta_c | unfold meta;
                                        rewrite pathjoin_length; simpl; lia]|].
  exists (evs_r ++ [EvWrite tpl; EvLoadModel (length (heap s_r)) xml]
            ++ [EvRead tpl; EvWrite meta] ++ evs_t).
  split.
  { rewrite Htr_t. unfold s_c, s_m. simpl. rewrite Htr_r. unfold s0. simpl.
    rewrite <- !app_assoc. reflexivity. }
  intros p nd Hpre Hp.
  destruct (decide (p = sim_dir)) as [->|Hne]; [now left|]. right.
  rewrite !elem_of_app, !elem_of_cons.
  destruct (Hlog_t p) as [Hsame|[Hw|Hmk]]; [|tauto|tauto].
  destruct (decide (p = meta)) as [->|Hnm]; [tauto|].
  destruct (decide (p = tpl)) as [->|Hnt]; [tauto|].
  exfalso.
  assert (Hp' : fs s_c !! p = Some nd)
    by (etransitivity; [symmetry; exact Hsame | exact Hp]).
  assert (Hold : fs s_c !! p = fs s0 !! p).
  { unfold s_c, s_m. simpl.
    rewrite lookup_insert_ne by (intros Heq; apply Hnm; symmetry; exact Heq).
    rewrite lookup_insert_ne by (intros Heq; apply Hnt; symmetry; exact Heq).
    now rewrite Hfs_r. }
  assert (Hnone : fs s0 !! p = None).
  { unfold s0. etransitivity; [exact (purged_lookup sim_dir st p Hpre)|].
    case_decide; [congruence | reflexivity]. }
  enough (Hno : Some nd = None) by discriminate Hno.
  etransitivity; [symmetry; exact Hp'|]. etransitivity; [exact Hold | exact Hnone].
Qed.

(** ** Trials as functions of their inputs *)

(** The body of the loop is [attempt_trial] followed by the
    book-keeping of the loop. *)
Lemma run_trial_phases ls t :
  run_trial ls t
  = (r <- trial_load (f_name (ls_field ls)) ;;
     match r with
     | inr e => ret (record_failure ls (ls_field ls) t e)
     | inl field =>
         r' <- trial_eval field t ;;
         match r' with
         | Some e => ret (record_failure ls field t e)
         | None =>
             fd <- get_field_data field ;;
             ret (mkLoopState field (S (ls_completed ls))
                    (ls_results ls ++ [result_tuple t fd]) (ls_failures ls))
         end
     end).
Proof. reflexivity. Qed.

Lemma run_trial_attempt ls t st :
  run_trial ls t st
  = match attempt_trial (f_name (ls_field ls)) t st with
    | (Ok r, st') => (Ok (account ls t r), st')
    | (Raise e, st') => (Raise e, st')
    end.
Proof.
  rewrite run_trial_phases. unfold attempt_trial, bind.
  destruct (trial_load (f_name (ls_field ls)) st) as [[[field|e]|e] s1]; try reflexivity.
  destruct (trial_eval field t s1) as [[[e|]|e] s2]; try reflexivity.
  destruct (get_field_data field s2) as [[fd|e] s3]; reflexivity.
Qed.

Lemma attempt_trial_ok fname t st :
  exists r, attempt_trial fname t st = (Ok r, (attempt_trial fname t st).2).
Proof.
  pose proof (run_trial_attempt (mkLoopState (mkFieldRef 0 fname) 0 [] []) t st) as H.
  destruct (run_trial_ok (mkLoopState (mkFieldRef 0 fname) 0 [] []) t st)
    as (ls' & st' & Hrun & _).
  rewrite Hrun in H. simpl in H.
  destruct (attempt_trial fname t st) as [[r|e] s]; [|discriminate].
  exists r. reflexivity.
Qed.

(** *** Corresponding computations *)

Lemma outcome_rel_eq {A} (r1 r2 : result A) : r1 = r2 -> outcome_rel eq r1 r2.
Proof. intros <-. destruct r1; reflexivity. Qed.

Lemma outcome_rel_eq_inv {A} (r1 r2 : result A) : outcome_rel eq r1 r2 -> r1 = r2.
Proof. destruct r1, r2; simpl; intros H; try contradiction; now subst. Qed.

Section Corresponds.
Context (R : St -> St -> Prop).

Lemma corresponds_ret {A B} (RA : A -> B -> Prop) a b :
  RA a b -> corresponds R RA (ret a) (ret b).
Proof. intros Hab s1 s2 HR. split; [exact Hab | exact HR]. Qed.

Lemma corresponds_raise {A B} (RA : A -> B -> Prop) e :
  corresponds R RA (raise e) (raise e).
Proof. intros s1 s2 HR. split; [reflexivity | exact HR]. Qed.

Lemma corresponds_bind {A B A' B'} (RA : A -> B -> Prop) (RB : A' -> B' -> Prop)
    (m1 : M A) (m2 : M B) (k1 : A -> M A') (k2 : B -> M B') :
  corresponds R RA m1 m2 ->
  (forall a b, RA a b -> corresponds R RB (k1 a) (k2 b)) ->
  corresponds R RB (bind m1 k1) (bind m2 k2).
Proof.
  intros Hm Hk s1 s2 HR. unfold bind.
  destruct (Hm s1 s2 HR) as [Hres HR'].
  destruct (m1 s1) as [[a|e1] s1'], (m2 s2) as [[b|e2] s2']; simpl in *;
    try contradiction.
  - now apply Hk.
  - auto.
Qed.

Lemma corresponds_try {A B} (RA : A -> B -> Prop)
    (m1 : M A) (m2 : M B) (h1 : exn -> M A) (h2 : exn -> M B) :
  corresponds R RA m1 m2 ->
  (forall e, corresponds R RA (h1 e) (h2 e)) ->
  corresponds R RA (try_except m1 h1) (try_except m2 h2).
Proof.
  intros Hm Hh s1 s2 HR. unfold try_except.
  destruct (Hm s1 s2 HR) as [Hres HR'].
  destruct (m1 s1) as [[a|e1] s1'], (m2 s2) as [[b|e2] s2']; simpl in *;
    try contradiction.
  - auto.
  - subst e2. now apply Hh.
Qed.

Lemma corresponds_for_each {A} (l : list A) (b1 b2 : A -> M unit) :
  (forall x, corresponds R eq (b1 x) (b2 x)) ->
  corresponds R eq (for_each l b1) (for_each l b2).
Proof.
  intros Hb. induction l as [|x l IH]; simpl.
  - now apply corresponds_ret.
  - eapply corresponds_bind; [apply Hb|]. intros _ _ _. exact IH.
Qed.

Lemma corresponds_map_M {A B} (l : list A) (f1 f2 : A -> M B) :
  (forall x, corresponds R eq (f1 x) (f2 x)) ->
  corresponds R eq (map_M f1 l) (map_M f2 l).
Proof.
  intros Hf. induction l as [|x l IH]; simpl.
  - now apply corresponds_ret.
  - eapply (corresponds_bind _ eq); [apply Hf|]. intros y ? <-.
    eapply (corresponds_bind _ eq); [exact IH|]. intros ys ? <-.
    now apply corresponds_ret.
Qed.

Lemma corresponds_gets {A} (f1 f2 : St -> A) :
  (forall s1 s2, R s1 s2 -> f1 s1 = f2 s2) ->
  corresponds R eq (gets f1) (gets f2).
Proof. intros Hf s1 s2 HR. split; [now apply Hf | exact HR]. Qed.

Lemma corresponds_modify (f1 f2 : St -> St) :
  (forall s1 s2, R s1 s2 -> R (f1 s1) (f2 s2)) ->
  corresponds R eq (modify f1) (modify f2).
Proof. intros Hf s1 s2 HR. split; [reflexivity | now apply Hf]. Qed.

Lemma corresponds_lift {A} (r : result A) : corresponds R eq (lift r) (lift r).
Proof. intros s1 s2 HR. split; [now apply outcome_rel_eq | exact HR]. Qed.

End Corresponds.

(** One step of a proof that a computation, run from two related
    states, gives the same results. *)
Ltac corr_step :=
  match goal with
  | |- corresponds _ _ (bind _ _) (bind _ _) =>
      eapply (corresponds_bind _ eq); [| intros ? ? <-]
  | |- corresponds _ _ (try_except _ _) (try_except _ _) =>
      apply corresponds_try; [| intros ?]
  | |- corresponds _ _ (ret _) (ret _) => apply corresponds_ret; reflexivity
  | |- corresponds _ _ (raise _) (raise _) => apply corresponds_raise
  | |- corresponds _ _ (lift _) (lift _) => apply corresponds_lift
  | |- corresponds _ _ (gets _) (gets _) => apply corresponds_gets; intros ? ? ?
  | |- corresponds _ _ (modify _) (modify _) => apply corresponds_modify; intros ? ? ?
  | |- corresponds _ _ (emit _) (emit _) => apply corresponds_modify; intros ? ? ?
  | |- corresponds _ _ (modify_self _) (modify_self _) =>
      apply corresponds_modify; intros ? ? ?
  | |- corresponds _ _ (for_each _ _) (for_each _ _) =>
      apply corresponds_for_each; intros ?
  | |- corresponds _ _ (map_M _ _) (map_M _ _) =>
      apply corresponds_map_M; intros ?
  | |- corresponds _ _ _ _ => progress (cbv beta iota)
  | |- corresponds _ _ (match ?x with _ => _ end) _ => destruct x
  end.

Create HintDb corr discriminated.

Ltac corr_tac := repeat (corr_step || (solve [eauto with corr])).


(** *** The inputs of a trial *)


Ltac same_store_tac :=
  corr_tac;
  try solve [ match goal with H : same_store _ _ |- _ =>
                destruct H as (Hfs & Hpath & Hdf); simpl;
                rewrite ?Hfs, ?Hpath, ?Hdf; reflexivity end
            | match goal with H : same_store _ _ |- _ =>
                destruct H as (Hfs & Hpath & Hdf); repeat split; simpl; auto end ].

Lemma open_read_same_store p : corresponds same_store eq (open_read p) (open_read p).
Proof. unfold open_read. same_store_tac. Qed.
#[local] Hint Resolve open_read_same_store : corr.

Lemma read_csv_same_store p c : corresponds same_store eq (read_csv p c) (read_csv p c).
Proof. unfold read_csv. same_store_tac. Qed.
#[local] Hint Resolve read_csv_same_store : corr.

Lemma field_trial_data_same_store field :
  corresponds same_store eq (field_trial_data (ByObj field)) (field_trial_data (ByObj field)).
Proof. unfold field_trial_data, trial_data_path, field_dir, lexists. same_store_tac. Qed.

(** The table a trial gets depends on the file store, the path of the
    simulation and the cache only. *)
Lemma table_source_dep fname s s' :
  fs s' = fs s ->
  pathname (self s') = pathname (self s) ->
  trial_data_df (self s') = trial_data_df (self s) ->
  table_source fname s' = table_source fname s.
Proof.
  intros Hfs Hpath Hdf. unfold table_source.
  apply outcome_rel_eq_inv.
  apply (field_trial_data_same_store (mkFieldRef 0 fname) s' s).
  repeat split; assumption.
Qed.

Lemma field_trial_data_result field st :
  (field_trial_data (ByObj field) st).1 = table_source (f_name field) st.
Proof. reflexivity. Qed.

Lemma read_csv_state p c st :
  (read_csv p c st).2 = with_trace (trace st ++ [EvRead p]) st.
Proof.
  unfold read_csv, open_read. unfold_py.
  destruct (fs st !! p) as [[|[x|md|df]]|]; simpl; try reflexivity.
  destruct (bool_decide (df_index_name df = Some c)); reflexivity.
Qed.

(** What reading the table leaves: the table in the cache when it
    returns one, the cache as it was when it raises; in both cases the
    rest of the instance, the store and the model objects as they were. *)
Lemma field_trial_data_post field st r st' :
  field_trial_data (ByObj field) st = (r, st') ->
  stable st st'
  /\ models_kept st st'
  /\ match r with
     | Ok df => trial_data_df (self st') = Some df
     | Raise _ => trial_data_df (self st') = trial_data_df (self st)
     end.
Proof.
  intros H. split.
  { pose proof (field_trial_data_stable (ByObj field) st) as Hst.
    now rewrite H in Hst. }
  revert H. unfold field_trial_data. unfold bind at 1, ret at 1.
  unfold bind at 1, gets at 1.
  destruct (trial_data_df (self st)) as [df|] eqn:Hdf.
  - intros [= <- <-]. split; [split; reflexivity | exact Hdf].
  - unfold bind at 1. rewrite trial_data_path_no_mkdir.
    unfold bind at 1, gets at 1.
    destruct (lexists _ st); cbn [negb]; cbv beta iota.
    + unfold bind at 1, try_except.
      match goal with |- context [read_csv ?p ?c st] =>
        pose proof (read_csv_state p c st) as Hst;
        destruct (read_csv p c st) as [[df|e] s1] end;
        simpl in Hst; subst s1; simpl.
      * intros [= <- <-]. split; [split; reflexivity | reflexivity].
      * intros [= <- <-]. split; [split; reflexivity | exact Hdf].
    + intros [= <- <-]. split; [split; reflexivity | exact Hdf].
Qed.

(** Reading the table keeps the table. *)
Lemma table_source_after field st :
  table_source (f_name field) (field_trial_data (ByObj field) st).2
  = table_source (f_name field) st.
Proof.
  destruct (field_trial_data (ByObj field) st) as [r st'] eqn:Hrun.
  destruct (field_trial_data_post field st r st' Hrun) as ((Hfs & _ & Hpath & _) & _ & Hdf).
  assert (Hres : table_source (f_name field) st = r).
  { rewrite <- (field_trial_data_result field st). now rewrite Hrun. }
  simpl. destruct r as [df|e].
  - rewrite Hres. unfold table_source.
    now rewrite (field_trial_data_cached _ _ df Hdf).
  - now apply table_source_dep.
Qed.

(** The template depends on the file store, the path of the model file
    and the cached string only. *)
Lemma ModelFile_source_same_fs pathnames xml use_default :
  corresponds same_fs eq (ModelFile_source pathnames xml use_default)
    (ModelFile_source pathnames xml use_default).
Proof.
  unfold ModelFile_source, read_text, open_read.
  corr_tac; unfold same_fs in *; simpl; congruence.
Qed.

Lemma template_source_dep s s' :
  fs s' = fs s ->
  model_file (self s') = model_file (self s) ->
  model_xml_string (self s') = model_xml_string (self s) ->
  template_source s' = template_source s.
Proof.
  intros Hfs Hfile Hxml. unfold template_source. rewrite Hfile, Hxml.
  apply outcome_rel_eq_inv. now apply ModelFile_source_same_fs.
Qed.

#[local] Instance trace_only_preorder : PreOrder trace_only.
Proof.
  split.
  - intros st. repeat split.
  - intros s1 s2 s3 (? & ? & ? & ?) (? & ? & ? & ?). repeat split; congruence.
Qed.

Lemma ModelFile_source_trace_only pathnames xml use_default :
  preserves trace_only (ModelFile_source pathnames xml use_default).
Proof.
  unfold ModelFile_source, read_text, open_read.
  preserves_tac; repeat split.
Qed.

(** [load_model], whether the template is cached or read. *)
Lemma load_model_cases st :
  let s_r := (ModelFile_source [model_file (self st)] (model_xml_string (self st)) false
                st).2 in
  load_model None st
  = match template_source st with
    | Raise e => (Raise e, s_r)
    | Ok xml =>
        match parse_xml xml [analysis_name (self st)] (field_names (self st)) with
        | Raise e => (Raise e, s_r)
        | Ok m =>
            let id := length (heap s_r) in
            match Model_get_analysis id m (analysis_name (self st)) with
            | Some a => (Ok tt, loaded_state id xml m (Some a) s_r)
            | None =>
                (Raise (CommandlineError
                          ("Analysis '" +:+ show_opt (analysis_name (self st))
                             +:+ "' was not found in model")),
                 loaded_state id xml m None s_r)
            end
        end
    end.
Proof.
  intros s_r. unfold template_source.
  pose proof (ModelFile_source_trace_only [model_file (self st)]
                (model_xml_string (self st)) false st) as Htr.
  fold s_r in Htr. destruct Htr as (Hfs & Hinst & Hheap & Hself).
  unfold load_model, ModelFile. unfold bind at 1, gets at 1.
  unfold bind at 1. unfold bind at 1.
  destruct (ModelFile_source [model_file (self st)] (model_xml_string (self st)) false st)
    as [[xml|e] s0] eqn:Hsrc; subst s_r; simpl in *; [|reflexivity].
  unfold new_model, get_model. unfold_py.
  destruct (parse_xml xml [analysis_name (self st)] (field_names (self st))) as [m|e];
    simpl; [|reflexivity].
  rewrite lookup_app_r by reflexivity. rewrite Nat.sub_diag. simpl.
  unfold loaded_state. rewrite Hself.
  destruct (Model_get_analysis (length (heap s0)) m (analysis_name (self st)));
    reflexivity.
Qed.

(** *** Two runs of a trial, each in its model object *)

Section Twin.
Variables (id1 id2 : nat) (fname : string).

Lemma corresponds_read_only {A B} (RA : A -> B -> Prop) (m1 : M A) (m2 : M B) :
  preserves eq m1 -> preserves eq m2 ->
  (forall s1 s2, (twin id1 id2 fname) s1 s2 -> outcome_rel RA (m1 s1).1 (m2 s2).1) ->
  corresponds (twin id1 id2 fname) RA m1 m2.
Proof.
  intros H1 H2 Hres s1 s2 HT. split; [now apply Hres|].
  now rewrite <- (H1 s1), <- (H2 s2).
Qed.

Lemma get_model_twin : corresponds (twin id1 id2 fname) eq (get_model id1) (get_model id2).
Proof.
  apply corresponds_read_only; [apply get_model_ro | apply get_model_ro |].
  intros s1 s2 (_ & _ & _ & m & Hm1 & Hm2).
  unfold get_model. unfold_py. now rewrite Hm1, Hm2.
Qed.

Lemma self_analysis_twin : corresponds (twin id1 id2 fname) (twin_analysis id1 id2) self_analysis self_analysis.
Proof.
  apply corresponds_read_only; [apply self_analysis_ro | apply self_analysis_ro |].
  intros s1 s2 (_ & _ & (an & Ha1 & Ha2) & _).
  unfold self_analysis. unfold_py. rewrite Ha1, Ha2. simpl. repeat split.
Qed.

Lemma get_field_data_twin : corresponds (twin id1 id2 fname) eq (get_field_data (mkFieldRef id1 fname)) (get_field_data (mkFieldRef id2 fname)).
Proof.
  apply corresponds_read_only; [apply get_field_data_ro | apply get_field_data_ro |].
  intros s1 s2 (_ & _ & _ & m & Hm1 & Hm2).
  unfold get_field_data, get_model. unfold_py. rewrite Hm1, Hm2. simpl.
  destruct (field_dict m !! fname); reflexivity.
Qed.

Lemma lookup_obj_twin c : corresponds (twin id1 id2 fname) (twin_obj id1 id2) (lookup_obj c (mkFieldRef id1 fname)) (lookup_obj c (mkFieldRef id2 fname)).
Proof.
  apply corresponds_read_only; [apply lookup_obj_ro | apply lookup_obj_ro |].
  intros s1 s2 (_ & _ & (an & Ha1 & Ha2) & m & Hm1 & Hm2).
  unfold lookup_obj.
  destruct c as [c|]; [|repeat split].
  destruct (String.eqb c "Field"); [repeat split|].
  destruct (String.eqb c "Analysis").
  - unfold self_analysis. unfold_py. rewrite Ha1, Ha2. simpl. repeat split.
  - unfold get_model. autounfold with py. cbn [f_model f_name]. rewrite Hm1, Hm2.
    cbv beta iota.
    destruct (owner_attr_dict m (OwProcess fname c)); [repeat split | reflexivity].
Qed.

Lemma lookup_twin n : corresponds (twin id1 id2 fname) (twin_attr id1 id2) (lookup n (mkFieldRef id1 fname)) (lookup n (mkFieldRef id2 fname)).
Proof.
  apply corresponds_read_only; [apply lookup_ro | apply lookup_ro |].
  intros s1 s2 HT.
  unfold lookup. unfold bind at 1 4, lift.
  destruct (split_attr_name n) as [ca|e]; [|reflexivity]. cbv beta iota.
  unfold bind at 1 3.
  destruct (lookup_obj_twin ca.1 s1 s2 HT) as [Hobj _].
  rewrite (read_only_run (lookup_obj ca.1 (mkFieldRef id1 fname))) by apply lookup_obj_ro.
  rewrite (read_only_run (lookup_obj ca.1 (mkFieldRef id2 fname))) by apply lookup_obj_ro.
  destruct (lookup_obj ca.1 (mkFieldRef id1 fname) s1).1 as [o1|e1], (lookup_obj ca.1 (mkFieldRef id2 fname) s2).1 as [o2|e2];
    simpl in Hobj; try contradiction; [|now subst].
  destruct Hobj as (Ho1 & Ho2 & Ho).
  destruct HT as (_ & _ & _ & m & Hm1 & Hm2).
  unfold get_model. autounfold with py. cbv beta iota.
  rewrite Ho1, Ho2, Hm1, Hm2. cbv beta iota. rewrite <- Ho.
  destruct (owner_attr_dict m o1.2) as [d|]; [|reflexivity].
  destruct (d !! ca.2); [|reflexivity].
  simpl. repeat split; auto.
Qed.


Lemma twin_step s1 s2 s1' s2' m' :
  (twin id1 id2 fname) s1 s2 ->
  pathname (self s1') = pathname (self s1) ->
  pathname (self s2') = pathname (self s2) ->
  table_source fname s1' = table_source fname s1 ->
  table_source fname s2' = table_source fname s2 ->
  analysis (self s1') = analysis (self s1) ->
  analysis (self s2') = analysis (self s2) ->
  heap s1' !! id1 = Some m' ->
  heap s2' !! id2 = Some m' ->
  (twin id1 id2 fname) s1' s2'.
Proof.
  intros (Hp & Ht & (an & Ha1 & Ha2) & _) Hp1 Hp2 Ht1 Ht2 Han1 Han2 Hm1 Hm2.
  split; [congruence|]. split; [congruence|].
  split; [exists an; split; congruence|]. eauto.
Qed.

Lemma set_explicit_value_twin r1 r2 v :
  twin_attr id1 id2 r1 r2 ->
  corresponds (twin id1 id2 fname) eq (set_explicit_value r1 v) (set_explicit_value r2 v).
Proof.
  intros (Hr1 & Hr2 & Ho & Hn) s1 s2 HT.
  pose proof HT as (_ & _ & _ & m & Hm1 & Hm2).
  unfold set_explicit_value, get_model, put_model. unfold_py.
  rewrite Hr1, Hr2, Hm1, Hm2. simpl. split; [reflexivity|].
  eapply twin_step; try exact HT; try reflexivity.
  - apply table_source_dep; reflexivity.
  - apply table_source_dep; reflexivity.
  - simpl. apply list_lookup_insert_eq. eapply lookup_lt_Some; eassumption.
  - simpl. rewrite Ho, Hn.
    apply list_lookup_insert_eq. eapply lookup_lt_Some; eassumption.
Qed.

Lemma field_trial_data_twin :
  corresponds (twin id1 id2 fname) eq (field_trial_data (ByObj (mkFieldRef id1 fname))) (field_trial_data (ByObj (mkFieldRef id2 fname))).
Proof.
  intros s1 s2 HT. pose proof HT as (_ & Ht & _ & m & Hm1 & Hm2).
  split.
  - apply outcome_rel_eq. rewrite !field_trial_data_result. exact Ht.
  - destruct (field_trial_data (ByObj (mkFieldRef id1 fname)) s1) as [r1 s1'] eqn:H1.
    destruct (field_trial_data (ByObj (mkFieldRef id2 fname)) s2) as [r2 s2'] eqn:H2.
    pose proof (table_source_after (mkFieldRef id1 fname) s1) as Ht1. rewrite H1 in Ht1.
    pose proof (table_source_after (mkFieldRef id2 fname) s2) as Ht2. rewrite H2 in Ht2.
    apply field_trial_data_post in H1 as ((_ & _ & Hp1 & _) & (Hh1 & Ha1) & _).
    apply field_trial_data_post in H2 as ((_ & _ & Hp2 & _) & (Hh2 & Ha2) & _).
    simpl. eapply twin_step; try exact HT; try assumption.
    + rewrite Hh1. exact Hm1.
    + rewrite Hh2. exact Hm2.
Qed.

Lemma trial_data_twin t :
  corresponds (twin id1 id2 fname) eq (trial_data (ByObj (mkFieldRef id1 fname)) t) (trial_data (ByObj (mkFieldRef id2 fname)) t).
Proof.
  unfold trial_data.
  eapply (corresponds_bind _ eq); [apply field_trial_data_twin|]. intros df ? <-.
  destruct (df_loc df t); [now apply corresponds_ret|].
  unfold trial_data_path, field_dir.
  corr_tac. match goal with H : twin _ _ _ _ _ |- _ => destruct H as (Hp & _) end.
  simpl. now rewrite Hp.
Qed.

Lemma set_trial_data_twin t :
  corresponds (twin id1 id2 fname) eq (set_trial_data (mkFieldRef id1 fname) t) (set_trial_data (mkFieldRef id2 fname) t).
Proof.
  unfold set_trial_data.
  eapply (corresponds_bind _ eq); [apply trial_data_twin|]. intros data ? <-.
  apply corresponds_for_each. intros nv.
  eapply corresponds_bind; [apply lookup_twin|].
  intros r1 r2 Hr. now apply set_explicit_value_twin.
Qed.

Lemma Field_run_twin a1 a2 t :
  twin_analysis id1 id2 a1 a2 ->
  corresponds (twin id1 id2 fname) eq (Field_run (mkFieldRef id1 fname) a1 t) (Field_run (mkFieldRef id2 fname) a2 t).
Proof.
  intros (Ha1 & Ha2 & Han) s1 s2 HT.
  pose proof HT as (_ & _ & _ & m & Hm1 & Hm2).
  unfold Field_run, get_model, put_model. unfold_py.
  rewrite Han. repeat (progress (rewrite ?Ha1, ?Ha2, ?Hm1, ?Hm2; simpl)).
  assert (Hstep : forall m' tr1 tr2,
             (twin id1 id2 fname) (with_heap (<[id1 := m']> (heap s1)) (with_trace tr1 s1))
               (with_heap (<[id2 := m']> (heap s2)) (with_trace tr2 s2))).
  { intros m' tr1 tr2.
    eapply twin_step; try exact HT; try reflexivity.
    - apply table_source_dep; reflexivity.
    - apply table_source_dep; reflexivity.
    - simpl. apply list_lookup_insert_eq. eapply lookup_lt_Some; eassumption.
    - simpl. apply list_lookup_insert_eq. eapply lookup_lt_Some; eassumption. }
  assert (Htrace : forall tr1 tr2, (twin id1 id2 fname) (with_trace tr1 s1) (with_trace tr2 s2)).
  { intros tr1 tr2.
    eapply twin_step; try exact HT; try reflexivity; try eassumption.
    - apply table_source_dep; reflexivity.
    - apply table_source_dep; reflexivity. }
  destruct (field_dict m !! fname) as [fd|]; simpl;
    [|split; [reflexivity|apply Htrace]].
  destruct (field_run m fname fd (a_name a2) (analysis_dict m !! a_name a2) t)
    as [fd' [e|]]; simpl; (split; [reflexivity|apply Hstep]).
Qed.

Lemma trial_eval_twin t :
  corresponds (twin id1 id2 fname) eq (trial_eval (mkFieldRef id1 fname) t) (trial_eval (mkFieldRef id2 fname) t).
Proof.
  unfold trial_eval.
  apply corresponds_try; [|intros e; now apply corresponds_ret].
  eapply (corresponds_bind _ eq); [apply set_trial_data_twin|]. intros _ _ _.
  eapply corresponds_bind; [apply self_analysis_twin|]. intros a1 a2 Ha.
  eapply (corresponds_bind _ eq); [now apply Field_run_twin|]. intros _ _ _.
  now apply corresponds_ret.
Qed.

End Twin.

(** *** The first part of a trial *)

Lemma trial_load_general fname st :
  let s_r := (ModelFile_source [model_file (self st)] (model_xml_string (self st)) false
                st).2 in
  trial_load fname st
  = match template_source st with
    | Raise e => (Ok (inr e), s_r)
    | Ok xml =>
        match parse_xml xml [analysis_name (self st)] (field_names (self st)) with
        | Raise e => (Ok (inr e), s_r)
        | Ok m =>
            let id := length (heap s_r) in
            match Model_get_analysis id m (analysis_name (self st)) with
            | None =>
                (Ok (inr (CommandlineError
                            ("Analysis '" +:+ show_opt (analysis_name (self st))
                               +:+ "' was not found in model"))),
                 loaded_state id xml m None s_r)
            | Some a =>
                let st1 := loaded_state id xml m (Some a) s_r in
                match (Analysis_get_field a fname st1).1 with
                | Ok _ => (Ok (inl (mkFieldRef id fname)), st1)
                | Raise e => (Ok (inr e), st1)
                end
            end
        end
    end.
Proof.
  intros s_r. unfold trial_load, try_except. unfold bind at 1.
  rewrite load_model_cases. fold s_r.
  destruct (template_source st) as [xml|e]; [|reflexivity].
  destruct (parse_xml xml [analysis_name (self st)] (field_names (self st))) as [m|e];
    [|reflexivity].
  cbv zeta.
  destruct (Model_get_analysis (length (heap s_r)) m (analysis_name (self st)))
    as [a|] eqn:Ha; [|reflexivity].
  unfold bind at 1. unfold self_analysis at 1. unfold bind at 1, gets at 1. simpl.
  unfold ret at 1. unfold bind at 1.
  rewrite (read_only_run (Analysis_get_field a fname)) by apply Analysis_get_field_ro.
  destruct (Analysis_get_field a fname _) as [[field|e] s] eqn:Hf; simpl; [|reflexivity].
  apply Analysis_get_field_ok in Hf as (-> & _ & _).
  now rewrite (Model_get_analysis_model _ _ _ _ Ha).
Qed.

(** Whether the field is found depends on the content of the model. *)
Lemma Analysis_get_field_content a1 a2 name s1 s2 m :
  heap s1 !! a_model a1 = Some m ->
  heap s2 !! a_model a2 = Some m ->
  a_name a1 = a_name a2 ->
  outcome_rel (fun _ _ => True)
    (Analysis_get_field a1 name s1).1 (Analysis_get_field a2 name s2).1.
Proof.
  intros H1 H2 Hn. unfold Analysis_get_field, get_model. unfold_py.
  rewrite H1, H2, Hn. simpl.
  destruct (analysis_dict m !! a_name a2) as [an|]; [|reflexivity].
  destruct (bool_decide (name ∈ analysis_fields an) && bool_decide (is_Some (field_dict m !! name)));
    simpl; auto.
Qed.

Lemma same_inputs_equiv fname : Equivalence (same_inputs fname).
Proof.
  split.
  - intros s. repeat split.
  - intros s1 s2 (? & ? & ? & ? & ?). repeat split; congruence.
  - intros s1 s2 s3 (? & ? & ? & ? & ?) (? & ? & ? & ? & ?). repeat split; congruence.
Qed.

(** Two trials of the field with the same trial number, run from states
    that give them the same inputs, come to the same result. *)
Lemma attempt_trial_corresponds fname t s1 s2 :
  same_inputs fname s1 s2 ->
  outcome_rel (fun r1 r2 => r1.2 = r2.2)
    (attempt_trial fname t s1).1 (attempt_trial fname t s2).1.
Proof.
  intros (Htpl & Han & Hfn & Hpath & Htab).
  unfold attempt_trial. unfold bind at 1 4.
  rewrite !trial_load_general. rewrite Htpl, Han, Hfn.
  pose proof (ModelFile_source_trace_only [model_file (self s1)]
                (model_xml_string (self s1)) false s1) as (Hfs1 & _ & Hh1 & Hself1).
  pose proof (ModelFile_source_trace_only [model_file (self s2)]
                (model_xml_string (self s2)) false s2) as (Hfs2 & _ & Hh2 & Hself2).
  set (r1 := (ModelFile_source [model_file (self s1)] (model_xml_string (self s1)) false
                s1).2) in *.
  set (r2 := (ModelFile_source [model_file (self s2)] (model_xml_string (self s2)) false
                s2).2) in *.
  destruct (template_source s2) as [xml|e]; [|reflexivity].
  destruct (parse_xml xml [analysis_name (self s2)] (field_names (self s2))) as [m|e];
    [|reflexivity].
  cbv zeta. unfold Model_get_analysis.
  destruct (analysis_name (self s2)) as [n|]; [|reflexivity].
  destruct (analysis_dict m !! n) as [an|] eqn:Hn; [|reflexivity].
  set (id1 := length (heap r1)). set (id2 := length (heap r2)).
  set (st1 := loaded_state id1 xml m (Some (mkAnalysisRef id1 n)) r1).
  set (st2 := loaded_state id2 xml m (Some (mkAnalysisRef id2 n)) r2).
  assert (Hc1 : heap st1 !! id1 = Some m).
  { unfold st1, id1. simpl. rewrite lookup_app_r by reflexivity.
    now rewrite Nat.sub_diag. }
  assert (Hc2 : heap st2 !! id2 = Some m).
  { unfold st2, id2. simpl. rewrite lookup_app_r by reflexivity.
    now rewrite Nat.sub_diag. }
  pose proof (Analysis_get_field_content (mkAnalysisRef id1 n) (mkAnalysisRef id2 n)
                fname st1 st2 m Hc1 Hc2 eq_refl) as Hfield.
  destruct (Analysis_get_field (mkAnalysisRef id1 n) fname st1).1 as [x1|e1],
           (Analysis_get_field (mkAnalysisRef id2 n) fname st2).1 as [x2|e2];
    simpl in Hfield; try contradiction; [|now subst].
  assert (HT : twin id1 id2 fname st1 st2).
  { split; [unfold st1, st2; simpl; congruence|].
    split.
    - rewrite (table_source_dep fname s1 st1), (table_source_dep fname s2 st2);
        unfold st1, st2; simpl; congruence.
    - split; [exists n; split; reflexivity|]. eauto. }
  unfold bind at 1 3.
  destruct (trial_eval_twin id1 id2 fname t st1 st2 HT) as [Heval HT'].
  destruct (trial_eval (mkFieldRef id1 fname) t st1) as [[o1|e1] st1'],
           (trial_eval (mkFieldRef id2 fname) t st2) as [[o2|e2] st2'];
    simpl in Heval, HT'; try contradiction; [subst o2|exact Heval].
  destruct o1 as [e|]; [reflexivity|].
  unfold bind.
  destruct (get_field_data_twin id1 id2 fname st1' st2' HT') as [Hfd _].
  destruct (get_field_data (mkFieldRef id1 fname) st1') as [[fd1|e1] x1'],
           (get_field_data (mkFieldRef id2 fname) st2') as [[fd2|e2] x2'];
    simpl in Hfd; try contradiction; [now subst|exact Hfd].
Qed.

(** *** A trial keeps the inputs of the trials *)

#[local] Instance inputs_kept_preorder fname : PreOrder (inputs_kept fname).
Proof.
  split.
  - intros st. split; reflexivity.
  - intros s1 s2 s3 [Hs12 Ht12] [Hs23 Ht23]. split.
    + etransitivity; eassumption.
    + congruence.
Qed.

Ltac kept_tac :=
  preserves_tac;
  try solve [split; [unfold stable; simpl; auto 10 | apply table_source_dep; reflexivity]].

Lemma get_model_kept fname id : preserves (inputs_kept fname) (get_model id).
Proof. unfold get_model. kept_tac. Qed.
#[local] Hint Resolve get_model_kept : pres.

Lemma put_model_kept fname id m : preserves (inputs_kept fname) (put_model id m).
Proof. unfold put_model. kept_tac. Qed.
#[local] Hint Resolve put_model_kept : pres.

Lemma self_analysis_kept fname : preserves (inputs_kept fname) self_analysis.
Proof. unfold self_analysis. kept_tac. Qed.
#[local] Hint Resolve self_analysis_kept : pres.

Lemma lookup_obj_kept fname c field : preserves (inputs_kept fname) (lookup_obj c field).
Proof. unfold lookup_obj. kept_tac. Qed.
#[local] Hint Resolve lookup_obj_kept : pres.

Lemma lookup_kept fname n field : preserves (inputs_kept fname) (lookup n field).
Proof. unfold lookup. kept_tac. Qed.
#[local] Hint Resolve lookup_kept : pres.

Lemma set_explicit_value_kept fname r v :
  preserves (inputs_kept fname) (set_explicit_value r v).
Proof. unfold set_explicit_value. kept_tac. Qed.
#[local] Hint Resolve set_explicit_value_kept : pres.

Lemma Field_run_kept fname field a t : preserves (inputs_kept fname) (Field_run field a t).
Proof. unfold Field_run. kept_tac. Qed.
#[local] Hint Resolve Field_run_kept : pres.

Lemma get_field_data_kept fname field :
  preserves (inputs_kept fname) (get_field_data field).
Proof. unfold get_field_data. kept_tac. Qed.
#[local] Hint Resolve get_field_data_kept : pres.

Lemma field_dir_kept fname field : preserves (inputs_kept fname) (field_dir field).
Proof. unfold field_dir. kept_tac. Qed.
#[local] Hint Resolve field_dir_kept : pres.

Lemma field_trial_data_kept field :
  preserves (inputs_kept (f_name field)) (field_trial_data (ByObj field)).
Proof.
  intros st. split.
  - apply field_trial_data_stable.
  - apply table_source_after.
Qed.
#[local] Hint Resolve field_trial_data_kept : pres.

Lemma trial_data_kept field t :
  preserves (inputs_kept (f_name field)) (trial_data (ByObj field) t).
Proof. unfold trial_data, trial_data_path. kept_tac. Qed.
#[local] Hint Resolve trial_data_kept : pres.

Lemma set_trial_data_kept field t :
  preserves (inputs_kept (f_name field)) (set_trial_data field t).
Proof. unfold set_trial_data. kept_tac. Qed.
#[local] Hint Resolve set_trial_data_kept : pres.

Lemma trial_eval_kept field t :
  preserves (inputs_kept (f_name field)) (trial_eval field t).
Proof. unfold trial_eval. kept_tac. Qed.
#[local] Hint Resolve trial_eval_kept : pres.

Lemma new_model_kept fname m : preserves (inputs_kept fname) (new_model m).
Proof. unfold new_model. kept_tac. Qed.
#[local] Hint Resolve new_model_kept : pres.

Lemma open_read_kept fname p : preserves (inputs_kept fname) (open_read p).
Proof. unfold open_read. kept_tac. Qed.
#[local] Hint Resolve open_read_kept : pres.

Lemma read_text_kept fname p : preserves (inputs_kept fname) (read_text p).
Proof. unfold read_text. kept_tac. Qed.
#[local] Hint Resolve read_text_kept : pres.

Lemma ModelFile_kept fname pathnames xml use_default names fnames :
  preserves (inputs_kept fname) (ModelFile pathnames xml use_default names fnames None).
Proof. unfold ModelFile, ModelFile_source. kept_tac. Qed.
#[local] Hint Resolve ModelFile_kept : pres.

Lemma load_model_kept fname : preserves (inputs_kept fname) (load_model None).
Proof. unfold load_model. kept_tac. Qed.
#[local] Hint Resolve load_model_kept : pres.

Lemma Analysis_get_field_kept fname a name :
  preserves (inputs_kept fname) (Analysis_get_field a name).
Proof. unfold Analysis_get_field. kept_tac. Qed.
#[local] Hint Resolve Analysis_get_field_kept : pres.

Lemma trial_load_kept fname : preserves (inputs_kept fname) (trial_load fname).
Proof. unfold trial_load. kept_tac. Qed.

Lemma trial_load_name fname st field st' :
  trial_load fname st = (Ok (inl field), st') -> f_name field = fname.
Proof.
  rewrite trial_load_general.
  destruct (template_source st) as [xml|e]; [|discriminate].
  destruct (parse_xml _ _ _) as [m|e]; [|discriminate].
  cbv zeta.
  destruct (Model_get_analysis _ _ _) as [a|]; [|discriminate].
  destruct (Analysis_get_field _ _ _).1; [|discriminate].
  now intros [= <- _].
Qed.

Lemma attempt_trial_kept fname t : preserves (inputs_kept fname) (attempt_trial fname t).
Proof.
  intros st. unfold attempt_trial. unfold bind at 1.
  pose proof (trial_load_kept fname st) as H1.
  destruct (trial_load fname st) as [[[field|e]|e] s1] eqn:Hload; simpl in H1;
    try exact H1.
  apply trial_load_name in Hload. subst fname.
  etransitivity; [exact H1|].
  assert (Hk : preserves (inputs_kept (f_name field))
                 (r' <- trial_eval field t ;;
                  match r' with
                  | Some e => ret (Some field, Failed e)
                  | None =>
                      fd <- get_field_data field ;;
                      ret (Some field, Completed (result_tuple t fd))
                  end)).
  { pose proof (trial_eval_kept field t). kept_tac. }
  apply Hk.
Qed.

Lemma inputs_kept_same fname st st' : inputs_kept fname st st' -> same_inputs fname st st'.
Proof.
  intros [(Hfs & _ & Hpath & Hfile & Hxml & Han & Hfn & _) Htab].
  repeat split; try congruence.
  symmetry. now apply template_source_dep.
Qed.

(** A trial leaves the next one the inputs it had. *)
Lemma attempt_trial_same_inputs fname t st :
  same_inputs fname st (attempt_trial fname t st).2.
Proof. apply inputs_kept_same, attempt_trial_kept. Qed.

(** The result of a trial is a function of its inputs and of its trial
    number. *)
Lemma trial_outcome_same_inputs fname s1 s2 t :
  same_inputs fname s1 s2 -> trial_outcome fname s1 t = trial_outcome fname s2 t.
Proof.
  intros H. unfold trial_outcome.
  pose proof (attempt_trial_corresponds fname t s1 s2 H) as Hc.
  destruct (attempt_trial fname t s1).1, (attempt_trial fname t s2).1;
    simpl in Hc; try contradiction; congruence.
Qed.

Lemma completed_rows_cons outcome t ts :
  completed_rows outcome (t :: ts)
  = match outcome t with
    | Completed row => row :: completed_rows outcome ts
    | Failed _ => completed_rows outcome ts
    end.
Proof. unfold completed_rows. simpl. now destruct (outcome t). Qed.

Lemma failed_trials_cons outcome t ts :
  failed_trials outcome (t :: ts)
  = match outcome t with
    | Completed _ => failed_trials outcome ts
    | Failed e => (t, e) :: failed_trials outcome ts
    end.
Proof. unfold failed_trials. simpl. now destruct (outcome t). Qed.

Lemma completed_rows_ext outcome outcome' ts :
  (forall t, outcome t = outcome' t) ->
  completed_rows outcome ts = completed_rows outcome' ts.
Proof.
  intros H. induction ts as [|t ts IH]; [reflexivity|].
  now rewrite !completed_rows_cons, H, IH.
Qed.

Lemma failed_trials_ext outcome outcome' ts :
  (forall t, outcome t = outcome' t) ->
  failed_trials outcome ts = failed_trials outcome' ts.
Proof.
  intros H. induction ts as [|t ts IH]; [reflexivity|].
  now rewrite !failed_trials_cons, H, IH.
Qed.

(** The loop over the trial numbers collects the results of the trials,
    each as a trial run from the state before the loop comes to it. *)
Lemma run_trials_outcomes trial_nums : forall ls st,
  exists ls',
    run_trials trial_nums ls st = (Ok ls', (run_trials trial_nums ls st).2)
    /\ f_name (ls_field ls') = f_name (ls_field ls)
    /\ ls_results ls'
       = ls_results ls
           ++ completed_rows (trial_outcome (f_name (ls_field ls)) st) trial_nums
    /\ ls_failures ls'
       = ls_failures ls
           ++ failed_trials (trial_outcome (f_name (ls_field ls)) st) trial_nums
    /\ ls_completed ls'
       = (ls_completed ls
          + length (completed_rows (trial_outcome (f_name (ls_field ls)) st) trial_nums))%nat.
Proof.
  induction trial_nums as [|t ts IH]; intros ls st.
  - exists ls. simpl. rewrite !app_nil_r, Nat.add_0_r. auto.
  - simpl run_trials. unfold bind at 1 2.
    pose proof (run_trial_attempt ls t st) as Hrun.
    pose proof (attempt_trial_same_inputs (f_name (ls_field ls)) t st) as Hsame.
    destruct (attempt_trial_ok (f_name (ls_field ls)) t st) as [r Hr].
    assert (Hout : trial_outcome (f_name (ls_field ls)) st t = r.2).
    { unfold trial_outcome. now rewrite Hr. }
    assert (Hname : f_name (ls_field (account ls t r)) = f_name (ls_field ls)).
    { destruct (run_trial_ok ls t st) as (ls1 & s1 & Hok & Hn & _).
      rewrite Hrun, Hr in Hok. injection Hok as <- _. exact Hn. }
    rewrite Hr in Hrun. rewrite Hrun.
    set (st1 := (attempt_trial (f_name (ls_field ls)) t st).2) in *.
    destruct (IH (account ls t r) st1) as (ls' & Hloop & Hn' & Hres & Hfail & Hcount).
    exists ls'. rewrite Hloop. split; [reflexivity|].
    rewrite Hname in Hn', Hres, Hfail, Hcount.
    assert (Hpt : forall t',
               trial_outcome (f_name (ls_field ls)) st1 t'
               = trial_outcome (f_name (ls_field ls)) st t')
      by (intros t'; symmetry; apply trial_outcome_same_inputs, Hsame).
    rewrite (completed_rows_ext _ _ ts Hpt) in Hres, Hcount.
    rewrite (failed_trials_ext _ _ ts Hpt) in Hfail.
    split; [exact Hn'|].
    rewrite completed_rows_cons, failed_trials_cons, Hout, Hres, Hfail, Hcount.
    unfold account, record_failure.
    destruct r as [fo [row|e]]; simpl; rewrite <- !app_assoc; simpl;
      repeat split; lia.
Qed.

(** ** The loop of run_field, trial by trial *)

Lemma trial_outcome_row fname st t row :
  trial_outcome fname st t = Completed row -> r_trial_num row = t.
Proof.
  unfold trial_outcome, attempt_trial, bind.
  destruct (trial_load fname st) as [[[field|e]|e] s1]; simpl; try discriminate.
  destruct (trial_eval field t s1) as [[[e|]|e] s2]; simpl; try discriminate.
  destruct (get_field_data field s2) as [[fd|e] s3]; simpl; try discriminate.
  now intros [= <-].
Qed.

Lemma completed_rows_trial fname st trial_nums t :
  t ∈ map r_trial_num (completed_rows (trial_outcome fname st) trial_nums) ->
  exists row, trial_outcome fname st t = Completed row.
Proof.
  rewrite list_elem_of_In, in_map_iff. intros (row & Hnum & Hin).
  apply list_elem_of_In, list_elem_of_omap in Hin as (t' & _ & Hout).
  destruct (trial_outcome fname st t') as [row'|e] eqn:Ht'; [|discriminate].
  injection Hout as ->.
  apply trial_outcome_row in Ht' as Hrow. rewrite Hnum in Hrow. subst t'. eauto.
Qed.

Lemma failed_trials_trial fname st trial_nums t :
  t ∈ map fst (failed_trials (trial_outcome fname st) trial_nums) ->
  exists e, trial_outcome fname st t = Failed e.
Proof.
  rewrite list_elem_of_In, in_map_iff. intros ([t' e] & Hnum & Hin).
  apply list_elem_of_In, list_elem_of_omap in Hin as (t'' & _ & Hout).
  destruct (trial_outcome fname st t'') as [row|e'] eqn:Ht'; [discriminate|].
  injection Hout as -> ->. simpl in Hnum. subst t'. eauto.
Qed.

(** The lists of the loop of [run_field] are the results of the trials
    requested, each as the trial run on its own from the state before
    the call. *)
Lemma run_field_outcomes field trial_nums st :
  exists ls st1,
    run_trials (requested_trials trial_nums st) (mkLoopState field 0 [] []) st = (Ok ls, st1)
    /\ ls_results ls
       = completed_rows (trial_outcome (f_name field) st) (requested_trials trial_nums st)
    /\ ls_failures ls
       = failed_trials (trial_outcome (f_name field) st) (requested_trials trial_nums st).
Proof.
  destruct (run_trials_outcomes (requested_trials trial_nums st)
              (mkLoopState field 0 [] []) st)
    as (ls & Hloop & _ & Hres & Hfail & _).
  exists ls. eexists. split; [exact Hloop|]. auto.
Qed.


(** C1.  In [run_field], with the template cached in
    [model_xml_string], every trial number is processed in a model of
    its own: before anything else of the trial, [load_model] builds a
    new model object from the cached template; the attributes set from
    the trial data and the evaluation of the trial are on the field of
    that object; no two trials share a model object, and the model
    objects that existed before the call are as they were.  What the
    trials before it have done is nothing to a trial: each comes to the
    result it comes to when it is run first. *)
Theorem trial_isolation :
  forall field trial_nums st xml,
    model_xml_string (self st) = Some xml ->
    let requested := requested_trials trial_nums st in
    exists ls st1 st' evs,
      run_trials requested (mkLoopState field 0 [] []) st = (Ok ls, st1)
      /\ run_field field trial_nums st = (Ok (ls_completed ls), st')
      /\ trace st1 = trace st ++ evs
      /\ isolated_trials xml (f_name field) (length (heap st)) requested evs
           (length (heap st1))
      /\ (forall i, (i < length (heap st))%nat -> heap st1 !! i = heap st !! i)
      /\ ls_results ls = completed_rows (trial_outcome (f_name field) st) requested
      /\ ls_failures ls = failed_trials (trial_outcome (f_name field) st) requested.
Proof.
  intros field trial_nums st xml Hxml requested.
  destruct (run_trials_isolated requested (mkLoopState field 0 [] []) st xml Hxml)
    as (ls & st1 & evs & Hloop & Htr & Hiso & Hold).
  destruct (run_field_spec field trial_nums st)
    as (ls0 & st0 & st' & Hloop0 & Hrun & _).
  fold requested in Hloop0.
  rewrite Hloop in Hloop0. injection Hloop0 as <- <-.
  destruct (run_field_outcomes field trial_nums st) as (ls0 & st0 & Hloop0 & Hrows & Hexns).
  fold requested in Hloop0, Hrows, Hexns.
  rewrite Hloop in Hloop0. injection Hloop0 as <- <-.
  exists ls, st1, st', evs. auto 10.
Qed.

(** * Further properties of the driver *)

(** ** Reading tables of distributions *)

Lemma read_row_registration row st :
  read_row row st
  = match row_registration row with
    | Ok None => (Ok tt, st)
    | Ok (Some d) => (Ok tt, registered d st)
    | Raise e => (Raise e, st)
    end.
Proof.
  unfold row_registration.
  destruct (skipped_early row) eqn:Hearly.
  - now apply read_row_early.
  - rewrite read_row_late by assumption.
    destruct (shape_rv row) as [[r|]|e]; try reflexivity.
    unfold Distribution_init, registered.
    destruct (split_attr_name (variable_name row)) as [ca|[]]; reflexivity.
Qed.

Lemma for_each_app {A} (body : A -> M unit) l1 l2 st :
  for_each (l1 ++ l2) body st = (for_each l1 body ;; for_each l2 body) st.
Proof.
  revert st. induction l1 as [|x l1 IH]; intros st; simpl.
  - reflexivity.
  - unfold bind. destruct (body x st) as [[[]|e] st1]; [|reflexivity].
    rewrite IH. reflexivity.
Qed.

(** Whether a table is read to its end depends on the table alone. *)
Lemma read_distributions_result rows st st' :
  (read_distributions rows st).1 = (read_distributions rows st').1.
Proof.
  unfold read_distributions. revert st st'.
  induction rows as [|row rows IH]; intros st st'; simpl; [reflexivity|].
  unfold bind. rewrite !read_row_registration.
  destruct (row_registration row) as [[d|]|e]; auto.
Qed.

Lemma read_distributions_registers rows st :
  instances (read_distributions rows st).2
  = register_all (registrations rows) (instances st).
Proof.
  unfold read_distributions. revert st.
  induction rows as [|row rows IH]; intros st; simpl; [reflexivity|].
  unfold bind. rewrite read_row_registration.
  destruct (row_registration row) as [[d|]|e]; simpl; [|apply IH|reflexivity].
  now rewrite IH.
Qed.

Lemma read_distributions_frame rows st :
  fs (read_distributions rows st).2 = fs st
  /\ heap (read_distributions rows st).2 = heap st
  /\ self (read_distributions rows st).2 = self st.
Proof.
  unfold read_distributions. revert st.
  induction rows as [|row rows IH]; intros st; simpl; [auto|].
  unfold bind. rewrite read_row_registration.
  destruct (row_registration row) as [[d|]|e]; simpl; auto.
  destruct (IH (registered d st)) as (? & ? & ?). auto.
Qed.

(** X1.  [read_distributions] reads the rows in order and stops at the
    first row that raises: a table in two parts is read as the first
    part followed by the second; when a row raises, the rows before it
    stay registered, the row itself and the rows after it add nothing;
    and whatever the table, only the registry (and the record of the
    registrations) changes, not the file store, the model objects or
    the simulation. *)
Theorem read_distributions_stops_at_first_error :
  (forall l1 l2 st,
      read_distributions (l1 ++ l2) st
      = (read_distributions l1 ;; read_distributions l2) st)
  /\ (forall pre row post st st1 e,
        read_distributions pre st = (Ok tt, st1) ->
        (read_row row st1).1 = Raise e ->
        read_distributions (pre ++ row :: post) st = (Raise e, st1))
  /\ (forall rows st,
        fs (read_distributions rows st).2 = fs st
        /\ heap (read_distributions rows st).2 = heap st
        /\ self (read_distributions rows st).2 = self st).
Proof.
  split; [|split].
  - intros l1 l2 st. apply for_each_app.
  - intros pre row post st st1 e Hpre Hrow.
    unfold read_distributions in *. rewrite for_each_app. unfold bind at 1.
    rewrite Hpre. simpl. unfold bind.
    rewrite read_row_registration in Hrow |- *.
    destruct (row_registration row) as [[d|]|e']; simpl in Hrow; try discriminate.
    now injection Hrow as ->.
  - apply read_distributions_frame.
Qed.

(** ** The order of the registry *)

Lemma dict_set_names {V} (k : string) (v : V) d :
  map fst (dict_set k v d)
  = if bool_decide (k ∈ map fst d) then map fst d else map fst d ++ [k].
Proof.
  induction d as [|[k0 v0] d IH].
  - reflexivity.
  - cbn [dict_set map fst]. destruct (String.eqb k0 k) eqn:Hk.
    + apply String.eqb_eq in Hk. subst k0.
      rewrite bool_decide_eq_true_2; [reflexivity | apply list_elem_of_here].
    + apply String.eqb_neq in Hk. cbn [map fst]. rewrite IH.
      destruct (bool_decide (k ∈ map fst d)) eqn:Hin.
      * apply bool_decide_eq_true in Hin.
        rewrite bool_decide_eq_true_2; [reflexivity | now apply list_elem_of_further].
      * apply bool_decide_eq_false in Hin.
        rewrite bool_decide_eq_false_2; [reflexivity|].
        rewrite elem_of_cons. intros [->|?]; contradiction.
Qed.

Lemma dict_set_names_prefix {V} (k : string) (v : V) d :
  map fst d `prefix_of` map fst (dict_set k v d).
Proof.
  rewrite dict_set_names. destruct (bool_decide _); [reflexivity|].
  now apply prefix_app_r.
Qed.

#[local] Instance names_kept_preorder :
  PreOrder (fun st st' : St => registry_names st `prefix_of` registry_names st').
Proof.
  split.
  - intros st. reflexivity.
  - intros s1 s2 s3 H12 H23. etransitivity; eassumption.
Qed.

Lemma Distribution_init_names n r :
  preserves (fun st st' => registry_names st `prefix_of` registry_names st')
    (Distribution_init n r).
Proof.
  intros st.
  destruct (Distribution_init_cases n r st) as [(msg & _ & msg' & ->)|(ca & _ & ->)]; simpl.
  - reflexivity.
  - apply dict_set_names_prefix.
Qed.

Lemma read_distributions_names rows :
  preserves (fun st st' => registry_names st `prefix_of` registry_names st')
    (read_distributions rows).
Proof.
  intros st. unfold registry_names. rewrite read_distributions_registers.
  generalize (instances st) as reg.
  induction (registrations rows) as [|d ds IH]; intros reg; simpl; [reflexivity|].
  etransitivity; [|apply IH]. apply dict_set_names_prefix.
Qed.

(** X2.  The registry keeps the order of first registration.  A
    registration under a name the registry has keeps the names as they
    are, one under a new name puts the name last; so, whatever is
    registered later, in code or from tables, and whether or not a
    registration raises, the names [distributions] lists now stay the
    first names it lists, in the same order. *)
Theorem registry_keeps_first_registration_order :
  (forall n r st d st',
      Distribution_init n r st = (Ok d, st') ->
      registry_names st'
      = if bool_decide (n ∈ registry_names st) then registry_names st
        else registry_names st ++ [n])
  /\ (forall ops st, registry_names st `prefix_of` registry_names (run_ops ops st)).
Proof.
  split.
  - intros n r st d st' Hinit.
    destruct (Distribution_init_cases n r st) as [(msg & _ & msg' & Hr)|(ca & _ & Hr)];
      rewrite Hr in Hinit; [discriminate|].
    injection Hinit as _ <-. apply dict_set_names.
  - intros ops. induction ops as [|op ops IH]; intros st; simpl; [reflexivity|].
    etransitivity; [|apply IH].
    destruct op as [n r|rows]; simpl.
    + unfold bind.
      pose proof (Distribution_init_names n r st) as H.
      destruct (Distribution_init n r st) as [[d|e] st1]; exact H.
    + apply read_distributions_names.
Qed.

(** ** Reading a table again *)

Lemma register_all_cons d ds reg :
  register_all (d :: ds) reg = register_all ds (dict_set (full_name d) d reg).
Proof. reflexivity. Qed.

Lemma register_all_get k ds : forall reg,
  dict_get k (register_all ds reg)
  = match last_named k ds with
    | Some x => Some x
    | None => dict_get k reg
    end.
Proof.
  induction ds as [|d ds IH]; intros reg; [reflexivity|].
  rewrite register_all_cons, IH. simpl.
  destruct (last_named k ds); [reflexivity|].
  destruct (String.eqb (full_name d) k) eqn:Hk.
  - apply String.eqb_eq in Hk. subst k. apply dict_get_set_eq.
  - apply String.eqb_neq in Hk. now apply dict_get_set_ne.
Qed.

Lemma register_all_NoDup ds : forall reg,
  NoDup (map fst reg) -> NoDup (map fst (register_all ds reg)).
Proof.
  induction ds as [|d ds IH]; intros reg Hnd; [assumption|].
  rewrite register_all_cons. apply IH. now apply dict_set_NoDup.
Qed.

Lemma register_all_names_in ds : forall reg x,
  x ∈ map fst (register_all ds reg) <-> x ∈ map full_name ds \/ x ∈ map fst reg.
Proof.
  induction ds as [|d ds IH]; intros reg x.
  - simpl. split; [auto|]. intros [H|H]; [inversion H | assumption].
  - rewrite register_all_cons, IH, dict_set_keys_in. simpl.
    rewrite elem_of_cons. tauto.
Qed.

(** Registering under names the registry has keeps the names. *)
Lemma register_all_names_present ds : forall reg,
  (forall d, d ∈ ds -> full_name d ∈ map fst reg) ->
  map fst (register_all ds reg) = map fst reg.
Proof.
  induction ds as [|d ds IH]; intros reg Hin; [reflexivity|].
  assert (Hd : map fst (dict_set (full_name d) d reg) = map fst reg).
  { rewrite dict_set_names, bool_decide_eq_true_2; [reflexivity|].
    apply Hin, list_elem_of_here. }
  rewrite register_all_cons, IH; [exact Hd|].
  intros d' Hd'. rewrite Hd. now apply Hin, list_elem_of_further.
Qed.

(** Two dicts with the same keys in the same order and the same value
    under every key are the same dict. *)
Lemma dict_ext {V} (d1 d2 : list (string * V)) :
  NoDup (map fst d1) ->
  map fst d1 = map fst d2 ->
  (forall k, dict_get k d1 = dict_get k d2) ->
  d1 = d2.
Proof.
  revert d2. induction d1 as [|[k1 v1] d1 IH]; intros [|[k2 v2] d2] Hnd Hkeys Hget;
    try discriminate; [reflexivity|].
  simpl in Hkeys. injection Hkeys as <- Hkeys.
  apply NoDup_cons in Hnd as [Hnotin Hnd].
  pose proof (Hget k1) as Hhead. simpl in Hhead. rewrite String.eqb_refl in Hhead.
  injection Hhead as <-. f_equal.
  apply IH; [assumption | assumption |].
  intros k. specialize (Hget k). simpl in Hget.
  destruct (String.eqb k1 k) eqn:Hk; [|exact Hget].
  apply String.eqb_eq in Hk. subst k.
  assert (Hnone : forall d : list (string * V), k1 ∉ map fst d -> dict_get k1 d = None).
  { clear. intros d. induction d as [|[k v] d IHd]; simpl; [reflexivity|].
    rewrite not_elem_of_cons. intros [Hne Hd].
    destruct (String.eqb k k1) eqn:Hk; [|auto].
    apply String.eqb_eq in Hk. congruence. }
  rewrite (Hnone d1 Hnotin). symmetry. apply Hnone. now rewrite <- Hkeys.
Qed.

Lemma register_all_twice ds reg :
  NoDup (map fst reg) ->
  register_all ds (register_all ds reg) = register_all ds reg.
Proof.
  intros Hnd. apply dict_ext.
  - now apply register_all_NoDup, register_all_NoDup.
  - apply register_all_names_present. intros d Hd.
    apply register_all_names_in. left.
    apply list_elem_of_In, in_map, list_elem_of_In, Hd.
  - intros k. rewrite register_all_get.
    destruct (last_named k ds) as [x|] eqn:Hlast; [|reflexivity].
    now rewrite register_all_get, Hlast.
Qed.

(** X3.  Reading a table a second time changes nothing in the
    registry: when a table was read to its end, reading it again
    succeeds and leaves every name with the distribution it had, the
    names in the order they had. *)
Theorem rereading_a_table_keeps_the_registry :
  forall rows st st1,
    NoDup (registry_names st) ->
    read_distributions rows st = (Ok tt, st1) ->
    exists st2,
      read_distributions rows st1 = (Ok tt, st2)
      /\ instances st2 = instances st1.
Proof.
  intros rows st st1 Hnd Hread.
  pose proof (read_distributions_result rows st1 st) as Hres.
  pose proof (read_distributions_registers rows st1) as Hreg1.
  pose proof (read_distributions_registers rows st) as Hreg.
  rewrite Hread in Hres, Hreg. simpl in Hres, Hreg.
  destruct (read_distributions rows st1) as [r st2]. simpl in *. subst r.
  exists st2. split; [reflexivity|].
  rewrite Hreg1, Hreg. now apply register_all_twice.
Qed.

(** ** Looking up attributes *)

Lemma split_attr_name_bare a :
  has_char "." a = false -> split_attr_name a = Ok (None, a).
Proof. intros H. unfold split_attr_name. now rewrite split_on_whole. Qed.

Lemma split_on_prefix sep p s :
  has_char sep p = false ->
  split_on sep (p +:+ String sep s) = p :: split_on sep s.
Proof.
  induction p as [|c p IH]; simpl.
  - intros _. now rewrite Ascii.eqb_refl.
  - intros H. apply orb_false_iff in H as [Hc Hp]. now rewrite Hc, (IH Hp).
Qed.

Lemma split_attr_name_Field a :
  has_char "." a = false -> split_attr_name ("Field." +:+ a) = Ok (Some "Field", a).
Proof.
  intros H. unfold split_attr_name.
  change ("Field." +:+ a) with ("Field" +:+ String "." a).
  rewrite split_on_prefix by reflexivity. now rewrite (split_on_whole _ _ H).
Qed.

Lemma length_append (s1 s2 : string) :
  String.length (s1 +:+ s2) = (String.length s1 + String.length s2)%nat.
Proof. induction s1 as [|c s1 IH]; simpl; [reflexivity | now rewrite IH]. Qed.

Lemma append_longer (p a : string) : p <> EmptyString -> a <> p +:+ a.
Proof.
  intros Hp Heq. apply (f_equal String.length) in Heq.
  rewrite length_append in Heq.
  destruct p; [contradiction|]. simpl in Heq. lia.
Qed.

(** X4.  A bare attribute name and the same name qualified by [Field]
    are two names for one attribute: registered one after the other they
    are two entries of the registry, [lookup] resolves both to the same
    attribute of the field, and [generate] gives both the same column
    name, the bare one. *)
Theorem bare_and_Field_names_are_aliases :
  forall a r1 r2 st,
    has_char "." a = false ->
    exists d1 d2 st1 st2,
      Distribution_init a r1 st = (Ok d1, st1)
      /\ Distribution_init ("Field." +:+ a) r2 st1 = (Ok d2, st2)
      /\ distro_by_name a st2 = Some d1
      /\ distro_by_name ("Field." +:+ a) st2 = Some d2
      /\ d1 <> d2
      /\ column_name d1 = a
      /\ column_name d2 = a
      /\ forall field s, lookup (full_name d1) field s = lookup (full_name d2) field s.
Proof.
  intros a r1 r2 st Hdot.
  assert (Hne : a <> "Field." +:+ a) by (apply append_longer; discriminate).
  destruct (Distribution_init_cases a r1 st) as [(msg & Hbad & _)|(ca1 & Hca1 & Hinit1)];
    [rewrite split_attr_name_bare in Hbad by assumption; discriminate|].
  rewrite split_attr_name_bare in Hca1 by assumption. injection Hca1 as <-.
  rewrite Hinit1. simpl. eexists _, _, _, _. split; [reflexivity|].
  match goal with |- Distribution_init _ _ ?s = _ /\ _ => set (st1 := s) end.
  destruct (Distribution_init_cases ("Field." +:+ a) r2 st1)
    as [(msg & Hbad & _)|(ca2 & Hca2 & Hinit2)];
    [rewrite split_attr_name_Field in Hbad by assumption; discriminate|].
  rewrite split_attr_name_Field in Hca2 by assumption. injection Hca2 as <-.
  split; [exact Hinit2|]. unfold distro_by_name. simpl.
  split.
  { rewrite dict_get_set_ne by (intros Heq; now apply Hne). apply dict_get_set_eq. }
  split; [apply dict_get_set_eq|].
  split; [intros [= Heq]; now apply Hne|].
  split; [reflexivity|]. split; [reflexivity|].
  intros field s. simpl. symmetry.
  eapply lookup_same_parts;
    [now apply split_attr_name_Field | now apply split_attr_name_bare | auto].
Qed.

Lemma lookup_obj_owner c field st :
  lookup_obj c field st
  = (match owner_of_class c field (analysis (self st)) with
     | None => Raise (OtherError "'NoneType' object has no attribute")
     | Some (id, OwProcess f cls) =>
         match heap st !! id with
         | None => Raise (OtherError "no such model object")
         | Some m =>
             match owner_attr_dict m (OwProcess f cls) with
             | Some _ => Ok (id, OwProcess f cls)
             | None => Raise (McsUserError
                                ("A process of class '" +:+ cls +:+ "' was not found in "
                                   +:+ str_obj (OwField (f_name field))))
             end
         end
     | Some o => Ok o
     end, st).
Proof.
  unfold lookup_obj, owner_of_class.
  destruct c as [c|]; [|reflexivity].
  destruct (String.eqb c "Field"); [reflexivity|].
  destruct (String.eqb c "Analysis").
  - unfold self_analysis. unfold_py. now destruct (analysis (self st)).
  - unfold get_model. unfold_py.
    destruct (heap st !! f_model field) as [m|]; [|reflexivity]. simpl.
    now destruct (field_dict m !! f_name field) as [fd|]; simpl;
      [destruct (field_processes fd !! c)|].
Qed.

Lemma attr_ref_readable id o a st r :
  ((m <- get_model id ;;
    match owner_attr_dict m o with
    | None => raise (OtherError "no such object")
    | Some d =>
        match d !! a with
        | None => raise (McsUserError
                           ("The attribute '" +:+ a +:+ "' was not found in '"
                              +:+ str_obj o +:+ "'"))
        | Some _ => ret (mkAttrRef id o a)
        end
    end) st).1 = Ok r ->
  r = mkAttrRef id o a /\ exists x, read_attr r st = (Ok x, st).
Proof.
  unfold get_model, read_attr, attr_in. unfold_py.
  destruct (heap st !! id) as [m|] eqn:Hm; [|discriminate]. simpl.
  destruct (owner_attr_dict m o) as [d|] eqn:Hd; [|discriminate].
  destruct (d !! a) as [x|] eqn:Hx; [|discriminate].
  intros [= <-]. split; [reflexivity|]. simpl. unfold get_model. unfold_py.
  rewrite Hm. simpl. rewrite Hd. simpl. rewrite Hx. eauto.
Qed.

(** X5.  [lookup] only reads, and what it returns is an attribute that
    exists: the attribute named by the second part of the name, in the
    field when the name is bare or of class [Field], in the analysis of
    the simulation when it is of class [Analysis], and otherwise in the
    process of that class of the field; the attribute can then be read
    in the same state. *)
Theorem lookup_returns_an_existing_attribute :
  forall name field st,
    (lookup name field st).2 = st
    /\ forall r,
         (lookup name field st).1 = Ok r ->
         exists c a,
           split_attr_name name = Ok (c, a)
           /\ owner_of_class c field (analysis (self st)) = Some (at_model r, at_owner r)
           /\ at_name r = a
           /\ exists x, read_attr r st = (Ok x, st).
Proof.
  intros name field st. split.
  { symmetry. apply (lookup_ro name field st). }
  intros r. unfold lookup. unfold bind at 1, lift.
  destruct (split_attr_name name) as [[c a]|e]; [|discriminate]. simpl.
  unfold bind at 1. rewrite lookup_obj_owner.
  destruct (owner_of_class c field (analysis (self st))) as [[id o]|] eqn:Hown;
    [|discriminate].
  assert (Hdone : forall r0, r0 = mkAttrRef id o a /\ (exists x, read_attr r0 st = (Ok x, st)) ->
            exists c0 a0,
              Ok (c, a) = Ok (c0, a0)
              /\ owner_of_class c0 field (analysis (self st))
                 = Some (at_model r0, at_owner r0)
              /\ at_name r0 = a0
              /\ exists x, read_attr r0 st = (Ok x, st)).
  { intros r0 [-> Hread]. exists c, a. rewrite Hown. auto. }
  destruct o as [f|an|f cls].
  - intros H. simpl in H. now apply Hdone, attr_ref_readable.
  - intros H. simpl in H. now apply Hdone, attr_ref_readable.
  - destruct (heap st !! id) as [m|]; [|discriminate].
    destruct (owner_attr_dict m (OwProcess f cls)); [|discriminate].
    intros H. simpl in H. now apply Hdone, attr_ref_readable.
Qed.

(** ** Reading the trial data of a field *)

(** The state after the table [df] was read from [p] and cached. *)
Lemma field_trial_data_from_file field st df :
  trial_data_df (self st) = None ->
  fs st !! pathjoin (pathjoin (pathname (self st)) (f_name field)) TRIAL_DATA_CSV
  = Some (File (Csv df)) ->
  df_index_name df = Some "trial_num" ->
  field_trial_data (ByObj field) st
  = (Ok df,
     with_self (set_trial_data_df (Some df) (self st))
       (with_trace
          (trace st ++ [EvRead (pathjoin (pathjoin (pathname (self st)) (f_name field))
                                  TRIAL_DATA_CSV)]) st)).
Proof.
  intros Hdf Hfile Hidx.
  unfold field_trial_data, trial_data_path, field_dir, lexists, read_csv, open_read.
  unfold_py. rewrite Hdf. simpl. rewrite Hfile. simpl. rewrite Hfile. simpl.
  rewrite bool_decide_eq_true_2 by assumption. reflexivity.
Qed.


(** ** The trials of a generated table *)

Lemma find_indexed (t : Z) (data : list (list Q)) : forall k : nat,
  List.find (fun r : Z * list Q => Z.eqb r.1 t)
    (imap (fun i r => (Z.of_nat (k + i), r)) data)
  = if (Z.of_nat k <=? t)%Z
    then (fun r => (t, r)) <$> data !! (Z.to_nat t - k)%nat
    else None.
Proof.
  induction data as [|r data IH]; intros k.
  - simpl. now destruct (Z.of_nat k <=? t)%Z.
  - rewrite imap_cons. cbn [List.find fst].
    rewrite (imap_ext _ (fun i r => (Z.of_nat (S k + i), r)))
      by (intros i x _; cbn [compose]; do 2 f_equal; lia).
    rewrite Nat.add_0_r. destruct (Z.of_nat k =? t)%Z eqn:Heq.
    + apply Z.eqb_eq in Heq. subst t.
      rewrite Z.leb_refl, Nat2Z.id, Nat.sub_diag. reflexivity.
    + apply Z.eqb_neq in Heq. rewrite IH.
      destruct (Z.of_nat k <=? t)%Z eqn:Hle.
      * apply Z.leb_le in Hle.
        rewrite (proj2 (Z.leb_le (Z.of_nat (S k)) t)) by lia.
        replace (Z.to_nat t - k)%nat with (S (Z.to_nat t - S k)) by lia.
        reflexivity.
      * apply Z.leb_gt in Hle.
        now rewrite (proj2 (Z.leb_gt (Z.of_nat (S k)) t)) by lia.
Qed.

Lemma df_loc_generated cols data t :
  df_loc (generated_table cols data) t
  = if (0 <=? t)%Z then zip cols <$> data !! Z.to_nat t else None.
Proof.
  unfold df_loc, generated_table, set_index_name, lhs_frame. simpl.
  change (imap (fun i r => (Z.of_nat i, r)) data)
    with (imap (fun i r => (Z.of_nat (0 + i), r)) data).
  rewrite (find_indexed t data 0). rewrite Nat.sub_0_r.
  change (Z.of_nat 0) with 0%Z.
  destruct (0 <=? t)%Z; [|reflexivity].
  now destruct (data !! Z.to_nat t).
Qed.

(** X7.  The table [generate] makes for a field holds the trials
    sampled, numbered from 0: once the field is generated, [trial_data]
    returns, for a trial number below the number of rows sampled, the
    values of that row paired with the columns selected for the field,
    and raises [McsSystemError] for any other trial number; in both
    cases from the cache, without reading a file. *)
Theorem generated_table_holds_the_trials_sampled :
  forall n corr field st st',
    generate_field n corr field st = (Ok tt, st') ->
    exists cols rvs data,
      (select_columns field (distributions st) [] [] st).1 = Ok (cols, rvs)
      /\ lhs_sample rvs n corr = Ok data
      /\ (forall field' t row,
            (0 <= t)%Z -> data !! Z.to_nat t = Some row ->
            trial_data (ByObj field') t st' = (Ok (zip cols row), st'))
      /\ (forall field' t,
            (t < 0)%Z \/ (length data <= Z.to_nat t)%nat ->
            exists msg,
              trial_data (ByObj field') t st' = (Raise (McsSystemError msg), st')).
Proof.
  intros n corr field st st'. rewrite generate_field_cases.
  destruct (select_columns field (distributions st) [] [] st).1
    as [[[|c cols] rvs]|e]; try discriminate.
  destruct (lhs_sample rvs n corr) as [data|e] eqn:Hlhs; [|discriminate].
  intros [= <-]. exists (c :: cols), rvs, data.
  split; [reflexivity|]. split; [exact Hlhs|].
  assert (Hdf : trial_data_df (self (generated_state field (c :: cols) data st))
                = Some (generated_table (c :: cols) data)) by reflexivity.
  split.
  - intros field' t row Ht Hrow.
    rewrite (trial_data_cached field' t _ _ Hdf), df_loc_generated.
    rewrite (proj2 (Z.leb_le 0 t)) by assumption. now rewrite Hrow.
  - intros field' t Ht.
    rewrite (trial_data_cached field' t _ _ Hdf), df_loc_generated.
    destruct (0 <=? t)%Z eqn:Hle; [|eauto].
    apply Z.leb_le in Hle. destruct Ht as [Ht|Ht]; [lia|].
    rewrite (lookup_ge_None_2 data _ Ht). simpl. eauto.
Qed.

(** ** Setting the values of a trial *)

#[local] Instance Owner_eq_dec : EqDecision Owner.
Proof. solve_decision. Defined.

Lemma owner_attr_dict_set_same m o d d0 :
  owner_attr_dict m o = Some d0 ->
  owner_attr_dict (set_owner_attr_dict o d m) o = Some d.
Proof.
  destruct o as [f|a|f c]; simpl.
  - rewrite lookup_alter_eq. destruct (field_dict m !! f); [reflexivity|discriminate].
  - rewrite lookup_alter_eq. destruct (analysis_dict m !! a); [reflexivity|discriminate].
  - rewrite lookup_alter_eq. destruct (field_dict m !! f) as [fd|]; [|discriminate].
    simpl. intros _. apply lookup_insert_eq.
Qed.

Lemma owner_attr_dict_set_other m o o' d :
  o <> o' ->
  owner_attr_dict (set_owner_attr_dict o d m) o' = owner_attr_dict m o'.
Proof.
  intros Hne. destruct o as [f|a|f c], o' as [f'|a'|f' c']; simpl; try reflexivity.
  - rewrite lookup_alter_ne by congruence. reflexivity.
  - destruct (decide (f = f')) as [->|Hf].
    + rewrite lookup_alter_eq. now destruct (field_dict m !! f').
    + now rewrite lookup_alter_ne.
  - rewrite lookup_alter_ne by congruence. reflexivity.
  - destruct (decide (f = f')) as [->|Hf].
    + rewrite lookup_alter_eq. now destruct (field_dict m !! f').
    + now rewrite lookup_alter_ne.
  - destruct (decide (f = f')) as [->|Hf].
    + rewrite lookup_alter_eq. destruct (field_dict m !! f'); [|reflexivity]. simpl.
      apply lookup_insert_ne. congruence.
    + now rewrite lookup_alter_ne.
Qed.

Lemma attr_in_set_same m o a v x :
  attr_in m o a = Some x -> attr_in (set_attr_in m o a v) o a = Some (mkAttr true v).
Proof.
  unfold attr_in, set_attr_in.
  destruct (owner_attr_dict m o) as [d|] eqn:Hd; [|discriminate]. intros _.
  rewrite (owner_attr_dict_set_same m o _ d Hd). simpl. apply lookup_insert_eq.
Qed.

Lemma attr_in_set_other m o a v o' a' :
  (o, a) <> (o', a') -> attr_in (set_attr_in m o a v) o' a' = attr_in m o' a'.
Proof.
  intros Hne. unfold attr_in, set_attr_in.
  destruct (owner_attr_dict m o) as [d|] eqn:Hd; [|reflexivity].
  destruct (decide (o = o')) as [<-|Ho].
  - rewrite (owner_attr_dict_set_same m o _ d Hd), Hd. simpl.
    apply lookup_insert_ne. congruence.
  - now rewrite owner_attr_dict_set_other.
Qed.

Lemma same_shape_refl m : same_shape m m.
Proof. intros o. now destruct (owner_attr_dict m o). Qed.

Lemma same_shape_trans m1 m2 m3 : same_shape m1 m2 -> same_shape m2 m3 -> same_shape m1 m3.
Proof.
  intros H12 H23 o. specialize (H12 o). specialize (H23 o).
  destruct (owner_attr_dict m1 o) as [d1|], (owner_attr_dict m2 o) as [d2|],
    (owner_attr_dict m3 o) as [d3|]; try contradiction; [|exact I].
  intros x. now rewrite H12, H23.
Qed.

Lemma same_shape_set m o a v x :
  attr_in m o a = Some x -> same_shape m (set_attr_in m o a v).
Proof.
  intros Hx o'. unfold attr_in in Hx. unfold set_attr_in.
  destruct (owner_attr_dict m o) as [d|] eqn:Hd; [|discriminate]. simpl in Hx.
  destruct (decide (o = o')) as [<-|Ho].
  - rewrite (owner_attr_dict_set_same m o _ d Hd), Hd.
    intros a'. destruct (decide (a = a')) as [<-|Ha].
    + rewrite Hx. split; [|eauto]. intros _. eexists. apply lookup_insert_eq.
    + assert (Hsame : <[a:=mkAttr true v]> d !! a' = d !! a')
        by (now apply lookup_insert_ne).
      now rewrite Hsame.
  - rewrite owner_attr_dict_set_other by assumption.
    destruct (owner_attr_dict m o'); [reflexivity | exact I].
Qed.

#[local] Instance same_names_preorder : PreOrder same_names.
Proof.
  split.
  - intros st. split; [reflexivity|]. intros id.
    destruct (heap st !! id); [apply same_shape_refl | exact I].
  - intros s1 s2 s3 [Ha12 Hh12] [Ha23 Hh23]. split; [congruence|].
    intros id. specialize (Hh12 id). specialize (Hh23 id).
    destruct (heap s1 !! id), (heap s2 !! id), (heap s3 !! id); try contradiction;
      [eapply same_shape_trans; eassumption | exact I].
Qed.

(** [lookup] resolves a name in the same way in two states with the
    same names. *)
Lemma lookup_same_names n field st st' :
  same_names st st' -> (lookup n field st').1 = (lookup n field st).1.
Proof.
  intros [Han Hheap]. unfold lookup. unfold bind at 1 4, lift.
  destruct (split_attr_name n) as [[c a]|e]; [|reflexivity]. simpl.
  unfold bind at 1 3. rewrite !lookup_obj_owner, Han.
  destruct (owner_of_class c field (analysis (self st))) as [[id o]|]; [|reflexivity].
  assert (Htail : forall o0,
             ((m <- get_model id ;;
               match owner_attr_dict m o0 with
               | None => raise (OtherError "no such object")
               | Some d =>
                   match d !! a with
                   | None => raise (McsUserError
                                      ("The attribute '" +:+ a +:+ "' was not found in '"
                                         +:+ str_obj o0 +:+ "'"))
                   | Some _ => ret (mkAttrRef id o0 a)
                   end
               end) st').1
             = ((m <- get_model id ;;
                 match owner_attr_dict m o0 with
                 | None => raise (OtherError "no such object")
                 | Some d =>
                     match d !! a with
                     | None => raise (McsUserError
                                        ("The attribute '" +:+ a +:+ "' was not found in '"
                                           +:+ str_obj o0 +:+ "'"))
                     | Some _ => ret (mkAttrRef id o0 a)
                     end
                 end) st).1).
  { intros o0. unfold get_model. unfold_py. specialize (Hheap id).
    destruct (heap st !! id) as [m|], (heap st' !! id) as [m'|]; try contradiction;
      [|reflexivity]. simpl.
    specialize (Hheap o0).
    destruct (owner_attr_dict m o0) as [d|], (owner_attr_dict m' o0) as [d'|];
      try contradiction; [|reflexivity].
    specialize (Hheap a).
    destruct (d !! a) as [x|] eqn:Hx, (d' !! a) as [x'|] eqn:Hx'; try reflexivity.
    - destruct (proj1 Hheap) as [? [=]]. eauto.
    - destruct (proj2 Hheap) as [? [=]]. eauto. }
  destruct o as [f|an|f cls]; try apply Htail.
  pose proof (Hheap id) as Hid.
  destruct (heap st !! id) as [m|], (heap st' !! id) as [m'|]; try contradiction;
    [|reflexivity].
  pose proof (Hid (OwProcess f cls)) as Hproc.
  destruct (owner_attr_dict m (OwProcess f cls)), (owner_attr_dict m' (OwProcess f cls));
    try contradiction; [apply Htail | reflexivity].
Qed.

Lemma read_attr_attr_at r st a :
  read_attr r st = (Ok a, st) <-> attr_at r st = Some a.
Proof.
  unfold read_attr, attr_at, get_model. unfold_py.
  destruct (heap st !! at_model r) as [m|]; simpl; [|split; discriminate].
  destruct (attr_in m (at_owner r) (at_name r)); split; congruence.
Qed.


Lemma lookup_ok_attr_at n field st r :
  (lookup n field st).1 = Ok r -> exists x, attr_at r st = Some x.
Proof.
  unfold lookup. unfold bind at 1, lift.
  destruct (split_attr_name n) as [[c a]|e]; [|discriminate]. simpl.
  unfold bind at 1. rewrite lookup_obj_owner.
  destruct (owner_of_class c field (analysis (self st))) as [[id o]|]; [|discriminate].
  assert (Hdone : forall r0,
             r0 = mkAttrRef id o a /\ (exists x, read_attr r0 st = (Ok x, st)) ->
             exists x, attr_at r0 st = Some x).
  { intros r0 [_ [x Hx]]. exists x. now apply read_attr_attr_at. }
  destruct o as [f|an|f cls].
  - intros H. simpl in H. now apply Hdone, attr_ref_readable.
  - intros H. simpl in H. now apply Hdone, attr_ref_readable.
  - destruct (heap st !! id) as [m|]; [|discriminate].
    destruct (owner_attr_dict m (OwProcess f cls)); [|discriminate].
    intros H. simpl in H. now apply Hdone, attr_ref_readable.
Qed.

(** The state [set_explicit_value] leaves. *)
Lemma set_explicit_value_valid r v st x :
  attr_at r st = Some x ->
  exists m,
    heap st !! at_model r = Some m
    /\ set_explicit_value r v st
       = (Ok tt,
          with_heap (<[at_model r := set_attr_in m (at_owner r) (at_name r) v]> (heap st))
            (with_trace (trace st ++ [EvSetValue r v]) st)).
Proof.
  unfold attr_at, set_explicit_value, get_model, put_model. unfold_py.
  destruct (heap st !! at_model r) as [m|]; [|discriminate]. intros _.
  exists m. split; reflexivity.
Qed.

Lemma attr_at_set_same r v st x m :
  attr_at r st = Some x ->
  heap st !! at_model r = Some m ->
  attr_at r (with_heap (<[at_model r := set_attr_in m (at_owner r) (at_name r) v]> (heap st))
               (with_trace (trace st ++ [EvSetValue r v]) st))
  = Some (mkAttr true v).
Proof.
  unfold attr_at. simpl. intros Hx Hm. rewrite Hm in Hx. simpl in Hx.
  rewrite list_lookup_insert_eq by (now apply lookup_lt_Some in Hm). simpl.
  now apply attr_in_set_same with x.
Qed.

Lemma attr_at_set_other r r' v st m :
  r' <> r ->
  heap st !! at_model r = Some m ->
  attr_at r' (with_heap (<[at_model r := set_attr_in m (at_owner r) (at_name r) v]> (heap st))
                (with_trace (trace st ++ [EvSetValue r v]) st))
  = attr_at r' st.
Proof.
  unfold attr_at. simpl. intros Hne Hm.
  destruct (decide (at_model r = at_model r')) as [Heq|Hid].
  - rewrite <- Heq, Hm.
    rewrite list_lookup_insert_eq by (now apply lookup_lt_Some in Hm). simpl.
    apply attr_in_set_other. intros [= Ho Ha]. apply Hne.
    destruct r, r'. simpl in *. congruence.
  - now rewrite list_lookup_insert_ne.
Qed.

Lemma same_names_set r v st x m :
  attr_at r st = Some x ->
  heap st !! at_model r = Some m ->
  same_names st
    (with_heap (<[at_model r := set_attr_in m (at_owner r) (at_name r) v]> (heap st))
       (with_trace (trace st ++ [EvSetValue r v]) st)).
Proof.
  intros Hx Hm. split; [reflexivity|]. intros id. simpl.
  unfold attr_at in Hx. rewrite Hm in Hx. simpl in Hx.
  destruct (decide (at_model r = id)) as [<-|Hid].
  - rewrite Hm, list_lookup_insert_eq by (now apply lookup_lt_Some in Hm).
    exact (same_shape_set m (at_owner r) (at_name r) v x Hx).
  - rewrite list_lookup_insert_ne by assumption.
    destruct (heap st !! id); [apply same_shape_refl | exact I].
Qed.

(** What the loop over the values of a trial leaves: every name of the
    row resolves as before, the attribute of each value holds it unless
    a later value is for the same attribute, and the other attributes
    are as they were. *)
Lemma set_values_spec field data : forall st st',
  set_values field data st = (Ok tt, st') ->
  same_names st st'
  /\ (forall i name v,
        data !! i = Some (name, v) ->
        exists r,
          (lookup name field st).1 = Ok r
          /\ ((forall j name' v',
                  (i < j)%nat -> data !! j = Some (name', v') ->
                  (lookup name' field st).1 <> Ok r) ->
              attr_at r st' = Some (mkAttr true v)))
  /\ (forall r',
        (forall name v, (name, v) ∈ data -> (lookup name field st).1 <> Ok r') ->
        attr_at r' st' = attr_at r' st).
Proof.
  induction data as [|[n v] rest IH]; intros st st'.
  - intros [= <-]. split; [reflexivity|]. split; [|reflexivity].
    intros i name v H. discriminate H.
  - unfold set_values. simpl for_each. unfold bind at 1. unfold bind at 1.
    rewrite (read_only_run (lookup n field)) by apply lookup_ro. simpl.
    destruct (lookup n field st).1 as [r|e] eqn:Hlk; [|discriminate].
    destruct (lookup_ok_attr_at n field st r Hlk) as [x Hx].
    destruct (set_explicit_value_valid r v st x Hx) as (m & Hm & ->).
    set (st1 := with_heap _ _).
    fold (set_values field rest). intros Hrest.
    destruct (IH st1 st' Hrest) as (Hnames1 & Hall1 & Hframe1).
    pose proof (same_names_set r v st x m Hx Hm) as Hnames0. fold st1 in Hnames0.
    assert (Hlook : forall name, (lookup name field st1).1 = (lookup name field st).1)
      by (intros name; now apply lookup_same_names).
    split; [etransitivity; eassumption|]. split.
    + intros [|i] name v0 Hi.
      * injection Hi as <- <-. exists r. split; [exact Hlk|]. intros Hlater.
        rewrite Hframe1; [now apply attr_at_set_same with x|].
        intros name' v' Hin. apply list_elem_of_lookup in Hin as [j Hj].
        rewrite Hlook. apply (Hlater (S j) name' v'); [lia | exact Hj].
      * destruct (Hall1 i name v0 Hi) as (ri & Hri & Hset).
        exists ri. split; [now rewrite <- Hlook|]. intros Hlater. apply Hset.
        intros j name' v' Hij Hj. rewrite Hlook.
        apply (Hlater (S j) name' v'); [lia | exact Hj].
    + intros r' Hnot. rewrite Hframe1.
      * apply attr_at_set_other; [|exact Hm].
        intros ->. apply (Hnot n v); [apply list_elem_of_here | exact Hlk].
      * intros name v0 Hin. rewrite Hlook. apply (Hnot name v0).
        now apply list_elem_of_further.
Qed.

Lemma trial_data_models_kept field t st :
  models_kept st (trial_data (ByObj field) t st).2.
Proof.
  unfold trial_data. unfold bind at 1.
  destruct (field_trial_data (ByObj field) st) as [r s0] eqn:Hread.
  destruct (field_trial_data_post field st r s0 Hread) as (_ & Hkept & _).
  destruct r as [df|e]; [|exact Hkept].
  destruct (df_loc df t); [exact Hkept|].
  unfold trial_data_path, field_dir. unfold_py. exact Hkept.
Qed.

Lemma models_kept_same_names st st' : models_kept st st' -> same_names st st'.
Proof.
  intros [Hheap Han]. split; [exact Han|]. intros id. rewrite Hheap.
  destruct (heap st !! id); [apply same_shape_refl | exact I].
Qed.

Lemma models_kept_attr_at r st st' : models_kept st st' -> attr_at r st' = attr_at r st.
Proof. intros [Hheap _]. unfold attr_at. now rewrite Hheap. Qed.

(** X8.  When [set_trial_data] returns, the values of the trial are in
    the model: each name of the row of the trial resolves to an
    attribute of the field (or of its analysis or processes), and that
    attribute is explicit and holds the value of the row, unless a
    later name of the row resolves to the same attribute, whose value
    it then holds; an attribute no name of the row resolves to is as
    it was before. *)
Theorem set_trial_data_sets_the_attributes :
  forall field t st st',
    set_trial_data field t st = (Ok tt, st') ->
    exists data,
      (trial_data (ByObj field) t st).1 = Ok data
      /\ (forall i name v,
            data !! i = Some (name, v) ->
            exists r,
              (lookup name field st').1 = Ok r
              /\ ((forall j name' v',
                      (i < j)%nat -> data !! j = Some (name', v') ->
                      (lookup name' field st').1 <> Ok r) ->
                  read_attr r st' = (Ok (mkAttr true v), st')))
      /\ (forall r',
            (forall name v, (name, v) ∈ data -> (lookup name field st').1 <> Ok r') ->
            attr_at r' st' = attr_at r' st).
Proof.
  intros field t st st'. unfold set_trial_data. unfold bind at 1.
  pose proof (trial_data_models_kept field t st) as Hkept.
  destruct (trial_data (ByObj field) t st) as [[data|e] s0]; [|discriminate].
  simpl in Hkept. fold (set_values field data). intros Hset.
  destruct (set_values_spec field data s0 st' Hset) as (Hnames & Hall & Hframe).
  assert (Hlook : forall name, (lookup name field st').1 = (lookup name field s0).1)
    by (intros name; now apply lookup_same_names).
  exists data. split; [reflexivity|]. split.
  - intros i name v Hi. destruct (Hall i name v Hi) as (r & Hr & Hval).
    exists r. split; [now rewrite Hlook|]. intros Hlater.
    apply read_attr_attr_at, Hval.
    intros j name' v' Hij Hj. rewrite <- Hlook. now apply (Hlater j name' v').
  - intros r' Hnot. rewrite Hframe.
    + now apply models_kept_attr_at.
    + intros name v Hin. rewrite <- Hlook. now apply (Hnot name v).
Qed.

(** ** Trials without trial data *)

Lemma table_source_missing fname st :
  trial_data_df (self st) = None ->
  fs st !! pathjoin (pathjoin (pathname (self st)) fname) TRIAL_DATA_CSV = None ->
  table_source fname st
  = Raise (McsSystemError
             ("Can't read trial data: '"
                +:+ path_str (pathjoin (pathjoin (pathname (self st)) fname) TRIAL_DATA_CSV)
                +:+ "' doesn't exist.")).
Proof.
  intros Hdf Hfile.
  unfold table_source, field_trial_data, trial_data_path, field_dir, lexists.
  unfold_py. rewrite Hdf. simpl. now rewrite Hfile.
Qed.

Lemma trial_eval_without_table field t st e :
  table_source (f_name field) st = Raise e ->
  (trial_eval field t st).1 = Ok (Some e).
Proof.
  intros Htab. rewrite <- field_trial_data_result in Htab.
  unfold trial_eval, try_except, set_trial_data, trial_data.
  unfold bind at 1. unfold bind at 1. unfold bind at 1.
  destruct (field_trial_data (ByObj field) st) as [r s0]. simpl in Htab. now subst r.
Qed.

(** A trial of a field whose trial data are neither cached nor on file
    fails: in loading the model, or for want of the file. *)
Lemma trial_fails_without_table fname st t :
  trial_data_df (self st) = None ->
  fs st !! pathjoin (pathjoin (pathname (self st)) fname) TRIAL_DATA_CSV = None ->
  exists e,
    trial_outcome fname st t = Failed e
    /\ ((trial_load fname st).1 = Ok (inr e)
        \/ e = McsSystemError
                 ("Can't read trial data: '"
                    +:+ path_str (pathjoin (pathjoin (pathname (self st)) fname)
                                    TRIAL_DATA_CSV)
                    +:+ "' doesn't exist.")).
Proof.
  intros Hdf Hfile. unfold trial_outcome, attempt_trial. unfold bind at 1.
  pose proof (trial_load_kept fname st) as [_ Htab].
  destruct (trial_load fname st) as [[[field|e]|e] s1] eqn:Hload; simpl in *.
  - apply trial_load_name in Hload. subst fname.
    rewrite (table_source_missing _ st Hdf Hfile) in Htab.
    pose proof (trial_eval_without_table field t s1 _ Htab) as Heval.
    unfold bind at 1. destruct (trial_eval field t s1) as [r s2]. simpl in Heval.
    subst r. simpl. eauto.
  - eauto.
  - exists e. split; [reflexivity|]. left.
    destruct (attempt_trial_ok fname t st) as [r Hr].
    unfold attempt_trial in Hr. unfold bind at 1 in Hr. rewrite Hload in Hr.
    discriminate Hr.
Qed.

Lemma completed_rows_none outcome ts :
  (forall t, t ∈ ts -> exists e, outcome t = Failed e) ->
  completed_rows outcome ts = []
  /\ map fst (failed_trials outcome ts) = ts.
Proof.
  induction ts as [|t ts IH]; intros Hall; [split; reflexivity|].
  rewrite completed_rows_cons, failed_trials_cons.
  destruct (Hall t (list_elem_of_here _ _)) as [e ->].
  destruct IH as [IH1 IH2];
    [intros t' Ht'; now apply Hall, list_elem_of_further|].
  split; [exact IH1|]. simpl. now rewrite IH2.
Qed.

(** X9.  When the trial data of a field are neither cached nor on
    file, [run_field] still returns: no trial completes, every trial
    number requested is in the failures, in the order requested, each
    with the error of loading the model or with the [McsSystemError]
    that names the missing file, and the results file holds its header
    only. *)
Theorem without_trial_data_every_trial_fails :
  forall field trial_nums st,
    trial_data_df (self st) = None ->
    fs st !! pathjoin (pathjoin (pathname (self st)) (f_name field)) TRIAL_DATA_CSV = None ->
    exists failures st',
      run_field field trial_nums st = (Ok 0%nat, st')
      /\ map fst failures = requested_trials trial_nums st
      /\ (forall t e, (t, e) ∈ failures ->
            (trial_load (f_name field) st).1 = Ok (inr e)
            \/ e = McsSystemError
                     ("Can't read trial data: '"
                        +:+ path_str (pathjoin (pathjoin (pathname (self st)) (f_name field))
                                        TRIAL_DATA_CSV)
                        +:+ "' doesn't exist."))
      /\ fs st' !! results_file st field
         = Some (File (Text (csv_line result_columns)))
      /\ fs st' !! failures_file st field = Some (File (Text (failures_text failures))).
Proof.
  intros field trial_nums st Hdf Hfile.
  destruct (run_field_spec field trial_nums st)
    as (ls & st1 & st' & Hloop & Hrun & Hcnt & _ & Hres & Hfail).
  destruct (run_field_outcomes field trial_nums st) as (ls0 & st0 & Hloop0 & Hrows & Hexns).
  rewrite Hloop in Hloop0. injection Hloop0 as <- <-.
  destruct (completed_rows_none (trial_outcome (f_name field) st)
              (requested_trials trial_nums st)) as [Hnone Hall].
  { intros t _. destruct (trial_fails_without_table (f_name field) st t Hdf Hfile)
      as (e & He & _). eauto. }
  rewrite Hnone in Hrows. rewrite Hrows in Hcnt, Hres. simpl in Hcnt. rewrite Hcnt in Hrun.
  exists (ls_failures ls), st'. split; [exact Hrun|].
  split; [now rewrite Hexns|]. split; [|split; [|exact Hfail]].
  - intros t e Hin. rewrite Hexns in Hin.
    apply list_elem_of_omap in Hin as (t' & _ & Hout).
    destruct (trial_fails_without_table (f_name field) st t' Hdf Hfile)
      as (e' & He' & Hwhy).
    rewrite He' in Hout. injection Hout as <- <-. exact Hwhy.
  - rewrite Hres. reflexivity.
Qed.

(** ** What a run writes *)

#[local] Instance writes_results_of_preorder P : PreOrder (writes_results_of P).
Proof.
  split.
  - intros st. repeat split. intros p. now left.
  - intros s1 s2 s3 (Hp12 & Hi12 & H12) (Hp23 & Hi23 & H23).
    split; [congruence|]. split; [congruence|].
    intros p. rewrite Hp12 in H23.
    destruct (H23 p) as [Heq|[(fname & HP & -> & Hnone & Hdir)|Hres]].
    + rewrite Heq. exact (H12 p).
    + destruct (H12 (pathjoin (pathname (self s1)) fname))
        as [Heq|[(fname' & _ & _ & _ & Hdir')|Hres]].
      * right. left. exists fname. rewrite <- Heq. auto.
      * rewrite Hdir' in Hnone. discriminate.
      * right. right. exact Hres.
    + right. right. exact Hres.
Qed.

Lemma stable_writes_results_of P st st' : stable st st' -> writes_results_of P st st'.
Proof.
  intros (Hfs & Hinst & Hpath & _). split; [exact Hpath|]. split; [exact Hinst|].
  intros p. left. now rewrite Hfs.
Qed.

Lemma pathjoin_ne_self (d : path) x : pathjoin d x <> d.
Proof.
  intros H. apply (f_equal length) in H. rewrite pathjoin_length in H. lia.
Qed.

Lemma pathjoin_inj (d d' : path) x x' : pathjoin d x = pathjoin d' x' -> d = d' /\ x = x'.
Proof.
  unfold pathjoin. intros H. apply app_inj_tail in H. exact H.
Qed.

Lemma save_trial_results_writes (P : string -> Prop) field df failures :
  P (f_name field) ->
  preserves (writes_results_of P) (save_trial_results field df failures).
Proof.
  intros HP st.
  unfold save_trial_results, results_path, failures_path, field_dir, mkdirs, write_file.
  unfold_py. split; [reflexivity|]. split; [reflexivity|].
  intros p.
  set (d := pathjoin (pathname (self st)) (f_name field)).
  destruct (decide (p = pathjoin d FAILURES_CSV)) as [->|Hfail];
    [right; right; exists (f_name field); auto|].
  destruct (decide (p = pathjoin d RESULTS_CSV)) as [->|Hres];
    [right; right; exists (f_name field); auto|].
  assert (Hskip : forall (m : gmap path node) (k : path) nd,
             p <> k -> <[k := nd]> m !! p = m !! p)
    by (intros m k nd Hk; apply lookup_insert_ne; congruence).
  destruct (fs st !! d) as [nd|] eqn:Hd; simpl.
  - left. now rewrite !Hskip.
  - destruct (decide (p = d)) as [->|Hdir].
    + right. left. exists (f_name field). split; [exact HP|]. split; [reflexivity|].
      split; [exact Hd|]. rewrite !Hskip by (apply not_eq_sym, pathjoin_ne_self).
      apply lookup_insert_eq.
    + left. now rewrite !Hskip.
Qed.

Lemma run_field_writes (P : string -> Prop) field trial_nums :
  P (f_name field) -> preserves (writes_results_of P) (run_field field trial_nums).
Proof.
  intros HP st.
  destruct (run_trials_accounts (requested_trials trial_nums st) (mkLoopState field 0 [] []) st)
    as (ls & st1 & rows & fails & Hloop & Hname & _).
  simpl in Hname.
  pose proof (run_trials_stable (requested_trials trial_nums st) (mkLoopState field 0 [] []) st)
    as Hst.
  rewrite Hloop in Hst. simpl in Hst.
  unfold run_field. unfold bind at 1.
  assert (Hrange : trial_range trial_nums st = (Ok (requested_trials trial_nums st), st))
    by (destruct trial_nums; reflexivity).
  rewrite Hrange. unfold bind at 1. rewrite Hloop.
  pose proof (save_trial_results_writes P (ls_field ls)
                (mkResultsFrame result_columns (ls_results ls)) (ls_failures ls)) as Hsave.
  rewrite Hname in Hsave. specialize (Hsave HP st1).
  unfold bind.
  destruct (save_trial_results (ls_field ls) _ (ls_failures ls) st1) as [[[]|e] st'];
    simpl in *;
    (etransitivity; [apply stable_writes_results_of; exact Hst | exact Hsave]).
Qed.

(** X10.  [run_field] writes the results of its field and nothing
    else: the results file and the failures file of the field, and the
    directory of the field when it was missing.  Every other node of
    the store is as it was, the trial data of the field among them, an
    existing directory of the field stays the node it was, and the
    registry of distributions is as it was. *)
Theorem run_field_writes_only_its_results :
  forall field trial_nums st,
    let st' := (run_field field trial_nums st).2 in
    let d := pathjoin (pathname (self st)) (f_name field) in
    instances st' = instances st
    /\ (forall p : path,
          p <> d -> p <> pathjoin d RESULTS_CSV -> p <> pathjoin d FAILURES_CSV ->
          fs st' !! p = fs st !! p)
    /\ (forall nd, fs st !! d = Some nd -> fs st' !! d = Some nd)
    /\ fs st' !! pathjoin d TRIAL_DATA_CSV = fs st !! pathjoin d TRIAL_DATA_CSV.
Proof.
  intros field trial_nums st st' d.
  destruct (run_field_writes (eq (f_name field)) field trial_nums eq_refl st)
    as (_ & Hinst & Hfs).
  fold st' in Hinst, Hfs.
  assert (Hframe : forall p : path,
             p <> d -> p <> pathjoin d RESULTS_CSV -> p <> pathjoin d FAILURES_CSV ->
             fs st' !! p = fs st !! p).
  { intros p Hd Hres Hfail.
    destruct (Hfs p) as [Heq|[(fname & <- & -> & _)|(fname & <- & [->| ->])]];
      [exact Heq | contradiction..]. }
  split; [exact Hinst|]. split; [exact Hframe|]. split.
  - intros nd Hnd.
    destruct (Hfs d) as [Heq|[(fname & _ & _ & Hnone & _)|(fname & _ & [Hp|Hp])]].
    + now rewrite Heq.
    + rewrite Hnd in Hnone. discriminate.
    + symmetry in Hp. now apply pathjoin_inj in Hp as [Hp%pathjoin_ne_self _].
    + symmetry in Hp. now apply pathjoin_inj in Hp as [Hp%pathjoin_ne_self _].
  - apply Hframe.
    + apply pathjoin_ne_self.
    + intros [_ [=]]%pathjoin_inj.
    + intros [_ [=]]%pathjoin_inj.
Qed.

(** ** run *)

Lemma read_only_writes P {A} (m : M A) :
  preserves eq m -> preserves (writes_results_of P) m.
Proof. intros H st. rewrite <- (H st). reflexivity. Qed.

Lemma run_writes trial_nums names :
  preserves (writes_results_of (fun _ => True)) (run trial_nums names).
Proof.
  unfold run.
  apply preserves_bind; [typeclasses eauto | apply read_only_writes, self_analysis_ro |].
  intros ana.
  apply preserves_bind; [typeclasses eauto | |].
  - destruct (truthy_list names).
    + apply read_only_writes. preserves_tac.
    + apply read_only_writes, chosen_fields_ro.
  - intros fields. apply preserves_for_each; [typeclasses eauto|]. intros field.
    apply preserves_bind; [typeclasses eauto | apply read_only_writes, get_field_data_ro |].
    intros fd. destruct (field_enabled fd).
    + apply preserves_bind; [typeclasses eauto | now apply run_field_writes |].
      intros _. apply preserves_ret. typeclasses eauto.
    + apply preserves_ret. typeclasses eauto.
Qed.

(** X11.  [run] writes results and nothing else.  A node of the store
    that exists before the call and is not the results file or the
    failures file of a field is the same after it, and the only nodes it
    creates besides those files are directories of fields; so the trial
    data of every field, the metadata and the template are as they
    were.  The registry of distributions is as it was. *)
Theorem run_writes_only_results :
  forall trial_nums names st,
    let st' := (run trial_nums names st).2 in
    let sim_dir := pathname (self st) in
    instances st' = instances st
    /\ (forall (p : path) nd,
          fs st !! p = Some nd ->
          (forall fname, p <> pathjoin (pathjoin sim_dir fname) RESULTS_CSV) ->
          (forall fname, p <> pathjoin (pathjoin sim_dir fname) FAILURES_CSV) ->
          fs st' !! p = Some nd)
    /\ (forall p : path,
          fs st !! p = None -> fs st' !! p <> None ->
          exists fname,
            p = pathjoin sim_dir fname
            \/ p = pathjoin (pathjoin sim_dir fname) RESULTS_CSV
            \/ p = pathjoin (pathjoin sim_dir fname) FAILURES_CSV)
    /\ (forall fname,
          fs st' !! pathjoin (pathjoin sim_dir fname) TRIAL_DATA_CSV
          = fs st !! pathjoin (pathjoin sim_dir fname) TRIAL_DATA_CSV).
Proof.
  intros trial_nums names st st' sim_dir.
  destruct (run_writes trial_nums names st) as (_ & Hinst & Hfs).
  fold st' in Hinst, Hfs. fold sim_dir in Hfs.
  split; [exact Hinst|]. split; [|split].
  - intros p nd Hnd Hres Hfail.
    destruct (Hfs p) as [Heq|[(fname & _ & _ & Hnone & _)|(fname & _ & [Hp|Hp])]].
    + now rewrite Heq.
    + rewrite Hnd in Hnone. discriminate.
    + now apply Hres in Hp.
    + now apply Hfail in Hp.
  - intros p Hnone Hsome.
    destruct (Hfs p) as [Heq|[(fname & _ & Hp & _)|(fname & _ & [Hp|Hp])]]; eauto.
    rewrite Heq in Hsome. contradiction.
  - intros fname.
    destruct (Hfs (pathjoin (pathjoin sim_dir fname) TRIAL_DATA_CSV))
      as [Heq|[(fname' & _ & Hp & _)|(fname' & _ & [Hp|Hp])]].
    + exact Heq.
    + apply pathjoin_inj in Hp as [Hp _]. now apply pathjoin_ne_self in Hp.
    + apply pathjoin_inj in Hp as [_ [=]].
    + apply pathjoin_inj in Hp as [_ [=]].
Qed.

Lemma map_M_get_field ana m an names st :
  heap st !! a_model ana = Some m ->
  analysis_dict m !! a_name ana = Some an ->
  (forall n, n ∈ names -> n ∈ analysis_fields an /\ is_Some (field_dict m !! n)) ->
  map_M (Analysis_get_field ana) names st
  = (Ok (map (mkFieldRef (a_model ana)) names), st).
Proof.
  intros Hm Han. induction names as [|n names IH]; intros Hall; [reflexivity|].
  simpl. unfold bind at 1.
  assert (Hn : Analysis_get_field ana n st = (Ok (mkFieldRef (a_model ana) n), st)).
  { destruct (Hall n (list_elem_of_here _ _)) as [Hin Hfd].
    unfold Analysis_get_field, get_model. unfold_py. rewrite Hm. simpl. rewrite Han.
    now rewrite !bool_decide_eq_true_2. }
  rewrite Hn. unfold bind at 1.
  rewrite IH by (intros n' Hn'; now apply Hall, list_elem_of_further).
  reflexivity.
Qed.

(** [run_field] leaves the model objects it finds as they are, and the
    cached template. *)
Lemma run_field_keeps_models field trial_nums st xml :
  model_xml_string (self st) = Some xml ->
  model_xml_string (self (run_field field trial_nums st).2) = Some xml
  /\ forall i, (i < length (heap st))%nat ->
               heap (run_field field trial_nums st).2 !! i = heap st !! i.
Proof.
  intros Hxml.
  destruct (run_trials_isolated (requested_trials trial_nums st)
              (mkLoopState field 0 [] []) st xml Hxml)
    as (ls & st1 & evs & Hloop & _ & _ & Hold).
  pose proof (run_trials_stable (requested_trials trial_nums st) (mkLoopState field 0 [] []) st)
    as Hst.
  rewrite Hloop in Hst. simpl in Hst.
  destruct Hst as (_ & _ & _ & _ & Hxml1 & _).
  assert (Hrange : trial_range trial_nums st = (Ok (requested_trials trial_nums st), st))
    by (destruct trial_nums; reflexivity).
  assert (Hrun : exists st',
             run_field field trial_nums st = (Ok (ls_completed ls), st')
             /\ heap st' = heap st1 /\ self st' = self st1).
  { unfold run_field. unfold bind at 1. rewrite Hrange. unfold bind at 1. rewrite Hloop.
    unfold save_trial_results, results_path, failures_path, field_dir, mkdirs, write_file.
    unfold_py. eexists. split; [reflexivity|]. split; reflexivity. }
  destruct Hrun as (st' & -> & Hheap & Hself). simpl.
  rewrite Hheap, Hself. split; [congruence | exact Hold].
Qed.

Lemma bind_head {A B} (m1 m2 : M A) (k : A -> M B) st :
  m1 st = m2 st -> bind m1 k st = bind m2 k st.
Proof. intros H. unfold bind. now rewrite H. Qed.

Lemma bind_tail {A B} (m : M A) (k1 k2 : A -> M B) st :
  (forall a, k1 a (m st).2 = k2 a (m st).2) -> bind m k1 st = bind m k2 st.
Proof. intros H. unfold bind. destruct (m st) as [[a|e] s]; [apply H | reflexivity]. Qed.

Lemma for_each_enabled trial_nums id0 m xml names : forall st,
  model_xml_string (self st) = Some xml ->
  heap st !! id0 = Some m ->
  (forall n, n ∈ names -> is_Some (field_dict m !! n)) ->
  for_each (map (mkFieldRef id0) names)
    (fun field =>
       fd <- get_field_data field ;;
       if field_enabled fd then run_field field trial_nums ;; ret tt else ret tt) st
  = for_each (filter (fun n => Is_true (enabled_in m n)) names)
      (fun n => run_field (mkFieldRef id0 n) trial_nums ;; ret tt) st.
Proof.
  induction names as [|n names IH]; intros st Hxml Hm Hall; [reflexivity|].
  destruct (Hall n (list_elem_of_here _ _)) as [fd Hfd].
  assert (Hrest : forall n', n' ∈ names -> is_Some (field_dict m !! n'))
    by (intros n' Hn'; now apply Hall, list_elem_of_further).
  assert (Hen' : enabled_in m n = field_enabled fd)
    by (unfold enabled_in; now rewrite Hfd).
  cbn [map for_each].
  rewrite (bind_head _ (if field_enabled fd
                        then run_field (mkFieldRef id0 n) trial_nums ;; ret tt
                        else ret tt)).
  2:{ unfold bind at 1. unfold get_field_data, get_model. unfold_py.
      rewrite Hm. simpl. now rewrite Hfd. }
  rewrite filter_cons.
  destruct (field_enabled fd) eqn:Hen.
  - rewrite decide_True by (rewrite Hen'; exact I). cbn [for_each].
    apply bind_tail. intros _.
    destruct (run_field_keeps_models (mkFieldRef id0 n) trial_nums st xml Hxml)
      as [Hxml1 Hold].
    assert (Hst1 : ((run_field (mkFieldRef id0 n) trial_nums ;; ret tt) st).2
                   = (run_field (mkFieldRef id0 n) trial_nums st).2).
    { unfold bind. now destruct (run_field (mkFieldRef id0 n) trial_nums st) as [[c|e] s]. }
    rewrite Hst1. apply IH; [exact Hxml1 | | exact Hrest].
    rewrite Hold; [exact Hm|]. now apply lookup_lt_Some in Hm.
  - rewrite decide_False by (rewrite Hen'; intros []).
    change (bind (ret tt) ?k st) with (k tt st). now apply IH.
Qed.

(** X12.  [run] with field names runs the fields of those names that
    are enabled, one [run_field] after the other in the order of the
    names, and passes over the disabled ones: for them no model is
    loaded, nothing is evaluated and nothing is written. *)
Theorem run_runs_the_enabled_fields :
  forall trial_nums names st xml ana m an,
    model_xml_string (self st) = Some xml ->
    analysis (self st) = Some ana ->
    heap st !! a_model ana = Some m ->
    analysis_dict m !! a_name ana = Some an ->
    names <> [] ->
    (forall n, n ∈ names -> n ∈ analysis_fields an /\ is_Some (field_dict m !! n)) ->
    run trial_nums (Some names) st
    = for_each (filter (fun n => Is_true (enabled_in m n)) names)
        (fun n => run_field (mkFieldRef (a_model ana) n) trial_nums ;; ret tt) st.
Proof.
  intros trial_nums names st xml ana m an Hxml Hana Hm Han Hne Hall.
  unfold run. unfold bind at 1. unfold self_analysis. unfold bind at 1, gets at 1.
  rewrite Hana. unfold ret at 1.
  assert (Htruthy : truthy_list (Some names) = true) by (now destruct names).
  rewrite Htruthy. unfold bind at 1. simpl default.
  rewrite (map_M_get_field ana m an names st Hm Han Hall).
  apply (for_each_enabled trial_nums (a_model ana) m xml names st Hxml Hm).
  intros n Hn. now apply Hall.
Qed.

(** ** Metadata *)

Lemma read_metadata_ok sim_dir st md :
  isdir sim_dir st = true ->
  fs st !! pathjoin sim_dir META_DATA_FILE = Some (File (Json md)) ->
  read_metadata sim_dir st
  = (Ok (Some md),
     with_self (metadata_sim sim_dir md)
       (with_trace (trace st ++ [EvRead (pathjoin sim_dir META_DATA_FILE)]) st)).
Proof.
  intros Hdir Hfile.
  unfold read_metadata, Simulation_init.
  unfold bind at 1. unfold bind at 1, gets at 1. rewrite Hdir. simpl negb. cbv iota.
  simpl truthy_str. simpl negb. simpl andb. cbv iota.
  unfold _load_meta_data, metadata_path, json_load, open_read.
  unfold_py. rewrite Hfile. reflexivity.
Qed.

Lemma read_metadata_fails sim_dir st :
  isdir sim_dir st = true ->
  (forall md, fs st !! pathjoin sim_dir META_DATA_FILE <> Some (File (Json md))) ->
  exists msg,
    read_metadata sim_dir st
    = (Raise (McsUserError msg),
       with_self (mkSim sim_dir (model_file_path sim_dir) None None None 0 None None None None)
         (with_trace (trace st ++ [EvRead (pathjoin sim_dir META_DATA_FILE)]) st)).
Proof.
  intros Hdir Hfile.
  unfold read_metadata, Simulation_init.
  unfold bind at 1. unfold bind at 1, gets at 1. rewrite Hdir. simpl negb. cbv iota.
  simpl truthy_str. simpl negb. simpl andb. cbv iota.
  unfold _load_meta_data, metadata_path, json_load, open_read.
  unfold_py.
  destruct (fs st !! pathjoin sim_dir META_DATA_FILE) as [[|[x|md|df]]|];
    simpl; eauto.
  now destruct (Hfile md).
Qed.


(** X14.  A constructor given an analysis name saves the metadata
    before it loads the model: when the directory and the template are
    there, then whether the constructor returns or raises (the analysis
    is not in the model, no column is left for a field), the metadata
    file holds the analysis name, the number of trials and the field
    names it was given, and [read_metadata] returns them. *)
Theorem constructor_saves_the_metadata_first :
  forall sim_dir aname n names xml st,
    isdir sim_dir st = true ->
    fs st !! model_file_path sim_dir = Some (File (Text xml)) ->
    aname <> EmptyString ->
    let st' := (Simulation_init sim_dir (Some aname) n names None false st).2 in
    let md := mkMetadata (Some aname) n names in
    fs st' !! pathjoin sim_dir META_DATA_FILE = Some (File (Json md))
    /\ (read_metadata sim_dir st').1 = Ok (Some md).
Proof.
  intros sim_dir aname n names xml st Hdir Hfile Hname st' md.
  subst st'. rewrite (Simulation_init_creates sim_dir aname n names xml st Hdir Hfile Hname).
  fold md.
  pose proof (init_tail_keeps_shallow n (created_state sim_dir xml md st)) as (_ & Hkeep).
  assert (Hmeta_ne : pathjoin sim_dir META_DATA_FILE <> sim_dir) by apply pathjoin_ne_self.
  assert (Hmeta : fs ((load_model None ;; if (0 <? n)%nat then generate None else ret tt)
                        (created_state sim_dir xml md st)).2
                  !! pathjoin sim_dir META_DATA_FILE = Some (File (Json md))).
  { apply Hkeep; [apply lookup_insert_eq|]. rewrite pathjoin_length. simpl. lia. }
  split; [exact Hmeta|].
  rewrite (read_metadata_ok sim_dir _ md); [reflexivity | | exact Hmeta].
  apply isdir_lookup, Hkeep; [|simpl; lia].
  simpl. rewrite lookup_insert_ne by exact Hmeta_ne.
  unfold isdir in Hdir. destruct (fs st !! sim_dir) as [[|c]|]; congruence.
Qed.

(** X15.  Metadata saved without field names cannot be reloaded for
    some of the fields: [_load_meta_data], asked for field names while
    the metadata holds none, raises the error of iterating over [None],
    which is none of the errors of the driver, after it has stored the
    metadata and before it sets the analysis name and the number of
    trials.  So a simulation the constructor made for all the fields of
    its analysis cannot be opened again for a list of fields. *)
Theorem reloading_some_of_all_fields_raises :
  (forall st md requested,
      fs st !! pathjoin (pathname (self st)) META_DATA_FILE = Some (File (Json md)) ->
      md_field_names md = None ->
      requested <> [] ->
      exists st',
        _load_meta_data (Some requested) st
        = (Raise (OtherError "'NoneType' object is not iterable"), st')
        /\ metadata (self st') = Some md
        /\ analysis_name (self st') = analysis_name (self st)
        /\ trials (self st') = trials (self st)
        /\ field_names (self st') = field_names (self st))
  /\ (forall sim_dir aname n xml st requested mdo,
        isdir sim_dir st = true ->
        fs st !! model_file_path sim_dir = Some (File (Text xml)) ->
        aname <> EmptyString ->
        requested <> [] ->
        let st' := (Simulation_init sim_dir (Some aname) n None None false st).2 in
        (Simulation_init sim_dir None 0 (Some requested) None mdo st').1
        = Raise (OtherError "'NoneType' object is not iterable")).
Proof.
  split.
  - intros st md requested Hfile Hnames Hreq.
    unfold _load_meta_data, metadata_path, json_load, open_read.
    unfold_py. rewrite Hfile. simpl. rewrite Hnames.
    destruct requested as [|name requested]; [contradiction|]. simpl.
    eexists. split; [reflexivity|]. simpl. auto.
  - intros sim_dir aname n xml st requested mdo Hdir Hfile Hname Hreq st'.
    subst st'.
    rewrite (Simulation_init_creates sim_dir aname n None xml st Hdir Hfile Hname).
    set (md := mkMetadata (Some aname) n None).
    pose proof (init_tail_keeps_shallow n (created_state sim_dir xml md st)) as (_ & Hkeep).
    set (s1 := ((load_model None ;; if (0 <? n)%nat then generate None else ret tt)
                  (created_state sim_dir xml md st)).2) in *.
    assert (Hmeta : fs s1 !! pathjoin sim_dir META_DATA_FILE = Some (File (Json md))).
    { apply Hkeep; [apply lookup_insert_eq|]. rewrite pathjoin_length. simpl. lia. }
    assert (Hdir1 : isdir sim_dir s1 = true).
    { apply isdir_lookup, Hkeep; [|simpl; lia].
      simpl. rewrite lookup_insert_ne by apply pathjoin_ne_self.
      unfold isdir in Hdir. destruct (fs st !! sim_dir) as [[|c]|]; congruence. }
    unfold Simulation_init.
    unfold bind at 1, gets at 1. rewrite Hdir1. simpl negb. cbv iota.
    simpl truthy_str. simpl negb. cbv iota.
    unfold _load_meta_data, metadata_path, json_load, open_read.
    unfold_py. rewrite Hmeta. simpl.
    destruct requested as [|name requested]; [contradiction|]. reflexivity.
Qed.

(** ** Opening an existing simulation *)

#[local] Instance reads_only_preorder : PreOrder reads_only.
Proof.
  split.
  - intros st. split; [reflexivity|]. split; [reflexivity|].
    exists []. split; [now rewrite app_nil_r | constructor].
  - intros s1 s2 s3 (Hf12 & Hi12 & evs1 & Ht12 & Hr12) (Hf23 & Hi23 & evs2 & Ht23 & Hr23).
    split; [congruence|]. split; [congruence|].
    exists (evs1 ++ evs2). split; [now rewrite Ht23, Ht12, app_assoc|].
    now apply Forall_app.
Qed.

Ltac reads_modify :=
  split; [reflexivity|]; split; [reflexivity|];
  first [ exists []; split; [simpl; now rewrite app_nil_r | constructor]
        | eexists; split; [reflexivity | repeat constructor] ].

Ltac reads_tac := preserves_tac; try solve [reads_modify].

Lemma get_model_reads id : preserves reads_only (get_model id).
Proof. unfold get_model. reads_tac. Qed.
#[local] Hint Resolve get_model_reads : pres.

Lemma new_model_reads m : preserves reads_only (new_model m).
Proof. unfold new_model. reads_tac. Qed.
#[local] Hint Resolve new_model_reads : pres.

Lemma open_read_reads p : preserves reads_only (open_read p).
Proof. unfold open_read. reads_tac. Qed.
#[local] Hint Resolve open_read_reads : pres.

Lemma read_text_reads p : preserves reads_only (read_text p).
Proof. unfold read_text. reads_tac. Qed.
#[local] Hint Resolve read_text_reads : pres.

Lemma ModelFile_reads pathnames xml use_default names fnames :
  preserves reads_only (ModelFile pathnames xml use_default names fnames None).
Proof. unfold ModelFile, ModelFile_source. reads_tac. Qed.
#[local] Hint Resolve ModelFile_reads : pres.

Lemma load_model_reads : preserves reads_only (load_model None).
Proof. unfold load_model. reads_tac. Qed.
#[local] Hint Resolve load_model_reads : pres.

Lemma load_meta_data_reads names : preserves reads_only (_load_meta_data names).
Proof. unfold _load_meta_data, metadata_path, json_load. reads_tac. Qed.
#[local] Hint Resolve load_meta_data_reads : pres.

Lemma cache_model_file_reads p : preserves reads_only (cache_model_file p).
Proof. unfold cache_model_file. reads_tac. Qed.
#[local] Hint Resolve cache_model_file_reads : pres.

(** X16.  Opening an existing simulation changes nothing on disk: a
    constructor given no analysis name and no number of trials, and no
    path to save the model to, only opens files for reading and builds
    the model; the file store and the registry of distributions are as
    they were, no trial data are sampled and no file is written,
    whether the constructor returns or raises. *)
Theorem opening_a_simulation_writes_nothing :
  forall sim_dir aname names meta_data_only st,
    truthy_str aname = false ->
    let st' := (Simulation_init sim_dir aname 0 names None meta_data_only st).2 in
    fs st' = fs st
    /\ instances st' = instances st
    /\ exists evs, trace st' = trace st ++ evs /\ Forall is_read evs.
Proof.
  intros sim_dir aname names mdo st Htruthy.
  assert (H : preserves reads_only (Simulation_init sim_dir aname 0 names None mdo)).
  { unfold Simulation_init. rewrite Htruthy.
    change (0 <? 0)%nat with false. simpl negb. simpl andb. cbv iota.
    reads_tac. }
  exact (H st).
Qed.

(** ** What new leaves alone *)

#[local] Instance frame_outside_preorder d : PreOrder (frame_outside d).
Proof.
  split.
  - intros st p _. reflexivity.
  - intros s1 s2 s3 H12 H23 p Hp. now rewrite H23, H12.
Qed.

#[local] Instance writes_inside_preorder d : PreOrder (writes_inside d).
Proof.
  split.
  - intros st Hp. split; [exact Hp | reflexivity].
  - intros s1 s2 s3 H12 H23 Hp.
    destruct (H12 Hp) as [Hp2 Hf12]. destruct (H23 Hp2) as [Hp3 Hf23].
    split; [exact Hp3|]. intros p Hout. now rewrite Hf23, Hf12.
Qed.

#[local] Instance keeps_store_preorder : PreOrder keeps_store.
Proof.
  split.
  - intros st. split; reflexivity.
  - intros s1 s2 s3 [? ?] [? ?]. split; congruence.
Qed.

Lemma keeps_store_inside d st st' : keeps_store st st' -> writes_inside d st st'.
Proof. intros [Hfs Hp] Hd. split; [congruence|]. intros p _. now rewrite Hfs. Qed.

Lemma keeps_store_frame d st st' : keeps_store st st' -> frame_outside d st st'.
Proof. intros [Hfs _] p _. now rewrite Hfs. Qed.

Lemma stable_keeps_store st st' : stable st st' -> keeps_store st st'.
Proof. intros (Hfs & _ & Hp & _). split; assumption. Qed.

Ltac store_tac := preserves_tac; try solve [split; reflexivity].

Lemma open_read_keeps_store p : preserves keeps_store (open_read p).
Proof. unfold open_read. store_tac. Qed.
#[local] Hint Resolve open_read_keeps_store : pres.

Lemma read_text_keeps_store p : preserves keeps_store (read_text p).
Proof. unfold read_text. store_tac. Qed.
#[local] Hint Resolve read_text_keeps_store : pres.

Lemma load_model_keeps_store : preserves keeps_store (load_model None).
Proof. intros st. apply stable_keeps_store, load_model_stable. Qed.

Lemma load_meta_data_keeps_store names : preserves keeps_store (_load_meta_data names).
Proof. unfold _load_meta_data, metadata_path, json_load. store_tac. Qed.

Lemma cache_model_file_keeps_store p : preserves keeps_store (cache_model_file p).
Proof. unfold cache_model_file. store_tac. Qed.

Lemma inside_pathjoin (d : path) x : d `prefix_of` pathjoin d x.
Proof. unfold pathjoin. now apply prefix_app_r. Qed.

Lemma outside_ne (d p q : path) : d `prefix_of` q -> ¬ d `prefix_of` p -> q <> p.
Proof. intros Hq Hp ->. contradiction. Qed.

Lemma save_meta_data_inside d : preserves (writes_inside d) _save_meta_data.
Proof.
  intros st Hd. unfold _save_meta_data, metadata_path, write_file. unfold_py.
  split; [exact Hd|]. intros p Hout. apply lookup_insert_ne.
  apply (outside_ne d); [|exact Hout]. rewrite Hd. apply inside_pathjoin.
Qed.

Lemma generate_field_inside d n corr field :
  preserves (writes_inside d) (generate_field n corr field).
Proof.
  intros st. rewrite generate_field_cases.
  destruct (select_columns field (distributions st) [] [] st).1 as [[[|c cols] rvs]|e];
    simpl; try reflexivity.
  destruct (lhs_sample rvs n corr) as [data|e]; simpl.
  - intros Hd. split; [exact Hd|]. intros p Hout.
    unfold generated_state. cbn [fs].
    assert (Hdir : pathjoin (pathname (self st)) (f_name field) <> p).
    { apply (outside_ne d); [|exact Hout]. rewrite Hd. apply inside_pathjoin. }
    assert (Hfile : pathjoin (pathjoin (pathname (self st)) (f_name field)) TRIAL_DATA_CSV
                    <> p).
    { apply (outside_ne d); [|exact Hout]. rewrite Hd.
      etransitivity; apply inside_pathjoin. }
    rewrite lookup_insert_ne by exact Hfile.
    destruct (fs st !! pathjoin (pathname (self st)) (f_name field)); [reflexivity|].
    now apply lookup_insert_ne.
  - intros Hd. split; [exact Hd | reflexivity].
Qed.

Lemma generate_inside d corr : preserves (writes_inside d) (generate corr).
Proof.
  unfold generate.
  apply preserves_bind; [typeclasses eauto | apply preserves_gets; typeclasses eauto |].
  intros n.
  apply preserves_bind; [typeclasses eauto | |].
  - intros st. rewrite <- (chosen_fields_ro st). reflexivity.
  - intros fields. apply preserves_for_each; [typeclasses eauto|].
    intros field. apply generate_field_inside.
Qed.

Lemma init_rest_inside sim_dir aname n names mdo :
  preserves (writes_inside sim_dir)
    ((if negb (truthy_str aname) then _load_meta_data names else ret tt) ;;
     if negb (truthy_str aname) && mdo then ret tt
     else
       cache_model_file (model_file_path sim_dir) ;;
       (if truthy_str aname then _save_meta_data else ret tt) ;;
       if truthy_str aname && mdo then ret tt
       else
         load_model None ;;
         if (0 <? n)%nat then generate None else ret tt).
Proof.
  apply preserves_bind; [typeclasses eauto | |].
  - destruct (negb (truthy_str aname)).
    + intros s. apply keeps_store_inside, load_meta_data_keeps_store.
    + apply preserves_ret. typeclasses eauto.
  - intros _. destruct (negb (truthy_str aname) && mdo);
      [apply preserves_ret; typeclasses eauto|].
    apply preserves_bind; [typeclasses eauto | |].
    + intros s. apply keeps_store_inside, cache_model_file_keeps_store.
    + intros _. apply preserves_bind; [typeclasses eauto | |].
      * destruct (truthy_str aname);
          [apply save_meta_data_inside | apply preserves_ret; typeclasses eauto].
      * intros _. destruct (truthy_str aname && mdo);
          [apply preserves_ret; typeclasses eauto|].
        apply preserves_bind; [typeclasses eauto | |].
        -- intros s. apply keeps_store_inside, load_model_keeps_store.
        -- intros _. destruct (0 <? n)%nat;
             [apply generate_inside | apply preserves_ret; typeclasses eauto].
Qed.

Lemma Simulation_init_frame sim_dir aname n names mdo :
  preserves (frame_outside sim_dir) (Simulation_init sim_dir aname n names None mdo).
Proof.
  intros st. unfold Simulation_init. unfold bind at 1, gets at 1.
  destruct (isdir sim_dir st); simpl negb; cbv iota; [|reflexivity].
  unfold bind at 1. unfold modify_self at 1, modify at 1.
  exact (proj2 (init_rest_inside sim_dir aname n names mdo
                  (with_self (mkSim sim_dir (model_file_path sim_dir) None None None n
                                aname None names None) st) eq_refl)).
Qed.

Lemma removeTree_frame d : preserves (frame_outside d) (removeTree d).
Proof.
  intros st p Hout. unfold removeTree. unfold_py.
  destruct (fs st !! p) as [nd|] eqn:Hp.
  - apply map_lookup_filter_Some. split; [exact Hp|]. simpl.
    unfold outside. now apply bool_decide_eq_true.
  - apply map_lookup_filter_None. now left.
Qed.

Lemma mkdirs_frame d : preserves (frame_outside d) (mkdirs d).
Proof.
  intros st p Hout. unfold mkdirs. unfold_py.
  destruct (fs st !! d); [reflexivity|]. simpl.
  apply lookup_insert_ne. intros ->. now apply Hout.
Qed.

Lemma ModelFile_frame d pathnames use_default names fnames :
  preserves (frame_outside d)
    (ModelFile pathnames None use_default names fnames (Some (model_file_path d))).
Proof.
  unfold ModelFile, ModelFile_source.
  apply preserves_bind; [typeclasses eauto | |].
  - apply preserves_bind; [typeclasses eauto | |].
    + apply preserves_map_M; [typeclasses eauto|]. intros p st.
      apply keeps_store_frame, read_text_keeps_store.
    + intros texts. apply preserves_lift. typeclasses eauto.
  - intros xml. apply preserves_bind; [typeclasses eauto | |].
    + intros st p Hout. unfold write_file. unfold_py. apply lookup_insert_ne.
      apply (outside_ne d); [apply inside_pathjoin | exact Hout].
    + intros _. unfold new_model.
      preserves_tac; intros p Hout; reflexivity.
Qed.


(** ** The columns generate samples *)

Lemma select_columns_raises field dists st d e :
  d ∈ dists ->
  (target_explicit d field st).1 = Raise e ->
  forall cols rvs,
  exists d' e',
    d' ∈ dists
    /\ (target_explicit d' field st).1 = Raise e'
    /\ (select_columns field dists cols rvs st).1 = Raise e'.
Proof.
  induction dists as [|d0 dists IH]; intros Hin Hd cols rvs; [inversion Hin|].
  rewrite select_columns_step.
  destruct (target_explicit d0 field st).1 as [[|]|e0] eqn:H0.
  - apply elem_of_cons in Hin as [->|Hin]; [congruence|].
    destruct (IH Hin Hd cols rvs) as (d' & e' & Hd' & He' & Hsel).
    exists d', e'. split; [now apply list_elem_of_further | auto].
  - apply elem_of_cons in Hin as [->|Hin]; [congruence|].
    destruct (IH Hin Hd (cols ++ [column_name d0]) (rvs ++ [rv d0]))
      as (d' & e' & Hd' & He' & Hsel).
    exists d', e'. split; [now apply list_elem_of_further | auto].
  - exists d0, e0. split; [apply list_elem_of_here | auto].
Qed.

(** X18.  [generate] samples, for a field, the distributions of the
    registry whose target on the field is found and holds no explicit
    value: when it succeeds for the field, the sampler was given the
    random variables of those distributions, in the order of the
    registry, and the number of trials, and the table cached and saved
    has their column names in that order; when the target of some
    distribution cannot be looked up or read, it raises the error of
    such a distribution before it samples, and the state is as it
    was. *)
Theorem generate_samples_the_free_distributions :
  forall n corr field st,
    let free := List.filter (is_free field st) (distributions st) in
    let d := pathjoin (pathname (self st)) (f_name field) in
    (forall st',
        generate_field n corr field st = (Ok tt, st') ->
        exists data,
          lhs_sample (map rv free) n corr = Ok data
          /\ trial_data_df (self st') = Some (generated_table (map column_name free) data)
          /\ fs st' !! pathjoin d TRIAL_DATA_CSV
             = Some (File (Csv (generated_table (map column_name free) data)))
          /\ trace st'
             = trace st ++ [EvSample (f_name field) (map column_name free);
                            EvMkdirs d; EvWrite (pathjoin d TRIAL_DATA_CSV)])
    /\ (forall dist e,
          dist ∈ distributions st ->
          (target_explicit dist field st).1 = Raise e ->
          exists dist' e',
            dist' ∈ distributions st
            /\ (target_explicit dist' field st).1 = Raise e'
            /\ generate_field n corr field st = (Raise e', st)).
Proof.
  intros n corr field st free d. split.
  - intros st'. rewrite generate_field_cases.
    destruct (select_columns field (distributions st) [] [] st).1
      as [[cols rvs]|e] eqn:Hsel; [|discriminate].
    apply select_columns_spec in Hsel as [-> ->]. simpl app. fold free.
    destruct (map column_name free) as [|c cols] eqn:Hcols; [discriminate|].
    destruct (lhs_sample (map rv free) n corr) as [data|e]; [|discriminate].
    intros [= <-]. exists data. split; [reflexivity|]. split; [reflexivity|].
    split; [apply lookup_insert_eq | reflexivity].
  - intros dist e Hin He.
    destruct (select_columns_raises field (distributions st) st dist e Hin He [] [])
      as (d' & e' & Hd' & He' & Hsel).
    exists d', e'. split; [exact Hd'|]. split; [exact He'|].
    now rewrite generate_field_cases, Hsel.
Qed.

(** ** trial_data for a field given by name *)

(** X19.  [trial_data] accepts the name of a field in place of the
    field only as long as the trial is found: [field_trial_data]
    resolves the name and the row of the trial is returned, but for a
    trial the table does not have, the path for the message is asked of
    the name itself, which has no [name] attribute, so that the error
    raised is not the [McsSystemError] a field object gets. *)
Theorem trial_data_by_name_of_a_missing_trial :
  forall name t st df fB,
    trial_data_df (self st) = Some df ->
    ((a <- self_analysis ;; Analysis_get_field a name) st).1 = Ok fB ->
    (forall s, df_loc df t = Some s -> trial_data (ByName name) t st = (Ok s, st))
    /\ (df_loc df t = None ->
        trial_data (ByName name) t st
        = (Raise (OtherError "'str' object has no attribute 'name'"), st)
        /\ exists msg, trial_data (ByObj fB) t st = (Raise (McsSystemError msg), st)).
Proof.
  intros name t st df fB Hdf Hres.
  pose proof (field_trial_data_by_name_cached name fB st df Hdf Hres) as Hft.
  split.
  - intros s Hs. unfold trial_data. unfold bind at 1. now rewrite Hft, Hs.
  - intros Hnone. split.
    + unfold trial_data. unfold bind at 1. now rewrite Hft, Hnone.
    + rewrite (trial_data_cached fB t st df Hdf), Hnone. eauto.
Qed.

(** ** What generate writes *)

#[local] Instance writes_trial_data_preorder : PreOrder writes_trial_data.
Proof.
  split.
  - intros st. repeat split. intros p. now left.
  - intros s1 s2 s3 (Hp12 & Hi12 & Hh12 & H12) (Hp23 & Hi23 & Hh23 & H23).
    split; [congruence|]. split; [congruence|]. split; [congruence|].
    intros p. rewrite Hp12 in H23.
    destruct (H23 p) as [Heq|[(fname & -> & Hnone & Hdir)|Hdata]].
    + rewrite Heq. exact (H12 p).
    + destruct (H12 (pathjoin (pathname (self s1)) fname))
        as [Heq|[(fname' & _ & _ & Hdir')|Hdata]].
      * right. left. exists fname. rewrite <- Heq. auto.
      * rewrite Hdir' in Hnone. discriminate.
      * right. right. exact Hdata.
    + right. right. exact Hdata.
Qed.

Lemma generate_field_writes n corr field :
  preserves writes_trial_data (generate_field n corr field).
Proof.
  intros st. rewrite generate_field_cases.
  destruct (select_columns field (distributions st) [] [] st).1 as [[[|c cols] rvs]|e];
    simpl; try reflexivity.
  destruct (lhs_sample rvs n corr) as [data|e]; simpl.
  - split; [reflexivity|]. split; [reflexivity|]. split; [reflexivity|].
    intros p. unfold generated_state. cbn [fs].
    set (d := pathjoin (pathname (self st)) (f_name field)).
    destruct (decide (p = pathjoin d TRIAL_DATA_CSV)) as [->|Hfile];
      [right; right; exists (f_name field); reflexivity|].
    assert (Hskip : forall (m : gmap path node) (k : path) nd,
               p <> k -> <[k := nd]> m !! p = m !! p)
      by (intros m k nd Hk; apply lookup_insert_ne; congruence).
    rewrite Hskip by exact Hfile.
    destruct (fs st !! d) as [nd|] eqn:Hd; [now left|].
    destruct (decide (p = d)) as [->|Hdir].
    + right. left. exists (f_name field). split; [reflexivity|].
      split; [exact Hd | apply lookup_insert_eq].
    + left. now apply Hskip.
  - repeat split. intros p. now left.
Qed.

Lemma generate_writes corr : preserves writes_trial_data (generate corr).
Proof.
  unfold generate.
  apply preserves_bind; [typeclasses eauto | apply preserves_gets; typeclasses eauto |].
  intros n.
  apply preserves_bind; [typeclasses eauto | |].
  - intros st. rewrite <- (chosen_fields_ro st). reflexivity.
  - intros fields. apply preserves_for_each; [typeclasses eauto|].
    intros field. apply generate_field_writes.
Qed.

(** X20.  [generate] writes trial data and nothing else: a node of
    the store that exists before the call and is not the
    [trial_data.csv] of a field is the same after it, so that results,
    failures, metadata and template are kept; the registry of
    distributions and the model objects are as they were, whether
    [generate] returns or raises. *)
Theorem generate_writes_only_trial_data :
  forall corr st,
    let st' := (generate corr st).2 in
    let sim_dir := pathname (self st) in
    instances st' = instances st
    /\ heap st' = heap st
    /\ (forall (p : path) nd,
          fs st !! p = Some nd ->
          (forall fname, p <> pathjoin (pathjoin sim_dir fname) TRIAL_DATA_CSV) ->
          fs st' !! p = Some nd)
    /\ (forall fname,
          fs st' !! pathjoin (pathjoin sim_dir fname) RESULTS_CSV
          = fs st !! pathjoin (pathjoin sim_dir fname) RESULTS_CSV
          /\ fs st' !! pathjoin (pathjoin sim_dir fname) FAILURES_CSV
             = fs st !! pathjoin (pathjoin sim_dir fname) FAILURES_CSV).
Proof.
  intros corr st st' sim_dir.
  destruct (generate_writes corr st) as (_ & Hinst & Hheap & Hfs).
  fold st' in Hinst, Hheap, Hfs. fold sim_dir in Hfs.
  split; [exact Hinst|]. split; [exact Hheap|]. split.
  - intros p nd Hnd Hdata.
    destruct (Hfs p) as [Heq|[(fname & _ & Hnone & _)|(fname & Hp)]].
    + now rewrite Heq.
    + rewrite Hnd in Hnone. discriminate.
    + now apply Hdata in Hp.
  - assert (Hother : forall fname x,
               x <> TRIAL_DATA_CSV ->
               fs st' !! pathjoin (pathjoin sim_dir fname) x
               = fs st !! pathjoin (pathjoin sim_dir fname) x).
    { intros fname x Hx.
      destruct (Hfs (pathjoin (pathjoin sim_dir fname) x))
        as [Heq|[(fname' & Hp & _)|(fname' & Hp)]].
      - exact Heq.
      - apply pathjoin_inj in Hp as [Hp _]. now apply pathjoin_ne_self in Hp.
      - apply pathjoin_inj in Hp as [_ ->]. contradiction. }
    intros fname. split; apply Hother; discriminate.
Qed.

(** ** From generate to the evaluator *)

Lemma set_values_ok field data : forall st,
  (forall name v, (name, v) ∈ data -> exists r, (lookup name field st).1 = Ok r) ->
  exists st', set_values field data st = (Ok tt, st').
Proof.
  induction data as [|[n v] rest IH]; intros st Hall; [eexists; reflexivity|].
  destruct (Hall n v (list_elem_of_here _ _)) as [r Hlk].
  unfold set_values. simpl for_each. unfold bind at 1. unfold bind at 1.
  rewrite (read_only_run (lookup n field)) by apply lookup_ro. simpl. rewrite Hlk.
  destruct (lookup_ok_attr_at n field st r Hlk) as [x Hx].
  destruct (set_explicit_value_valid r v st x Hx) as (m & Hm & ->).
  fold (set_values field rest). apply IH.
  intros name v0 Hin.
  destruct (Hall name v0 (list_elem_of_further _ _ _ Hin)) as [r0 Hr0].
  exists r0. rewrite <- Hr0. apply lookup_same_names.
  now apply same_names_set with x.
Qed.

(** The first part of a trial when the template is cached and holds
    the analysis and the field. *)
Lemma trial_load_template fname st xml m0 an a0 :
  model_xml_string (self st) = Some xml ->
  analysis_name (self st) = Some an ->
  parse_xml xml [Some an] (field_names (self st)) = Ok m0 ->
  analysis_dict m0 !! an = Some a0 ->
  fname ∈ analysis_fields a0 ->
  is_Some (field_dict m0 !! fname) ->
  trial_load fname st
  = (Ok (inl (mkFieldRef (length (heap st)) fname)),
     loaded_state (length (heap st)) xml m0
       (Some (mkAnalysisRef (length (heap st)) an)) st).
Proof.
  intros Hxml Han Hparse Ha0 Hin Hfd.
  rewrite trial_load_general. unfold template_source, ModelFile_source.
  rewrite Hxml. change (ret xml st) with (Ok xml, st). cbn [fst snd].
  rewrite Han, Hparse. cbv zeta.
  unfold Model_get_analysis. rewrite Ha0.
  assert (Hget : (Analysis_get_field (mkAnalysisRef (length (heap st)) an) fname
                    (loaded_state (length (heap st)) xml m0
                       (Some (mkAnalysisRef (length (heap st)) an)) st)).1
                 = Ok (mkFieldRef (length (heap st)) fname)).
  { unfold Analysis_get_field, get_model. unfold_py.
    rewrite lookup_app_r by reflexivity. rewrite Nat.sub_diag. simpl.
    rewrite Ha0. now rewrite !bool_decide_eq_true_2. }
  now rewrite Hget.
Qed.

Lemma zip_names {A B} (l : list A) (k : list B) x y : (x, y) ∈ zip l k -> x ∈ l.
Proof.
  revert k. induction l as [|a l IH]; intros [|b k] H; simpl in H; try (inversion H; fail).
  apply elem_of_cons in H as [[= -> ->]|H].
  - apply list_elem_of_here.
  - apply list_elem_of_further. eauto.
Qed.

(** ** Reopening with a number of trials *)

#[local] Instance keeps_trials_preorder : PreOrder keeps_trials.
Proof.
  split.
  - intros st. reflexivity.
  - intros s1 s2 s3 H12 H23. unfold keeps_trials in *. congruence.
Qed.

Ltac trials_tac := preserves_tac; try solve [reflexivity].

Lemma cache_model_file_trials p : preserves keeps_trials (cache_model_file p).
Proof. unfold cache_model_file, read_text, open_read. trials_tac. Qed.

Lemma load_model_trials sp : preserves keeps_trials (load_model sp).
Proof.
  unfold load_model, ModelFile, ModelFile_source, read_text, open_read, write_file,
    new_model, get_model.
  trials_tac.
Qed.

Lemma init_loads_metadata sim_dir n names md st :
  fs st !! pathjoin sim_dir META_DATA_FILE = Some (File (Json md)) ->
  (truthy_list names = true -> is_Some (md_field_names md)) ->
  (modify_self (fun _ => mkSim sim_dir (model_file_path sim_dir) None None None n
                           None None names None) ;;
   _load_meta_data names) st
  = (Ok tt,
     with_self (reopened_sim sim_dir names md)
       (with_trace (trace st ++ [EvRead (pathjoin sim_dir META_DATA_FILE)]) st)).
Proof.
  intros Hfile Hnames.
  unfold _load_meta_data, metadata_path, json_load, open_read.
  unfold_py. rewrite Hfile. simpl.
  unfold reopened_sim, loaded_field_names.
  destruct (truthy_list names) eqn:Ht.
  - destruct (Hnames eq_refl) as [l Hl]. rewrite Hl. reflexivity.
  - reflexivity.
Qed.

Lemma Simulation_init_reopens sim_dir n names sp md st :
  isdir sim_dir st = true ->
  fs st !! pathjoin sim_dir META_DATA_FILE = Some (File (Json md)) ->
  (truthy_list names = true -> is_Some (md_field_names md)) ->
  Simulation_init sim_dir None n names sp false st
  = (cache_model_file (model_file_path sim_dir) ;;
     load_model sp ;;
     if (0 <? n)%nat then generate None else ret tt)
      (with_self (reopened_sim sim_dir names md)
         (with_trace (trace st ++ [EvRead (pathjoin sim_dir META_DATA_FILE)]) st)).
Proof.
  intros Hdir Hfile Hnames.
  pose proof (init_loads_metadata sim_dir n names md st Hfile Hnames) as Hload.
  unfold Simulation_init.
  unfold bind at 1, gets at 1. rewrite Hdir.
  cbn [negb truthy_str andb]. cbv beta iota zeta.
  unfold bind at 1 in Hload. unfold modify_self at 1, modify at 1 in Hload.
  cbv beta iota in Hload.
  unfold bind at 1. unfold modify_self at 1, modify at 1. cbv beta iota.
  unfold bind at 1. rewrite Hload.
  unfold bind.
  destruct (cache_model_file _ _) as [[[]|e] s1]; reflexivity.
Qed.

(** X22.  Reopening a simulation with a number of trials samples the
    saved number.  When the metadata of the directory can be loaded, a
    constructor given no analysis name and a positive number of trials
    does what the constructor given no trials does, and then, when that
    returned, samples for the chosen fields the number of trials of
    the metadata: the number it was given decides that [generate]
    runs, and is not the number of trials sampled. *)
Theorem reopening_with_trials_samples_the_saved_number :
  forall sim_dir n names sp md st,
    isdir sim_dir st = true ->
    fs st !! pathjoin sim_dir META_DATA_FILE = Some (File (Json md)) ->
    (truthy_list names = true -> is_Some (md_field_names md)) ->
    (0 < n)%nat ->
    Simulation_init sim_dir None n names sp false st
    = (Simulation_init sim_dir None 0 names sp false ;; generate None) st
    /\ forall st0,
         Simulation_init sim_dir None 0 names sp false st = (Ok tt, st0) ->
         trials (self st0) = md_trials md
         /\ Simulation_init sim_dir None n names sp false st
            = (fields <- chosen_fields ;;
               for_each fields (generate_field (md_trials md) None)) st0.
Proof.
  intros sim_dir n names sp md st Hdir Hfile Hnames Hn.
  set (s := with_self (reopened_sim sim_dir names md)
              (with_trace (trace st ++ [EvRead (pathjoin sim_dir META_DATA_FILE)]) st)).
  assert (Hpos : (0 <? n)%nat = true) by now apply Nat.ltb_lt.
  assert (Heq : Simulation_init sim_dir None n names sp false st
                = (Simulation_init sim_dir None 0 names sp false ;; generate None) st).
  { unfold bind at 1.
    rewrite !(Simulation_init_reopens sim_dir _ names sp md st Hdir Hfile Hnames).
    fold s. rewrite Hpos. change (0 <? 0)%nat with false. cbv iota.
    unfold bind.
    destruct (cache_model_file _ s) as [[[]|e] s1]; [|reflexivity].
    destruct (load_model sp s1) as [[[]|e] s2]; reflexivity. }
  split; [exact Heq|].
  intros st0 Hst0.
  assert (Htr : trials (self st0) = md_trials md).
  { rewrite (Simulation_init_reopens sim_dir _ names sp md st Hdir Hfile Hnames) in Hst0.
    fold s in Hst0. change (0 <? 0)%nat with false in Hst0. cbv iota in Hst0.
    unfold bind in Hst0.
    pose proof (cache_model_file_trials (model_file_path sim_dir) s) as H1.
    destruct (cache_model_file _ s) as [[[]|e] s1]; [|discriminate].
    pose proof (load_model_trials sp s1) as H2.
    destruct (load_model sp s1) as [[[]|e] s2]; [|discriminate].
    injection Hst0 as <-. unfold keeps_trials in H1, H2. simpl in H1, H2.
    now rewrite H2, H1. }
  split; [exact Htr|].
  rewrite Heq. unfold bind at 1. rewrite Hst0.
  unfold generate. unfold bind at 1, gets at 1. now rewrite Htr.
Qed.

End Proofs.


Lemma read_distributions_skip_rules_witness :
  read_row (uniform_row "C" 1 1) empty_st = (Ok tt, empty_st)
  /\ read_row (binary_row "D" (CNum 1%Q)) empty_st = (Ok tt, empty_st)
  /\ (exists st',
        read_row (uniform_row "B" 0 1) empty_st = (Ok tt, st')
        /\ distro_by_name "B" st'
           = Some (mkDistribution "B" None "B"
                     (mkRV "uniform" [("min", CNum 0%Q); ("max", CNum 1%Q)])))
  /\ (exists msg,
        read_row (mkRow "weibull" "B" (CNum 0%Q) (CNum 1%Q) CEmpty CEmpty CEmpty CEmpty CEmpty)
          empty_st
        = (Raise (McsSystemError msg), empty_st)).
Proof.
  destruct (@read_distributions_skip_rules demo_ext) as (Hskip & Hreg & Hunknown & _).
  split; [apply Hskip; right; reflexivity|].
  split; [apply Hskip; right; reflexivity|].
  split.
  - destruct (Hreg (uniform_row "B" 0 1) empty_st eq_refl eq_refl eq_refl) as (_ & H & _).
    apply (H (mkRV "uniform" [("min", CNum 0%Q); ("max", CNum 1%Q)]) (None, "B"));
      reflexivity.
  - apply Hunknown; reflexivity.
Defined.

(** C3 as stated fails: a uniform row with distinct bounds and a name of
    three parts is of a known shape and meets no skip rule, yet it is not
    registered; the constructor raises [McsUserError]. *)
Lemma three_part_name_not_registered :
  skipped_early three_part_row = false
  /\ spec_skip three_part_row = false
  /\ known_shape three_part_row = true
  /\ (exists msg, read_row three_part_row empty_st = (Raise (McsUserError msg), empty_st))
  /\ distro_by_name (variable_name three_part_row) (read_row three_part_row empty_st).2
     = None.
Proof.
  repeat split; try reflexivity.
  eexists. reflexivity.
Qed.

Lemma load_meta_data_drops_unknown_names_witness :
  exists st',
    _load_meta_data (Some ["f2"; "f9"])
      (with_self (mkSim demo_dir [] None None None 0 None None None None) reload_st)
    = (Ok tt, st')
    /\ field_names (self st') = Some (filter (fun name => name ∈ ["f2"; "f9"]) ["f1"; "f2"])
    /\ analysis_name (self st') = Some "ana"
    /\ trials (self st') = 5%nat
    /\ metadata (self st') = Some demo_metadata.
Proof.
  apply (load_meta_data_drops_unknown_names
           (with_self (mkSim demo_dir [] None None None 0 None None None None) reload_st)
           ["f2"; "f9"] demo_metadata ["f1"; "f2"]).
  - reflexivity.
  - reflexivity.
  - discriminate.
Defined.

(** C5 as stated fails: a directory is reloaded with the requested names
    f2 and f9, the metadata lists f1 and f2, and the constructor returns
    with f2 as the only field name: no error is raised for f9, neither
    when the metadata only are loaded nor when the model is loaded as
    well. *)
Lemma unknown_field_name_raises_nothing :
  ("f9" ∉ ["f1"; "f2"])
  /\ (Simulation_init demo_dir None 0 (Some ["f2"; "f9"]) None true reload_st).1 = Ok tt
  /\ field_names
       (self (Simulation_init demo_dir None 0 (Some ["f2"; "f9"]) None true reload_st).2)
     = Some ["f2"]
  /\ (Simulation_init demo_dir None 0 (Some ["f2"; "f9"]) None false saved_st).1 = Ok tt
  /\ field_names
       (self (Simulation_init demo_dir None 0 (Some ["f2"; "f9"]) None false saved_st).2)
     = Some ["f2"].
Proof.
  split; [|repeat split; vm_compute; reflexivity].
  intros H. repeat (apply elem_of_cons in H as [H|H]; [discriminate|]). inversion H.
Qed.

Lemma explicit_overrides_distribution_witness :
  registry_wf loaded_st
  /\ generate_field 5 None demo_f2 loaded_st = (Raise (no_columns_error demo_f2), loaded_st)
  /\ (forall st',
        generate_field 5 None demo_f1 loaded_st = (Ok tt, st') ->
        exists df,
          trial_data_df (self st') = Some df
          /\ fs st' !! pathjoin (pathjoin demo_dir "f1") TRIAL_DATA_CSV = Some (File (Csv df))
          /\ forall d, d ∈ distributions loaded_st ->
                       (target_explicit d demo_f1 loaded_st).1 = Ok true ->
                       column_name d ∉ df_columns df).
Proof.
  assert (Hwf : registry_wf loaded_st) by (repeat constructor).
  split; [exact Hwf|]. split.
  - destruct (explicit_overrides_distribution 5%nat None demo_f2 loaded_st Hwf)
      as (_ & _ & H & _).
    apply H. repeat constructor.
  - destruct (explicit_overrides_distribution 5%nat None demo_f1 loaded_st Hwf)
      as (H & _).
    exact H.
Defined.

Lemma trial_data_cache_not_keyed_by_field_witness :
  trial_data_df (self cached_st) = Some demo_table
  /\ field_trial_data (ByObj demo_f2) cached_st = (Ok demo_table, cached_st)
  /\ trial_data (ByObj demo_f2) 3 cached_st = (Ok [("A", 4%Q)], cached_st)
  /\ field_trial_data (ByName "f2") cached_st = (Ok demo_table, cached_st).
Proof.
  destruct (@trial_data_cache_not_keyed_by_field demo_ext) as (H & _).
  destruct (H cached_st demo_table eq_refl) as (Hobj & Hrow & _ & Hname).
  split; [reflexivity|].
  split; [apply Hobj|].
  split; [apply Hrow; reflexivity|].
  apply (Hname "f2" demo_f2). reflexivity.
Defined.

Lemma trial_isolation_witness :
  model_xml_string (self cached_st) = Some demo_xml
  /\ exists ls st1 st' evs,
       run_trials [0; 3; 7] (mkLoopState demo_f1 0 [] []) cached_st = (Ok ls, st1)
       /\ run_field demo_f1 (Some [0; 3; 7]) cached_st = (Ok (ls_completed ls), st')
       /\ trace st1 = trace cached_st ++ evs
       /\ isolated_trials demo_xml "f1" 1 [0; 3; 7] evs (length (heap st1))
       /\ (forall i, (i < 1)%nat -> heap st1 !! i = heap cached_st !! i)
       /\ ls_results ls = completed_rows (trial_outcome "f1" cached_st) [0; 3; 7]
       /\ ls_failures ls = failed_trials (trial_outcome "f1" cached_st) [0; 3; 7].
Proof.
  split; [reflexivity|].
  exact (trial_isolation demo_f1 (Some [0; 3; 7]) cached_st demo_xml eq_refl).
Defined.


(** The files of the three trials 0, 3 and 7 of the small instance:
    trial 0 completes, the evaluator raises on trial 3 and the table has
    no trial 7. *)
Example demo_results_files :
  let st' := (run_field demo_f1 (Some [0; 3; 7]) cached_st).2 in
  (run_field demo_f1 (Some [0; 3; 7]) cached_st).1 = Ok 1%nat
  /\ fs st' !! results_file cached_st demo_f1
     = Some (File (Text ("trial_num,CI,total_GHG,combustion,land_use,VFF,other" +:+ nl
                         +:+ "0,1,1,1,0,0,0" +:+ nl)))
  /\ fs st' !! failures_file cached_st demo_f1
     = Some (File (Text ("trial_num,message" +:+ nl
                         +:+ "3," +:+ dquote +:+ "did not converge" +:+ dquote +:+ nl
                         +:+ "7," +:+ dquote
                         +:+ "Trial 7 was not found in 'sims/demo/f1/trial_data.csv'"
                         +:+ dquote +:+ nl))).
Proof. vm_compute. repeat split. Qed.

Lemma new_replaces_directory_witness :
  lexists demo_dir existing_st = true
  /\ (map_M read_text [source_model] (purged_state demo_dir existing_st)).1 = Ok [demo_xml]
  /\ (let st' := (new demo_dir [source_model] "ana" 3 (Some ["f1"]) true false
                   existing_st).2 in
      isdir demo_dir st' = true
      /\ fs st' !! model_file_path demo_dir = Some (File (Text demo_xml))
      /\ fs st' !! pathjoin demo_dir META_DATA_FILE
         = Some (File (Json (mkMetadata (Some "ana") 3 (Some ["f1"]))))
      /\ exists evs,
          trace st' = trace existing_st
                        ++ EvRemoveTree demo_dir :: EvMkdirs demo_dir :: evs
          /\ forall (p : path) nd,
              demo_dir `prefix_of` p -> fs st' !! p = Some nd ->
              p = demo_dir \/ EvWrite p ∈ evs \/ EvMkdirs p ∈ evs).
Proof.
  assert (Hex : lexists demo_dir existing_st = true) by reflexivity.
  assert (Hread : (map_M read_text [source_model] (purged_state demo_dir existing_st)).1
                  = Ok [demo_xml]) by (vm_compute; reflexivity).
  split; [exact Hex|]. split; [exact Hread|].
  destruct (new_replaces_directory demo_dir [source_model] "ana" 3%nat (Some ["f1"])
              false existing_st Hex) as (_ & H).
  refine (H [demo_xml] demo_xml demo_model (mkAnalysis ∅ ["f1"; "f2"])
            Hread eq_refl eq_refl eq_refl _).
  discriminate.
Defined.

Lemma init_requires_directory_witness :
  isdir demo_dir empty_st = false
  /\ Simulation_init demo_dir None 0 None None false empty_st
     = (Raise (McsUserError "Simulation directory 'sims/demo' does not exist."), empty_st).
Proof.
  split; [reflexivity |].
  apply (init_requires_directory demo_dir None 0%nat None None false empty_st).
  reflexivity.
Defined.

(** ** The further properties on the small instances *)

Lemma run_result {A} (x : result A * St) (a : A) : x.1 = Ok a -> x = (Ok a, x.2).
Proof. destruct x as [r s]. simpl. now intros ->. Qed.

Lemma read_distributions_stops_at_first_error_witness :
  let st1 := (read_distributions [uniform_row "A" 0 1] empty_st).2 in
  read_distributions ([uniform_row "A" 0 1] ++ weibull_row "B" :: [uniform_row "C" 0 1])
    empty_st
  = (Raise (McsSystemError "Unknown distribution shape: 'weibull'"), st1)
  /\ registry_names st1 = ["A"].
Proof.
  split; [|reflexivity].
  destruct (@read_distributions_stops_at_first_error demo_ext) as (_ & H & _).
  apply (H [uniform_row "A" 0 1] (weibull_row "B") [uniform_row "C" 0 1] empty_st).
  - apply run_result. reflexivity.
  - reflexivity.
Defined.

Lemma registry_keeps_first_registration_order_witness :
  registry_names (Distribution_init "A" demo_rv loaded_st).2 = ["A"; "Field.B"]
  /\ registry_names (Distribution_init "C" demo_rv loaded_st).2 = ["A"; "Field.B"; "C"]
  /\ ["A"; "Field.B"] `prefix_of` registry_names (run_ops demo_ops loaded_st).
Proof.
  destruct (@registry_keeps_first_registration_order demo_ext) as (Hone & Hall).
  split; [|split].
  - etransitivity;
      [apply (Hone "A" demo_rv loaded_st (mkDistribution "A" None "A" demo_rv));
       apply run_result; reflexivity
      | reflexivity].
  - etransitivity;
      [apply (Hone "C" demo_rv loaded_st (mkDistribution "C" None "C" demo_rv));
       apply run_result; reflexivity
      | reflexivity].
  - exact (Hall demo_ops loaded_st).
Defined.

Lemma rereading_a_table_keeps_the_registry_witness :
  let rows := [uniform_row "B" 0 1; uniform_row "A" 0 (10#1); uniform_row "B" 0 (5#1)] in
  let st1 := (read_distributions rows loaded_st).2 in
  NoDup (registry_names loaded_st)
  /\ read_distributions rows loaded_st = (Ok tt, st1)
  /\ exists st2,
       read_distributions rows st1 = (Ok tt, st2) /\ instances st2 = instances st1.
Proof.
  intros rows st1.
  assert (Hnd : NoDup (registry_names loaded_st)).
  { repeat constructor; rewrite ?elem_of_cons, ?elem_of_nil; intros H;
      repeat destruct H as [H|H]; try discriminate H; exact H. }
  assert (Hread : read_distributions rows loaded_st = (Ok tt, st1))
    by (apply run_result; reflexivity).
  split; [exact Hnd|]. split; [exact Hread|].
  exact (rereading_a_table_keeps_the_registry rows loaded_st st1 Hnd Hread).
Defined.

Lemma bare_and_Field_names_are_aliases_witness :
  has_char "." "WOR" = false
  /\ exists d1 d2 st1 st2,
       Distribution_init "WOR" demo_rv empty_st = (Ok d1, st1)
       /\ Distribution_init "Field.WOR" demo_rv st1 = (Ok d2, st2)
       /\ distro_by_name "WOR" st2 = Some d1
       /\ distro_by_name "Field.WOR" st2 = Some d2
       /\ d1 <> d2
       /\ column_name d1 = "WOR"
       /\ column_name d2 = "WOR"
       /\ forall field s, lookup (full_name d1) field s = lookup (full_name d2) field s.
Proof.
  split; [reflexivity|].
  exact (bare_and_Field_names_are_aliases "WOR" demo_rv demo_rv empty_st eq_refl).
Defined.

Lemma lookup_returns_an_existing_attribute_witness :
  (lookup "Field.A" demo_f1 loaded_st).1 = Ok (mkAttrRef 0 (OwField "f1") "A")
  /\ exists c a,
       split_attr_name "Field.A" = Ok (c, a)
       /\ owner_of_class c demo_f1 (analysis (self loaded_st)) = Some (0%nat, OwField "f1")
       /\ a = "A"
       /\ exists x, read_attr (mkAttrRef 0 (OwField "f1") "A") loaded_st = (Ok x, loaded_st).
Proof.
  assert (H : (lookup "Field.A" demo_f1 loaded_st).1 = Ok (mkAttrRef 0 (OwField "f1") "A"))
    by reflexivity.
  split; [exact H|].
  destruct (lookup_returns_an_existing_attribute "Field.A" demo_f1 loaded_st) as [_ Hr].
  destruct (Hr _ H) as (c & a & Hsplit & Hown & Hname & Hread).
  exists c, a. simpl in Hname. auto.
Defined.


Lemma generated_table_holds_the_trials_sampled_witness :
  let st' := (generate_field 3 None demo_f1 loaded_st).2 in
  generate_field 3 None demo_f1 loaded_st = (Ok tt, st')
  /\ exists cols rvs data,
       (select_columns demo_f1 (distributions loaded_st) [] [] loaded_st).1 = Ok (cols, rvs)
       /\ lhs_sample rvs 3 None = Ok data
       /\ (forall field' t row,
             (0 <= t)%Z -> data !! Z.to_nat t = Some row ->
             trial_data (ByObj field') t st' = (Ok (zip cols row), st'))
       /\ (forall field' t,
             (t < 0)%Z \/ (length data <= Z.to_nat t)%nat ->
             exists msg, trial_data (ByObj field') t st' = (Raise (McsSystemError msg), st')).
Proof.
  intros st'.
  assert (Hgen : generate_field 3 None demo_f1 loaded_st = (Ok tt, st'))
    by (apply run_result; reflexivity).
  split; [exact Hgen|].
  exact (generated_table_holds_the_trials_sampled 3%nat None demo_f1 loaded_st st' Hgen).
Defined.

Lemma set_trial_data_sets_the_attributes_witness :
  let st' := (set_trial_data demo_f1 3 cached_st).2 in
  set_trial_data demo_f1 3 cached_st = (Ok tt, st')
  /\ exists data,
       (trial_data (ByObj demo_f1) 3 cached_st).1 = Ok data
       /\ (forall i name v,
             data !! i = Some (name, v) ->
             exists r,
               (lookup name demo_f1 st').1 = Ok r
               /\ ((forall j name' v',
                       (i < j)%nat -> data !! j = Some (name', v') ->
                       (lookup name' demo_f1 st').1 <> Ok r) ->
                   read_attr r st' = (Ok (mkAttr true v), st')))
       /\ (forall r',
             (forall name v, (name, v) ∈ data -> (lookup name demo_f1 st').1 <> Ok r') ->
             attr_at r' st' = attr_at r' cached_st).
Proof.
  intros st'.
  assert (Hset : set_trial_data demo_f1 3 cached_st = (Ok tt, st'))
    by (apply run_result; reflexivity).
  split; [exact Hset|].
  exact (set_trial_data_sets_the_attributes demo_f1 3 cached_st st' Hset).
Defined.

Lemma without_trial_data_every_trial_fails_witness :
  trial_data_df (self loaded_st) = None
  /\ fs loaded_st !! pathjoin (pathjoin demo_dir "f1") TRIAL_DATA_CSV = None
  /\ exists failures st',
       run_field demo_f1 (Some [0; 3]) loaded_st = (Ok 0%nat, st')
       /\ map fst failures = [0; 3]
       /\ fs st' !! results_file loaded_st demo_f1
          = Some (File (Text (csv_line result_columns)))
       /\ fs st' !! failures_file loaded_st demo_f1
          = Some (File (Text (failures_text failures))).
Proof.
  split; [reflexivity|]. split; [reflexivity|].
  destruct (without_trial_data_every_trial_fails demo_f1 (Some [0; 3]) loaded_st
              eq_refl eq_refl)
    as (failures & st' & Hrun & Hnums & _ & Hres & Hfail).
  exists failures, st'. auto.
Defined.

Lemma run_field_writes_only_its_results_witness :
  let st' := (run_field demo_f1 (Some [0; 3; 7]) cached_st).2 in
  instances st' = instances cached_st
  /\ fs st' !! demo_dir = Some Dir
  /\ fs st' !! pathjoin (pathjoin demo_dir "f2") RESULTS_CSV = None.
Proof.
  intros st'.
  destruct (run_field_writes_only_its_results demo_f1 (Some [0; 3; 7]) cached_st)
    as (Hinst & Hframe & _).
  split; [exact Hinst|]. split.
  - etransitivity; [apply Hframe; discriminate | reflexivity].
  - etransitivity; [apply Hframe; discriminate | reflexivity].
Defined.

Lemma run_writes_only_results_witness :
  let st' := (run (Some [0; 3]) (Some ["f1"; "f2"]) cached_st).2 in
  instances st' = instances cached_st
  /\ fs st' !! demo_dir = Some Dir
  /\ fs st' !! pathjoin (pathjoin demo_dir "f1") TRIAL_DATA_CSV = None.
Proof.
  intros st'.
  destruct (run_writes_only_results (Some [0; 3]) (Some ["f1"; "f2"]) cached_st)
    as (Hinst & Hkeep & _ & Hdata).
  split; [exact Hinst|]. split.
  - apply Hkeep; [reflexivity | |]; intros fname H; apply (f_equal length) in H;
      discriminate H.
  - etransitivity; [apply (Hdata "f1") | reflexivity].
Defined.

Lemma run_runs_the_enabled_fields_witness :
  filter (fun n => Is_true (enabled_in mixed_model n)) ["f1"; "f2"] = ["f1"]
  /\ run (Some [0; 3]) (Some ["f1"; "f2"]) mixed_st
     = for_each (filter (fun n => Is_true (enabled_in mixed_model n)) ["f1"; "f2"])
         (fun n => run_field (mkFieldRef 0 n) (Some [0; 3]) ;; ret tt) mixed_st.
Proof.
  split; [reflexivity|].
  apply (run_runs_the_enabled_fields (Some [0; 3]) ["f1"; "f2"] mixed_st demo_xml
           (mkAnalysisRef 0 "ana") mixed_model (mkAnalysis ∅ ["f1"; "f2"]));
    try reflexivity.
  - discriminate.
  - intros n Hn. apply elem_of_cons in Hn as [->|Hn].
    + split; [apply list_elem_of_here | eexists; reflexivity].
    + apply elem_of_cons in Hn as [->|Hn]; [|inversion Hn].
      split; [apply list_elem_of_further, list_elem_of_here | eexists; reflexivity].
Defined.


Lemma constructor_saves_the_metadata_first_witness :
  isdir demo_dir saved_st = true
  /\ (Simulation_init demo_dir (Some "nope") 2 None None false saved_st).1
     = Raise (CommandlineError "Analysis 'nope' was not found in model")
  /\ let st' := (Simulation_init demo_dir (Some "nope") 2 None None false saved_st).2 in
     fs st' !! pathjoin demo_dir META_DATA_FILE
     = Some (File (Json (mkMetadata (Some "nope") 2 None)))
     /\ (read_metadata demo_dir st').1 = Ok (Some (mkMetadata (Some "nope") 2 None)).
Proof.
  split; [reflexivity|]. split; [vm_compute; reflexivity|].
  apply (constructor_saves_the_metadata_first demo_dir "nope" 2%nat None demo_xml saved_st);
    [reflexivity | reflexivity | discriminate].
Defined.

Lemma reloading_some_of_all_fields_raises_witness :
  isdir demo_dir saved_st = true
  /\ let st' := (Simulation_init demo_dir (Some "ana") 0 None None false saved_st).2 in
     (Simulation_init demo_dir None 0 (Some ["f1"]) None false st').1
     = Raise (OtherError "'NoneType' object is not iterable").
Proof.
  split; [reflexivity|].
  destruct (@reloading_some_of_all_fields_raises demo_ext) as (_ & H).
  apply (H demo_dir "ana" 0%nat demo_xml saved_st ["f1"] false);
    [reflexivity | reflexivity | discriminate | discriminate].
Defined.

Lemma opening_a_simulation_writes_nothing_witness :
  truthy_str None = false
  /\ (Simulation_init demo_dir None 0 (Some ["f1"]) None false saved_st).1 = Ok tt
  /\ let st' := (Simulation_init demo_dir None 0 (Some ["f1"]) None false saved_st).2 in
     fs st' = fs saved_st
     /\ instances st' = instances saved_st
     /\ exists evs, trace st' = trace saved_st ++ evs /\ Forall is_read evs.
Proof.
  split; [reflexivity|]. split; [vm_compute; reflexivity|].
  exact (opening_a_simulation_writes_nothing demo_dir None (Some ["f1"]) false saved_st
           eq_refl).
Defined.


Lemma generate_samples_the_free_distributions_witness :
  let free := List.filter (is_free demo_f1 loaded_st) (distributions loaded_st) in
  let st' := (generate_field 3 None demo_f1 loaded_st).2 in
  let st_c := (Distribution_init "C" demo_rv loaded_st).2 in
  map column_name free = ["A"]
  /\ generate_field 3 None demo_f1 loaded_st = (Ok tt, st')
  /\ (exists data,
        lhs_sample (map rv free) 3 None = Ok data
        /\ trial_data_df (self st') = Some (generated_table (map column_name free) data)
        /\ fs st' !! pathjoin (pathjoin demo_dir "f1") TRIAL_DATA_CSV
           = Some (File (Csv (generated_table (map column_name free) data))))
  /\ exists dist' e',
       dist' ∈ distributions st_c
       /\ generate_field 3 None demo_f1 st_c = (Raise e', st_c).
Proof.
  intros free st' st_c.
  assert (Hgen : generate_field 3 None demo_f1 loaded_st = (Ok tt, st'))
    by (apply run_result; reflexivity).
  split; [reflexivity|]. split; [exact Hgen|]. split.
  - destruct (generate_samples_the_free_distributions 3%nat None demo_f1 loaded_st)
      as (Hok & _).
    destruct (Hok st' Hgen) as (data & Hdata & Hdf & Hfile & _).
    exists data. auto.
  - destruct (generate_samples_the_free_distributions 3%nat None demo_f1 st_c)
      as (_ & Hraise).
    edestruct (Hraise (mkDistribution "C" None "C" demo_rv))
      as (dist' & e' & Hin & _ & Hres).
    + do 2 apply list_elem_of_further. apply list_elem_of_here.
    + vm_compute. reflexivity.
    + exists dist', e'. auto.
Defined.

Lemma trial_data_by_name_of_a_missing_trial_witness :
  trial_data_df (self cached_st) = Some demo_table
  /\ df_loc demo_table 9 = None
  /\ trial_data (ByName "f2") 3 cached_st = (Ok [("A", 4%Q)], cached_st)
  /\ trial_data (ByName "f2") 9 cached_st
     = (Raise (OtherError "'str' object has no attribute 'name'"), cached_st)
  /\ exists msg, trial_data (ByObj demo_f2) 9 cached_st = (Raise (McsSystemError msg), cached_st).
Proof.
  split; [reflexivity|]. split; [reflexivity|].
  split.
  - destruct (trial_data_by_name_of_a_missing_trial "f2" 3 cached_st demo_table demo_f2
                eq_refl eq_refl) as (Hrow & _).
    apply Hrow. reflexivity.
  - destruct (trial_data_by_name_of_a_missing_trial "f2" 9 cached_st demo_table demo_f2
                eq_refl eq_refl) as (_ & Hnone).
    apply Hnone. reflexivity.
Defined.

Lemma generate_writes_only_trial_data_witness :
  let st' := (generate None loaded_st).2 in
  instances st' = instances loaded_st
  /\ fs st' !! demo_dir = Some Dir
  /\ fs st' !! pathjoin (pathjoin demo_dir "f1") RESULTS_CSV = None.
Proof.
  intros st'.
  destruct (generate_writes_only_trial_data None loaded_st)
    as (Hinst & _ & Hkeep & Hres).
  split; [exact Hinst|]. split.
  - apply Hkeep; [reflexivity|]. intros fname H. apply (f_equal length) in H.
    discriminate H.
  - etransitivity; [apply (Hres "f1") | reflexivity].
Defined.


Lemma reopening_with_trials_samples_the_saved_number_witness :
  let st0 := (Simulation_init demo_dir None 0 (Some ["f1"]) None false registered_st).2 in
  isdir demo_dir registered_st = true
  /\ md_trials demo_metadata = 5%nat
  /\ trials (self st0) = 5%nat
  /\ Simulation_init demo_dir None 2 (Some ["f1"]) None false registered_st
     = (fields <- chosen_fields ;;
        for_each fields (generate_field 5 None)) st0
  /\ trial_data_df
       (self (Simulation_init demo_dir None 2 (Some ["f1"]) None false registered_st).2)
     = Some (generated_table ["A"] (replicate 5 [0%Q])).
Proof.
  intros st0.
  split; [reflexivity|]. split; [reflexivity|].
  destruct (reopening_with_trials_samples_the_saved_number demo_dir 2%nat (Some ["f1"])
              None demo_metadata registered_st eq_refl eq_refl)
    as (_ & H).
  - intros _. eexists; reflexivity.
  - lia.
  - assert (H0 : Simulation_init demo_dir None 0 (Some ["f1"]) None false registered_st
                 = (Ok tt, st0))
      by (unfold st0; apply run_result; vm_compute; reflexivity).
    destruct (H st0 H0) as (Htr & Hrun).
    split; [exact Htr|]. split; [exact Hrun|]. vm_compute. reflexivity.
Defined.
